(** * Doctor appointment system: the slot allocation engine

    A shallow embedding of [backend/app]: the SQLAlchemy models
    ([models/models.py]), the pydantic request schemas
    ([schemas/schemas.py]), the CRUD layer ([crud/crud_appointment.py],
    [crud/crud_schedule.py]) and the route bodies
    ([api/v1/appointments.py], [api/v1/schedules.py]).

    Conventions of the embedding.
    - A [datetime.time] is its number of microseconds since midnight, a
      [datetime.date] its proleptic Gregorian ordinal ([date.toordinal()]);
      the calendar is taken as unbounded ([date.max] and the
      [OverflowError] of datetime arithmetic beyond it are not modelled).
    - A table is the list of its rows in primary-key order.  SQL leaves the
      row order of a query without [order_by], and the order of ties under
      [order_by], to the engine (SQLite may answer from a unique index); the
      embedding takes primary-key order for both, and no theorem below
      depends on which of several matching rows comes first.
    - [db.commit()] checks the constraints the models declare (primary key,
      [nullable=False], the two [UniqueConstraint]s); a violation is the
      [IntegrityError] the CRUD functions catch.  Users and foreign keys are
      not modelled: ids of actors come from an authenticated caller.
    - A function that can raise returns an [outcome]; a function that
      writes returns the new database next to it.  A [while] loop takes
      fuel and answers [None] when the fuel runs out. *)

From Stdlib Require Import ZArith List Bool String Lia DecimalString Sorted
  Permutation.
Import ListNotations.
Open Scope string_scope.
Open Scope list_scope.
Open Scope Z_scope.

(** ** datetime *)

Definition time := Z.
Definition date := Z.

Definition usec_per_minute : Z := 60000000.
Definition usec_per_day : Z := 86400000000.

(** [time(h, m)] *)
Definition mk_time (h m : Z) : time := (h * 60 + m) * usec_per_minute.

(** [date.weekday()]: Monday is 0, Sunday is 6. *)
Definition weekday (d : date) : Z := (d + 6) mod 7.

(** [(datetime.combine(d, t) + timedelta(minutes=m)).time()]: the date part
    of the sum is dropped, so the time of day wraps around midnight. *)
Definition next_slot_time (t : time) (m : Z) : time :=
  (t + m * usec_per_minute) mod usec_per_day.

(** ** Exceptions and results *)

Inductive exn : Type :=
| ValueError (msg : string)
| TypeError
| RequestValidationError (msg : string)
| HTTPException (status_code : Z) (detail : string).

Inductive outcome (A : Type) : Type :=
| Return (a : A)
| Raise (e : exn).
Arguments Return {A} a.
Arguments Raise {A} e.

Definition str_of_nat (n : nat) : string :=
  NilEmpty.string_of_uint (Nat.to_uint n).

(** ** models.py *)

Inductive UserRole : Type := DOCTOR | PATIENT.

Inductive AppointmentStatus : Type := SCHEDULED | COMPLETED | CANCELLED.

Definition UserRole_eqb (a b : UserRole) : bool :=
  match a, b with
  | DOCTOR, DOCTOR | PATIENT, PATIENT => true
  | _, _ => false
  end.

Definition AppointmentStatus_eqb (a b : AppointmentStatus) : bool :=
  match a, b with
  | SCHEDULED, SCHEDULED | COMPLETED, COMPLETED | CANCELLED, CANCELLED => true
  | _, _ => false
  end.

(** The authenticated actor [get_current_user] hands to a route. *)
Module User.
Record t : Type := mk { id : Z; role : UserRole }.
End User.

(** A row of [schedules].  [slot_duration] and [is_active] are nullable
    columns. *)
Module Schedule.
Record t : Type := mk {
  id : Z;
  doctor_id : Z;
  day_of_week : Z;
  start_time : time;
  end_time : time;
  slot_duration : option Z;
  is_active : option bool;
  created_at : Z
}.
End Schedule.

(** A row of [appointments].  [duration] and [status] are nullable
    columns. *)
Module Appointment.
Record t : Type := mk {
  id : Z;
  doctor_id : Z;
  patient_id : Z;
  appointment_date : date;
  appointment_time : time;
  duration : option Z;
  reason : string;
  status : option AppointmentStatus;
  created_at : Z;
  updated_at : Z
}.
End Appointment.

(** The session: both tables. *)
Record Db : Type := mkDb {
  schedules : list Schedule.t;
  appointments : list Appointment.t
}.

Definition empty_db : Db := mkDb [] [].

(** What the process reads from the system clock: [date.today()] and
    [datetime.utcnow()]. *)
Record Clock : Type := mkClock { today : date; utcnow : Z }.

(** ** schemas.py *)

(** A field of an update schema ([Optional[...] = None]): left out of the
    request, or given, possibly as [null]. *)
Inductive field (A : Type) : Type :=
| Unset
| Given (v : option A).
Arguments Unset {A}.
Arguments Given {A} v.

(** Attribute access on the parsed model: [None] when unset or null. *)
Definition value_of {A} (f : field A) : option A :=
  match f with Unset => None | Given v => v end.

(** [name in model.dict(exclude_unset=True)] *)
Definition is_set {A} (f : field A) : bool :=
  match f with Unset => false | Given _ => true end.

(** One turn of [for field, value in update_data.items(): setattr(...)] on a
    column whose current value is [old]. *)
Definition setattr {A} (f : field A) (old : option A) : option A :=
  match f with Unset => old | Given v => v end.

Module ScheduleCreate.
Record t : Type := mk {
  day_of_week : Z;
  start_time : time;
  end_time : time;
  slot_duration : Z
}.

(** The validators of [ScheduleBase], in field order: [validate_day_of_week]
    then [validate_times]. *)
Definition validate (s : t) : outcome t :=
  if negb ((0 <=? day_of_week s) && (day_of_week s <=? 6)) then
    Raise (RequestValidationError
             "Day of week must be between 0 (Monday) and 6 (Sunday)")
  else if end_time s <=? start_time s then
    Raise (RequestValidationError "End time must be after start time")
  else Return s.
End ScheduleCreate.

Module ScheduleUpdate.
Record t : Type := mk {
  day_of_week : field Z;
  start_time : field time;
  end_time : field time;
  slot_duration : field Z;
  is_active : field bool
}.
End ScheduleUpdate.

Module AppointmentCreate.
Record t : Type := mk {
  appointment_date : date;
  appointment_time : time;
  reason : string;
  duration : Z;
  doctor_id : Z
}.

(** [validate_future_date] of [AppointmentBase]. *)
Definition validate (today : date) (a : t) : outcome t :=
  if appointment_date a <? today then
    Raise (RequestValidationError "Appointment date must be in the future")
  else Return a.
End AppointmentCreate.

Module AppointmentUpdate.
Record t : Type := mk {
  appointment_date : field date;
  appointment_time : field time;
  reason : field string;
  status : field AppointmentStatus
}.
End AppointmentUpdate.

Module AvailableSlot.
Record t : Type := mk { date : date; time : time; doctor_id : Z }.
End AvailableSlot.

(** ** SQL comparisons on nullable columns

    A comparison with NULL is not true, so the row is filtered out. *)

Definition status_is (s : option AppointmentStatus) (v : AppointmentStatus)
  : bool :=
  match s with Some x => AppointmentStatus_eqb x v | None => false end.

Definition status_is_not (s : option AppointmentStatus)
  (v : AppointmentStatus) : bool :=
  match s with Some x => negb (AppointmentStatus_eqb x v) | None => false end.

Definition is_true (b : option bool) : bool :=
  match b with Some true => true | _ => false end.

Definition next_id (ids : list Z) : Z := 1 + fold_right Z.max 0 ids.

Definition opt_eqb {A} (eqb : A -> A -> bool) (x y : option A) : bool :=
  match x, y with
  | Some a, Some b => eqb a b
  | None, None => true
  | _, _ => false
  end.

(** ** crud_appointment.py *)

(** [UniqueConstraint('doctor_id', 'appointment_date', 'appointment_time')]:
    does a row of [rows] already hold this triple?  The constraint ranges
    over every row, whatever its status. *)
Definition slot_key_taken (rows : list Appointment.t)
  (doctor_id : Z) (d : date) (t : time) : bool :=
  existsb (fun r =>
             (Appointment.doctor_id r =? doctor_id)
             && (Appointment.appointment_date r =? d)
             && (Appointment.appointment_time r =? t)) rows.

Definition create_appointment (clk : Clock) (db : Db)
  (appointment : AppointmentCreate.t) (patient_id : Z)
  : Db * outcome Appointment.t :=
  let db_appointment :=
    Appointment.mk
      (next_id (map Appointment.id (appointments db)))
      (AppointmentCreate.doctor_id appointment)
      patient_id
      (AppointmentCreate.appointment_date appointment)
      (AppointmentCreate.appointment_time appointment)
      (Some (AppointmentCreate.duration appointment))
      (AppointmentCreate.reason appointment)
      (Some SCHEDULED)
      (utcnow clk) (utcnow clk) in
  if slot_key_taken (appointments db)
       (Appointment.doctor_id db_appointment)
       (Appointment.appointment_date db_appointment)
       (Appointment.appointment_time db_appointment)
  then (* IntegrityError: rollback *)
    (db, Raise (ValueError "This time slot is already booked"))
  else
    (mkDb (schedules db) (appointments db ++ [db_appointment]),
     Return db_appointment).

Definition get_appointment (db : Db) (appointment_id : Z)
  : option Appointment.t :=
  find (fun r => Appointment.id r =? appointment_id) (appointments db).

(** The UPDATE of the row [get_appointment] returned: the first row with
    that id is replaced. *)
Fixpoint replace_appointment (rows : list Appointment.t)
  (appointment_id : Z) (r' : Appointment.t) : list Appointment.t :=
  match rows with
  | [] => []
  | r :: rest =>
      if Appointment.id r =? appointment_id then r' :: rest
      else r :: replace_appointment rest appointment_id r'
  end.

(** Did the [setattr] loop leave a net change on the row?  Only then is an
    UPDATE emitted and [onupdate=datetime.utcnow] evaluated. *)
Definition appointment_modified (old : Appointment.t)
  (d : date) (t : time) (r : string) (s : option AppointmentStatus) : bool :=
  negb ((Appointment.appointment_date old =? d)
        && (Appointment.appointment_time old =? t)
        && String.eqb (Appointment.reason old) r
        && opt_eqb AppointmentStatus_eqb (Appointment.status old) s).

Definition update_appointment (clk : Clock) (db : Db) (appointment_id : Z)
  (appointment_update : AppointmentUpdate.t)
  : Db * outcome (option Appointment.t) :=
  match get_appointment db appointment_id with
  | None => (db, Return None)
  | Some appointment =>
      match
        setattr (AppointmentUpdate.appointment_date appointment_update)
                (Some (Appointment.appointment_date appointment)),
        setattr (AppointmentUpdate.appointment_time appointment_update)
                (Some (Appointment.appointment_time appointment)),
        setattr (AppointmentUpdate.reason appointment_update)
                (Some (Appointment.reason appointment))
      with
      | Some d, Some t, Some r =>
          let s := setattr (AppointmentUpdate.status appointment_update)
                           (Appointment.status appointment) in
          let others :=
            filter (fun x => negb (Appointment.id x =? appointment_id))
                   (appointments db) in
          if slot_key_taken others (Appointment.doctor_id appointment) d t
          then (* IntegrityError (unique_doctor_appointment_slot) *)
            (db, Raise (ValueError "This time slot is already booked"))
          else
            let appointment' :=
              Appointment.mk
                (Appointment.id appointment)
                (Appointment.doctor_id appointment)
                (Appointment.patient_id appointment)
                d t
                (Appointment.duration appointment)
                r s
                (Appointment.created_at appointment)
                (if appointment_modified appointment d t r s
                 then utcnow clk
                 else Appointment.updated_at appointment) in
            (mkDb (schedules db)
                  (replace_appointment (appointments db) appointment_id
                                       appointment'),
             Return (Some appointment'))
      | _, _, _ =>
          (* IntegrityError (NOT NULL): rollback *)
          (db, Raise (ValueError "This time slot is already booked"))
      end
  end.

(** [delete_appointment]: a hard delete; no route calls it. *)
Definition delete_appointment (db : Db) (appointment_id : Z) : Db * bool :=
  match get_appointment db appointment_id with
  | None => (db, false)
  | Some appointment =>
      (mkDb (schedules db)
            (filter (fun r => negb (Appointment.id r =? appointment_id))
                    (appointments db)),
       true)
  end.

Definition check_slot_availability (db : Db) (doctor_id : Z)
  (appointment_date : date) (appointment_time : time)
  (exclude_appointment_id : option Z) : bool :=
  let day_of_week := weekday appointment_date in
  match
    find (fun s =>
            (Schedule.doctor_id s =? doctor_id)
            && (Schedule.day_of_week s =? day_of_week)
            && is_true (Schedule.is_active s)) (schedules db)
  with
  | None => false
  | Some schedule =>
      if negb ((Schedule.start_time schedule <=? appointment_time)
               && (appointment_time <? Schedule.end_time schedule))
      then false
      else
        let query :=
          filter (fun a =>
                    (Appointment.doctor_id a =? doctor_id)
                    && (Appointment.appointment_date a =? appointment_date)
                    && (Appointment.appointment_time a =? appointment_time)
                    && status_is_not (Appointment.status a) CANCELLED)
                 (appointments db) in
        let query :=
          match exclude_appointment_id with
          | Some i =>
              if i =? 0 then query   (* [if exclude_appointment_id:] *)
              else filter (fun a => negb (Appointment.id a =? i)) query
          | None => query
          end in
        match query with
        | [] => true
        | existing_appointment :: _ => false
        end
  end.

(** ** crud_schedule.py *)

(** [UniqueConstraint('doctor_id', 'day_of_week', 'start_time', 'end_time')] *)
Definition schedule_key_taken (rows : list Schedule.t)
  (doctor_id day_of_week : Z) (start_time end_time : time) : bool :=
  existsb (fun r =>
             (Schedule.doctor_id r =? doctor_id)
             && (Schedule.day_of_week r =? day_of_week)
             && (Schedule.start_time r =? start_time)
             && (Schedule.end_time r =? end_time)) rows.

Definition create_schedule (clk : Clock) (db : Db)
  (schedule : ScheduleCreate.t) (doctor_id : Z)
  : Db * outcome Schedule.t :=
  let db_schedule :=
    Schedule.mk
      (next_id (map Schedule.id (schedules db)))
      doctor_id
      (ScheduleCreate.day_of_week schedule)
      (ScheduleCreate.start_time schedule)
      (ScheduleCreate.end_time schedule)
      (Some (ScheduleCreate.slot_duration schedule))
      (Some true)
      (utcnow clk) in
  if schedule_key_taken (schedules db) doctor_id
       (Schedule.day_of_week db_schedule)
       (Schedule.start_time db_schedule)
       (Schedule.end_time db_schedule)
  then (db, Raise (ValueError
                     "A schedule already exists for this day and time"))
  else (mkDb (schedules db ++ [db_schedule]) (appointments db),
        Return db_schedule).

Definition get_schedule (db : Db) (schedule_id : Z) : option Schedule.t :=
  find (fun r => Schedule.id r =? schedule_id) (schedules db).

(** [order_by(Schedule.day_of_week, Schedule.start_time)]: a stable
    insertion sort, so rows with equal keys stay in table order. *)
Definition schedule_le (a b : Schedule.t) : bool :=
  (Schedule.day_of_week a <? Schedule.day_of_week b)
  || ((Schedule.day_of_week a =? Schedule.day_of_week b)
      && (Schedule.start_time a <=? Schedule.start_time b)).

Fixpoint insert_schedule (x : Schedule.t) (l : list Schedule.t)
  : list Schedule.t :=
  match l with
  | [] => [x]
  | y :: l' => if schedule_le x y then x :: l else y :: insert_schedule x l'
  end.

Definition order_by_day_start (l : list Schedule.t) : list Schedule.t :=
  fold_right insert_schedule [] l.

Definition get_schedules_by_doctor (db : Db) (doctor_id : Z)
  : list Schedule.t :=
  order_by_day_start
    (filter (fun s => (Schedule.doctor_id s =? doctor_id)
                      && is_true (Schedule.is_active s))
            (schedules db)).

(** The query both guards of [update_schedule] and [delete_schedule] run:
    the doctor's SCHEDULED appointments dated today or later. *)
Definition future_appointments (clk : Clock) (db : Db) (doctor_id : Z)
  : list Appointment.t :=
  filter (fun a =>
            (Appointment.doctor_id a =? doctor_id)
            && (today clk <=? Appointment.appointment_date a)
            && status_is (Appointment.status a) SCHEDULED)
         (appointments db).

(** The scan of the deactivation branch and of [delete_schedule]:
    appointments on the window's weekday whose time lies inside it. *)
Definition inside_window_scan (schedule : Schedule.t)
  (future : list Appointment.t) : list Appointment.t :=
  filter (fun apt =>
            (weekday (Appointment.appointment_date apt)
             =? Schedule.day_of_week schedule)
            && ((Schedule.start_time schedule
                 <=? Appointment.appointment_time apt)
                && (Appointment.appointment_time apt
                    <? Schedule.end_time schedule)))
         future.

(** [not (new_start <= t < new_end)], where a bound given as [null]
    makes the comparison it takes part in raise. *)
Definition outside_new_hours (new_start new_end : option time) (t : time)
  : outcome bool :=
  match new_start with
  | None => Raise TypeError
  | Some s =>
      if s <=? t then
        match new_end with
        | None => Raise TypeError
        | Some e => Return (negb (t <? e))
        end
      else Return true
  end.

(** The scan of the time-change branch of [update_schedule]. *)
Fixpoint outside_hours_scan (day_of_week : Z)
  (new_start new_end : option time) (future : list Appointment.t)
  (conflicting_appointments : list Appointment.t)
  : outcome (list Appointment.t) :=
  match future with
  | [] => Return conflicting_appointments
  | apt :: rest =>
      if weekday (Appointment.appointment_date apt) =? day_of_week then
        match outside_new_hours new_start new_end
                (Appointment.appointment_time apt) with
        | Raise e => Raise e
        | Return true =>
            outside_hours_scan day_of_week new_start new_end rest
              (conflicting_appointments ++ [apt])
        | Return false =>
            outside_hours_scan day_of_week new_start new_end rest
              conflicting_appointments
        end
      else
        outside_hours_scan day_of_week new_start new_end rest
          conflicting_appointments
  end.

Fixpoint replace_schedule (rows : list Schedule.t)
  (schedule_id : Z) (r' : Schedule.t) : list Schedule.t :=
  match rows with
  | [] => []
  | r :: rest =>
      if Schedule.id r =? schedule_id then r' :: rest
      else r :: replace_schedule rest schedule_id r'
  end.

Definition is_nil {A} (l : list A) : bool :=
  match l with [] => true | _ => false end.

(** The tail of [update_schedule]: the [setattr] loop and the commit. *)
Definition apply_schedule_updates (db : Db) (schedule_id : Z)
  (schedule : Schedule.t) (schedule_update : ScheduleUpdate.t)
  : Db * outcome (option Schedule.t) :=
  match
    setattr (ScheduleUpdate.day_of_week schedule_update)
            (Some (Schedule.day_of_week schedule)),
    setattr (ScheduleUpdate.start_time schedule_update)
            (Some (Schedule.start_time schedule)),
    setattr (ScheduleUpdate.end_time schedule_update)
            (Some (Schedule.end_time schedule))
  with
  | Some dow, Some st, Some en =>
      let others :=
        filter (fun x => negb (Schedule.id x =? schedule_id))
               (schedules db) in
      if schedule_key_taken others (Schedule.doctor_id schedule) dow st en
      then (db, Raise (ValueError
                         "A schedule already exists for this day and time"))
      else
        let schedule' :=
          Schedule.mk
            (Schedule.id schedule)
            (Schedule.doctor_id schedule)
            dow st en
            (setattr (ScheduleUpdate.slot_duration schedule_update)
                     (Schedule.slot_duration schedule))
            (setattr (ScheduleUpdate.is_active schedule_update)
                     (Schedule.is_active schedule))
            (Schedule.created_at schedule) in
        (mkDb (replace_schedule (schedules db) schedule_id schedule')
              (appointments db),
         Return (Some schedule'))
  | _, _, _ =>
      (db, Raise (ValueError
                    "A schedule already exists for this day and time"))
  end.

Definition update_schedule (clk : Clock) (db : Db) (schedule_id : Z)
  (schedule_update : ScheduleUpdate.t)
  : Db * outcome (option Schedule.t) :=
  match get_schedule db schedule_id with
  | None => (db, Return None)
  | Some schedule =>
      (* Special handling for deactivation *)
      let deactivation_conflicts :=
        match value_of (ScheduleUpdate.is_active schedule_update) with
        | Some false =>
            inside_window_scan schedule
              (future_appointments clk db (Schedule.doctor_id schedule))
        | _ => []
        end in
      if negb (is_nil deactivation_conflicts) then
        (db, Raise (ValueError
                      (String.append "Cannot deactivate schedule: "
                         (String.append
                            (str_of_nat (List.length deactivation_conflicts))
                            " appointments would be affected"))))
      else
        (* Check if changing time would conflict with appointments *)
        let time_conflicts :=
          if is_set (ScheduleUpdate.start_time schedule_update)
             || is_set (ScheduleUpdate.end_time schedule_update)
          then
            let new_start :=
              setattr (ScheduleUpdate.start_time schedule_update)
                      (Some (Schedule.start_time schedule)) in
            let new_end :=
              setattr (ScheduleUpdate.end_time schedule_update)
                      (Some (Schedule.end_time schedule)) in
            outside_hours_scan (Schedule.day_of_week schedule)
              new_start new_end
              (future_appointments clk db (Schedule.doctor_id schedule)) []
          else Return [] in
        match time_conflicts with
        | Raise e => (db, Raise e)
        | Return conflicting_appointments =>
            if negb (is_nil conflicting_appointments) then
              (db, Raise (ValueError
                            (String.append "Cannot modify schedule: "
                               (String.append
                                  (str_of_nat
                                     (List.length conflicting_appointments))
                                  " appointments would be outside new hours"))))
            else apply_schedule_updates db schedule_id schedule
                   schedule_update
        end
  end.

Definition delete_schedule (clk : Clock) (db : Db) (schedule_id : Z)
  : Db * outcome bool :=
  match get_schedule db schedule_id with
  | None => (db, Return false)
  | Some schedule =>
      let conflicting_appointments :=
        inside_window_scan schedule
          (future_appointments clk db (Schedule.doctor_id schedule)) in
      if negb (is_nil conflicting_appointments) then
        (db, Raise (ValueError
                      (String.append "Cannot delete schedule: "
                         (String.append
                            (str_of_nat (List.length conflicting_appointments))
                            " appointments would be affected"))))
      else
        (mkDb (filter (fun r => negb (Schedule.id r =? schedule_id))
                      (schedules db))
              (appointments db),
         Return true)
  end.

(** [(current_date, current_time) in booked_slots] *)
Definition in_booked_slots (booked_slots : list (date * time))
  (d : date) (t : time) : bool :=
  existsb (fun p => (fst p =? d) && (snd p =? t)) booked_slots.

(** The inner [while current_time < schedule.end_time] of
    [get_available_slots].  [timedelta(minutes=None)] raises. *)
Fixpoint slot_loop (fuel : nat) (booked_slots : list (date * time))
  (doctor_id : Z) (current_date : date) (schedule : Schedule.t)
  (current_time : time) (available_slots : list AvailableSlot.t)
  : option (outcome (list AvailableSlot.t)) :=
  match fuel with
  | O => None
  | S fuel' =>
      if current_time <? Schedule.end_time schedule then
        let available_slots :=
          if in_booked_slots booked_slots current_date current_time
          then available_slots
          else available_slots
                 ++ [AvailableSlot.mk current_date current_time doctor_id] in
        match Schedule.slot_duration schedule with
        | None => Some (Raise TypeError)
        | Some minutes =>
            slot_loop fuel' booked_slots doctor_id current_date schedule
              (next_slot_time current_time minutes) available_slots
        end
      else Some (Return available_slots)
  end.

(** [for schedule in day_schedules] *)
Fixpoint schedule_loop (fuel : nat) (booked_slots : list (date * time))
  (doctor_id : Z) (current_date : date) (day_schedules : list Schedule.t)
  (available_slots : list AvailableSlot.t)
  : option (outcome (list AvailableSlot.t)) :=
  match day_schedules with
  | [] => Some (Return available_slots)
  | schedule :: rest =>
      match slot_loop fuel booked_slots doctor_id current_date schedule
              (Schedule.start_time schedule) available_slots with
      | Some (Return available_slots) =>
          schedule_loop fuel booked_slots doctor_id current_date rest
            available_slots
      | r => r
      end
  end.

(** The outer [while current_date <= end_date]; [inner] is the fuel handed
    to each window's loop. *)
Fixpoint date_loop (fuel inner : nat) (booked_slots : list (date * time))
  (doctor_id : Z) (schedules : list Schedule.t)
  (current_date end_date : date) (available_slots : list AvailableSlot.t)
  : option (outcome (list AvailableSlot.t)) :=
  match fuel with
  | O => None
  | S fuel' =>
      if current_date <=? end_date then
        let day_of_week := weekday current_date in
        let day_schedules :=
          filter (fun s => Schedule.day_of_week s =? day_of_week) schedules in
        match schedule_loop inner booked_slots doctor_id current_date
                day_schedules available_slots with
        | Some (Return available_slots) =>
            date_loop fuel' inner booked_slots doctor_id schedules
              (current_date + 1) end_date available_slots
        | r => r
        end
      else Some (Return available_slots)
  end.

Definition get_available_slots (fuel : nat) (db : Db) (doctor_id : Z)
  (start_date end_date : date)
  : option (outcome (list AvailableSlot.t)) :=
  let available_slots := [] in
  let schedules := get_schedules_by_doctor db doctor_id in
  if is_nil schedules then Some (Return available_slots)
  else
    let booked_appointments :=
      filter (fun a =>
                (Appointment.doctor_id a =? doctor_id)
                && (start_date <=? Appointment.appointment_date a)
                && (Appointment.appointment_date a <=? end_date)
                && status_is_not (Appointment.status a) CANCELLED)
             (appointments db) in
    let booked_slots :=
      map (fun apt => (Appointment.appointment_date apt,
                       Appointment.appointment_time apt))
          booked_appointments in
    date_loop fuel fuel booked_slots doctor_id schedules
      start_date end_date available_slots.

(** ** api/v1/appointments.py *)

Definition create_new_appointment (clk : Clock) (db : Db)
  (appointment : AppointmentCreate.t) (current_user : User.t)
  : Db * outcome Appointment.t :=
  if negb (UserRole_eqb (User.role current_user) PATIENT) then
    (db, Raise (HTTPException 403 "Only patients can book appointments"))
  else if negb (check_slot_availability db
                  (AppointmentCreate.doctor_id appointment)
                  (AppointmentCreate.appointment_date appointment)
                  (AppointmentCreate.appointment_time appointment) None)
  then (db, Raise (HTTPException 400 "This time slot is not available"))
  else
    match create_appointment clk db appointment (User.id current_user) with
    | (db', Raise (ValueError msg)) => (db', Raise (HTTPException 400 msg))
    | r => r
    end.

(** [POST /appointments/] as the framework serves it: the body is parsed
    into [AppointmentCreate] (its validators run) before the route body.
    The specification calls this operation bookSlot. *)
Definition bookSlot (clk : Clock) (db : Db)
  (body : AppointmentCreate.t) (current_user : User.t)
  : Db * outcome Appointment.t :=
  match AppointmentCreate.validate (today clk) body with
  | Raise e => (db, Raise e)
  | Return appointment =>
      create_new_appointment clk db appointment current_user
  end.

(** The permission block of [update_appointment_by_id]: the exception it
    raises, if any. *)
Definition update_permission (current_user : User.t)
  (appointment : Appointment.t) (appointment_update : AppointmentUpdate.t)
  : option exn :=
  match User.role current_user with
  | PATIENT =>
      if negb (Appointment.patient_id appointment =? User.id current_user)
      then Some (HTTPException 403
                   "You can only update your own appointments")
      else
        (* Patients can only cancel appointments *)
        match value_of (AppointmentUpdate.status appointment_update) with
        | Some s =>
            if negb (AppointmentStatus_eqb s CANCELLED)
            then Some (HTTPException 403
                         "Patients can only cancel appointments")
            else None
        | None => None
        end
  | DOCTOR =>
      if negb (Appointment.doctor_id appointment =? User.id current_user)
      then Some (HTTPException 403
                   "You can only update appointments for your patients")
      else None
  end.

(** [update.appointment_date or appointment.appointment_date], and the same
    for the time. *)
Definition new_date (appointment : Appointment.t)
  (appointment_update : AppointmentUpdate.t) : date :=
  match value_of (AppointmentUpdate.appointment_date appointment_update) with
  | Some d => d
  | None => Appointment.appointment_date appointment
  end.

Definition new_time (appointment : Appointment.t)
  (appointment_update : AppointmentUpdate.t) : time :=
  match value_of (AppointmentUpdate.appointment_time appointment_update) with
  | Some t => t
  | None => Appointment.appointment_time appointment
  end.

(** [if appointment_update.appointment_date or
    appointment_update.appointment_time:] *)
Definition changing_time (appointment_update : AppointmentUpdate.t) : bool :=
  match value_of (AppointmentUpdate.appointment_date appointment_update),
        value_of (AppointmentUpdate.appointment_time appointment_update) with
  | None, None => false
  | _, _ => true
  end.

Definition update_appointment_by_id (clk : Clock) (db : Db)
  (appointment_id : Z) (appointment_update : AppointmentUpdate.t)
  (current_user : User.t) : Db * outcome (option Appointment.t) :=
  match get_appointment db appointment_id with
  | None => (db, Raise (HTTPException 404 "Appointment not found"))
  | Some appointment =>
      (* Check permissions *)
      match update_permission current_user appointment appointment_update
      with
      | Some e => (db, Raise e)
      | None =>
          (* Check if new time slot is available (if changing time) *)
          if changing_time appointment_update
             && negb (check_slot_availability db
                        (Appointment.doctor_id appointment)
                        (new_date appointment appointment_update)
                        (new_time appointment appointment_update)
                        (Some appointment_id))
          then (db, Raise (HTTPException 400
                             "The new time slot is not available"))
          else update_appointment clk db appointment_id appointment_update
      end
  end.

Definition cancel_appointment (clk : Clock) (db : Db) (appointment_id : Z)
  (current_user : User.t) : Db * outcome string :=
  match get_appointment db appointment_id with
  | None => (db, Raise (HTTPException 404 "Appointment not found"))
  | Some appointment =>
      if UserRole_eqb (User.role current_user) PATIENT
         && negb (Appointment.patient_id appointment =? User.id current_user)
      then (db, Raise (HTTPException 403
                         "You can only cancel your own appointments"))
      else if UserRole_eqb (User.role current_user) DOCTOR
              && negb (Appointment.doctor_id appointment
                       =? User.id current_user)
      then (db, Raise (HTTPException 403
                         "You can only cancel appointments for your patients"))
      else
        (* Update status to cancelled instead of deleting *)
        let appointment_update :=
          AppointmentUpdate.mk Unset Unset Unset (Given (Some CANCELLED)) in
        match update_appointment clk db appointment_id appointment_update with
        | (db', Raise e) => (db', Raise e)
        | (db', Return _) =>
            (db', Return "Appointment cancelled successfully")
        end
  end.

(** ** api/v1/schedules.py *)

Definition create_doctor_schedule (clk : Clock) (db : Db)
  (schedule : ScheduleCreate.t) (current_user : User.t)
  : Db * outcome Schedule.t :=
  if negb (UserRole_eqb (User.role current_user) DOCTOR) then
    (db, Raise (HTTPException 403 "Only doctors can create schedules"))
  else
    match create_schedule clk db schedule (User.id current_user) with
    | (db', Raise (ValueError msg)) => (db', Raise (HTTPException 400 msg))
    | r => r
    end.

(** [POST /schedules/] with the parsing of its [ScheduleCreate] body.  The
    specification calls this operation defineWindow. *)
Definition defineWindow (clk : Clock) (db : Db)
  (body : ScheduleCreate.t) (current_user : User.t)
  : Db * outcome Schedule.t :=
  match ScheduleCreate.validate body with
  | Raise e => (db, Raise e)
  | Return schedule => create_doctor_schedule clk db schedule current_user
  end.

Definition get_doctor_available_slots (fuel : nat) (db : Db)
  (doctor_id : Z) (start_date end_date : date)
  : option (outcome (list AvailableSlot.t)) :=
  if end_date <? start_date then
    Some (Raise (HTTPException 400 "End date must be after start date"))
  else if 30 <? end_date - start_date then
    Some (Raise (HTTPException 400 "Date range cannot exceed 30 days"))
  else get_available_slots fuel db doctor_id start_date end_date.

Definition update_doctor_schedule (clk : Clock) (db : Db)
  (schedule_id : Z) (schedule_update : ScheduleUpdate.t)
  (current_user : User.t) : Db * outcome Schedule.t :=
  match get_schedule db schedule_id with
  | None => (db, Raise (HTTPException 404 "Schedule not found"))
  | Some schedule =>
      if negb (Schedule.doctor_id schedule =? User.id current_user) then
        (db, Raise (HTTPException 403
                      "You can only update your own schedules"))
      else
        match update_schedule clk db schedule_id schedule_update with
        | (db', Return None) =>
            (db', Raise (HTTPException 404 "Schedule not found"))
        | (db', Return (Some updated_schedule)) =>
            (db', Return updated_schedule)
        | (db', Raise (ValueError msg)) =>
            (db', Raise (HTTPException 400 msg))
        | (db', Raise e) => (db', Raise e)
        end
  end.

Definition delete_doctor_schedule (clk : Clock) (db : Db)
  (schedule_id : Z) (current_user : User.t) : Db * outcome string :=
  match get_schedule db schedule_id with
  | None => (db, Raise (HTTPException 404 "Schedule not found"))
  | Some schedule =>
      if negb (Schedule.doctor_id schedule =? User.id current_user) then
        (db, Raise (HTTPException 403
                      "You can only delete your own schedules"))
      else
        match delete_schedule clk db schedule_id with
        | (db', Return _) => (db', Return "Schedule deleted successfully")
        | (db', Raise (ValueError msg)) =>
            (db', Raise (HTTPException 400 msg))
        | (db', Raise e) => (db', Raise e)
        end
  end.

(** * Statement-level definitions

    Notions the theorems are stated with: the requests a client can send,
    the databases they reach, the keys of the two unique constraints, and a
    closed form of the slot generator. *)

(** ** Requests and reachable databases *)

Inductive request : Type :=
| POST_appointment (body : AppointmentCreate.t)
| PUT_appointment (appointment_id : Z) (body : AppointmentUpdate.t)
| DELETE_appointment (appointment_id : Z)
| POST_schedule (body : ScheduleCreate.t)
| PUT_schedule (schedule_id : Z) (body : ScheduleUpdate.t)
| DELETE_schedule (schedule_id : Z).

(** One served request: the clock at that moment, the authenticated actor,
    the request. *)
Definition event : Type := (Clock * User.t * request)%type.

Definition serve (db : Db) (ev : event) : Db :=
  let '(clk, current_user, req) := ev in
  match req with
  | POST_appointment body => fst (bookSlot clk db body current_user)
  | PUT_appointment i body =>
      fst (update_appointment_by_id clk db i body current_user)
  | DELETE_appointment i => fst (cancel_appointment clk db i current_user)
  | POST_schedule body => fst (defineWindow clk db body current_user)
  | PUT_schedule i body =>
      fst (update_doctor_schedule clk db i body current_user)
  | DELETE_schedule i => fst (delete_doctor_schedule clk db i current_user)
  end.

Definition run (db : Db) (trace : list event) : Db :=
  fold_left serve trace db.

(** ** Keys and constraints *)

Definition slot_key (a : Appointment.t) : Z * Z * Z :=
  (Appointment.doctor_id a, Appointment.appointment_date a,
   Appointment.appointment_time a).

(** What [db.commit()] maintains on [appointments]: the primary key and
    [unique_doctor_appointment_slot]. *)
Definition appointments_ok (db : Db) : Prop :=
  NoDup (map Appointment.id (appointments db))
  /\ NoDup (map slot_key (appointments db)).

(** The rows of a (doctor, date, time) triple whose status is not
    CANCELLED. *)
Definition non_cancelled_at (db : Db) (doctor_id : Z) (d : date) (t : time)
  : list Appointment.t :=
  filter (fun a =>
            (Appointment.doctor_id a =? doctor_id)
            && (Appointment.appointment_date a =? d)
            && (Appointment.appointment_time a =? t)
            && negb (opt_eqb AppointmentStatus_eqb (Appointment.status a)
                       (Some CANCELLED)))
         (appointments db).

(** The HTTP 400 answers with which the booking route reports a taken or
    unavailable slot. *)
Definition is_Conflict {A} (r : outcome A) : Prop :=
  r = Raise (HTTPException 400 "This time slot is not available")
  \/ r = Raise (HTTPException 400 "This time slot is already booked").

(** ** A running example

    Doctor 1 works Tuesdays 9:00-17:00 in 30-minute slots; patient 2 books
    Tuesday 3 November 2026 at 10:00 and then cancels. *)

Definition clk0 : Clock := mkClock 739920 1000.
Definition tuesday : date := 739923.
Definition doctor1 : User.t := User.mk 1 DOCTOR.
Definition patient2 : User.t := User.mk 2 PATIENT.

Definition nine_to_five : ScheduleCreate.t :=
  ScheduleCreate.mk 1 (mk_time 9 0) (mk_time 17 0) 30.

Definition booking_10am : AppointmentCreate.t :=
  AppointmentCreate.mk tuesday (mk_time 10 0) "checkup" 30 1.

Definition db_window : Db :=
  run empty_db [(clk0, doctor1, POST_schedule nine_to_five)].

Definition db_booked : Db :=
  run db_window [(clk0, patient2, POST_appointment booking_10am)].

Definition db_cancelled : Db :=
  run db_booked [(clk0, patient2, DELETE_appointment 1)].

(** ** Status changes *)

(** A request that sets the status and nothing else. *)
Definition status_only (s : AppointmentStatus) : AppointmentUpdate.t :=
  AppointmentUpdate.mk Unset Unset Unset (Given (Some s)).

(** The row after its status was set to [s] at time [utcnow clk]. *)
Definition with_status (clk : Clock) (a : Appointment.t)
  (s : AppointmentStatus) : Appointment.t :=
  Appointment.mk
    (Appointment.id a) (Appointment.doctor_id a) (Appointment.patient_id a)
    (Appointment.appointment_date a) (Appointment.appointment_time a)
    (Appointment.duration a) (Appointment.reason a) (Some s)
    (Appointment.created_at a)
    (if opt_eqb AppointmentStatus_eqb (Appointment.status a) (Some s)
     then Appointment.updated_at a else utcnow clk).

Definition write_appointment (db : Db) (i : Z) (a' : Appointment.t) : Db :=
  mkDb (schedules db) (replace_appointment (appointments db) i a').

(** ** More of the running example *)

(** A request that changes the reason only. *)
Definition new_reason_only : AppointmentUpdate.t :=
  AppointmentUpdate.mk Unset Unset (Given (Some "follow-up")) Unset.

(** A request that moves the appointment to 11:00. *)
Definition move_to_11am : AppointmentUpdate.t :=
  AppointmentUpdate.mk Unset (Given (Some (mk_time 11 0))) Unset Unset.

(** A second Tuesday window, 18:00-19:00, next to the 9:00-17:00 one that
    holds the 10:00 appointment. *)
Definition evening : ScheduleCreate.t :=
  ScheduleCreate.mk 1 (mk_time 18 0) (mk_time 19 0) 30.

Definition db_two_windows : Db :=
  run db_booked [(clk0, doctor1, POST_schedule evening)].

(** The evening window starts half an hour earlier. *)
Definition evening_from_1730 : ScheduleUpdate.t :=
  ScheduleUpdate.mk Unset (Given (Some (mk_time 17 30))) Unset Unset Unset.

(** A window whose slots are zero minutes long. *)
Definition zero_minute_slots : ScheduleCreate.t :=
  ScheduleCreate.mk 1 (mk_time 9 0) (mk_time 17 0) 0.

(** ** A closed form of the slot generator *)

(** [n] instants from [t] on, [step] apart. *)
Fixpoint times_from (n : nat) (t step : Z) : list Z :=
  match n with
  | O => []
  | S n' => t :: times_from n' (t + step) step
  end.

(** How many instants [start_time + k * step] lie before [end_time]. *)
Definition slot_count (start_time end_time step : Z) : nat :=
  Z.to_nat ((end_time - start_time + step - 1) / step).

(** The slot starts of a window. *)
Definition window_times (s : Schedule.t) : list time :=
  match Schedule.slot_duration s with
  | Some minutes =>
      times_from
        (slot_count (Schedule.start_time s) (Schedule.end_time s)
           (minutes * usec_per_minute))
        (Schedule.start_time s) (minutes * usec_per_minute)
  | None => []
  end.

(** The dates of the inclusive range. *)
Definition dates_between (start_date end_date : date) : list date :=
  times_from (Z.to_nat (end_date - start_date + 1)) start_date 1.

(** The instants of [ts] that are not booked on [d], as slots. *)
Definition free_slots (booked_slots : list (date * time)) (doctor_id : Z)
  (d : date) (ts : list time) : list AvailableSlot.t :=
  map (fun t => AvailableSlot.mk d t doctor_id)
      (filter (fun t => negb (in_booked_slots booked_slots d t)) ts).

(** The (date, time) pairs [get_available_slots] leaves out. *)
Definition booked_slots_of (db : Db) (doctor_id : Z)
  (start_date end_date : date) : list (date * time) :=
  map (fun apt => (Appointment.appointment_date apt,
                   Appointment.appointment_time apt))
      (filter (fun a =>
                 (Appointment.doctor_id a =? doctor_id)
                 && (start_date <=? Appointment.appointment_date a)
                 && (Appointment.appointment_date a <=? end_date)
                 && status_is_not (Appointment.status a) CANCELLED)
              (appointments db)).

(** Date by date, window by window, slot by slot. *)
Definition slots_by_date_window_time (db : Db) (doctor_id : Z)
  (start_date end_date : date) : list AvailableSlot.t :=
  flat_map
    (fun d =>
       flat_map
         (fun s =>
            free_slots (booked_slots_of db doctor_id start_date end_date)
              doctor_id d (window_times s))
         (filter (fun s => Schedule.day_of_week s =? weekday d)
                 (get_schedules_by_doctor db doctor_id)))
    (dates_between start_date end_date).

(** A window with a positive slot length and
    [end_time + slot length <= 24:00] (so no slot start wraps past
    midnight); its start is a time of day. *)
Definition regular_window (s : Schedule.t) : Prop :=
  exists minutes,
    Schedule.slot_duration s = Some minutes
    /\ 0 < minutes
    /\ 0 <= Schedule.start_time s
    /\ Schedule.end_time s + minutes * usec_per_minute <= usec_per_day.

(** ** Windows of the examples about slots *)

(** Tuesday 23:00-23:45 in 30-minute slots. *)
Definition late_evening : ScheduleCreate.t :=
  ScheduleCreate.mk 1 (mk_time 23 0) (mk_time 23 45) 30.

Definition db_late : Db :=
  run empty_db [(clk0, doctor1, POST_schedule late_evening)].

(** Tuesday 10:00-11:00 in 30-minute slots, inside the 9:00-17:00 window. *)
Definition ten_to_eleven : ScheduleCreate.t :=
  ScheduleCreate.mk 1 (mk_time 10 0) (mk_time 11 0) 30.

Definition db_overlap : Db :=
  run db_window [(clk0, doctor1, POST_schedule ten_to_eleven)].

(** The sixteen half hours from 9:00 to 16:30. *)
Definition half_hours_9_to_17 : list time :=
  [mk_time 9 0; mk_time 9 30; mk_time 10 0; mk_time 10 30;
   mk_time 11 0; mk_time 11 30; mk_time 12 0; mk_time 12 30;
   mk_time 13 0; mk_time 13 30; mk_time 14 0; mk_time 14 30;
   mk_time 15 0; mk_time 15 30; mk_time 16 0; mk_time 16 30].

Definition slot_pair (s : AvailableSlot.t) : date * time :=
  (AvailableSlot.date s, AvailableSlot.time s).

(** What the generator returns for the two overlapping windows. *)
Definition overlap_output : list AvailableSlot.t :=
  map (fun t => AvailableSlot.mk tuesday t 1)
      (half_hours_9_to_17 ++ [mk_time 10 0; mk_time 10 30]).

(** ** Rescheduling *)


(** * The rest of the CRUD layer and of the routes *)

(** ** crud_appointment.py: the listings *)

(** [order_by(Appointment.appointment_date, Appointment.appointment_time)]:
    a stable insertion sort, as for the schedules. *)
Definition appointment_le (a b : Appointment.t) : bool :=
  (Appointment.appointment_date a <? Appointment.appointment_date b)
  || ((Appointment.appointment_date a =? Appointment.appointment_date b)
      && (Appointment.appointment_time a <=? Appointment.appointment_time b)).

Fixpoint insert_appointment (x : Appointment.t) (l : list Appointment.t)
  : list Appointment.t :=
  match l with
  | [] => [x]
  | y :: l' =>
      if appointment_le x y then x :: l else y :: insert_appointment x l'
  end.

Definition order_by_date_time (l : list Appointment.t)
  : list Appointment.t :=
  fold_right insert_appointment [] l.

Definition get_appointments_by_patient (db : Db) (patient_id : Z)
  : list Appointment.t :=
  order_by_date_time
    (filter (fun a => Appointment.patient_id a =? patient_id)
            (appointments db)).

Definition get_appointments_by_doctor (db : Db) (doctor_id : Z)
  : list Appointment.t :=
  order_by_date_time
    (filter (fun a => Appointment.doctor_id a =? doctor_id)
            (appointments db)).

(** ** api/v1/appointments.py: the read routes *)

Definition get_my_appointments (db : Db) (current_user : User.t)
  : list Appointment.t :=
  if UserRole_eqb (User.role current_user) PATIENT
  then get_appointments_by_patient db (User.id current_user)
  else get_appointments_by_doctor db (User.id current_user).

Definition get_doctor_appointments (db : Db) (doctor_id : Z)
  (appointment_date : option date) (current_user : User.t)
  : outcome (list Appointment.t) :=
  if UserRole_eqb (User.role current_user) PATIENT
     && negb (User.id current_user =? doctor_id)
  then Raise (HTTPException 403 "You can only view your own appointments")
  else
    let appointments := get_appointments_by_doctor db doctor_id in
    match appointment_date with
    | Some d =>
        Return (filter (fun a => Appointment.appointment_date a =? d)
                       appointments)
    | None => Return appointments
    end.

Definition get_appointment_by_id (db : Db) (appointment_id : Z)
  (current_user : User.t) : outcome Appointment.t :=
  match get_appointment db appointment_id with
  | None => Raise (HTTPException 404 "Appointment not found")
  | Some appointment =>
      if UserRole_eqb (User.role current_user) PATIENT
         && negb (Appointment.patient_id appointment =? User.id current_user)
      then Raise (HTTPException 403
                    "You don't have access to this appointment")
      else if UserRole_eqb (User.role current_user) DOCTOR
              && negb (Appointment.doctor_id appointment
                       =? User.id current_user)
      then Raise (HTTPException 403
                    "You don't have access to this appointment")
      else Return appointment
  end.

(** ** api/v1/schedules.py: the read routes *)

Definition get_my_schedules (db : Db) (current_user : User.t)
  : outcome (list Schedule.t) :=
  if negb (UserRole_eqb (User.role current_user) DOCTOR)
  then Raise (HTTPException 403 "Only doctors have schedules")
  else Return (get_schedules_by_doctor db (User.id current_user)).

Definition get_doctor_schedules (db : Db) (doctor_id : Z)
  : list Schedule.t :=
  get_schedules_by_doctor db doctor_id.

(** ** Notions for the statements about them *)

(** The row [create_appointment] inserts. *)
Definition booked_row (clk : Clock) (db : Db) (body : AppointmentCreate.t)
  (patient_id : Z) : Appointment.t :=
  Appointment.mk
    (next_id (map Appointment.id (appointments db)))
    (AppointmentCreate.doctor_id body)
    patient_id
    (AppointmentCreate.appointment_date body)
    (AppointmentCreate.appointment_time body)
    (Some (AppointmentCreate.duration body))
    (AppointmentCreate.reason body)
    (Some SCHEDULED)
    (utcnow clk) (utcnow clk).

(** The actor owns the appointment in the role they act in. *)
Definition owns (u : User.t) (a : Appointment.t) : Prop :=
  match User.role u with
  | PATIENT => Appointment.patient_id a = User.id u
  | DOCTOR => Appointment.doctor_id a = User.id u
  end.

Definition schedule_key (s : Schedule.t) : Z * Z * Z * Z :=
  (Schedule.doctor_id s, Schedule.day_of_week s,
   Schedule.start_time s, Schedule.end_time s).

(** What [db.commit()] maintains on [schedules]: the primary key and
    [unique_doctor_schedule]. *)
Definition schedules_ok (db : Db) : Prop :=
  NoDup (map Schedule.id (schedules db))
  /\ NoDup (map schedule_key (schedules db)).

(** A request that deactivates a window and changes nothing else. *)
Definition deactivate_only : ScheduleUpdate.t :=
  ScheduleUpdate.mk Unset Unset Unset Unset (Given (Some false)).

(** A request that sets both bounds of a window and nothing else. *)
Definition new_hours (new_start new_end : time) : ScheduleUpdate.t :=
  ScheduleUpdate.mk Unset (Given (Some new_start)) (Given (Some new_end))
    Unset Unset.

(** The future appointments of the window's weekday that new hours would
    leave outside. *)
Definition left_outside (clk : Clock) (db : Db) (schedule : Schedule.t)
  (new_start new_end : time) : list Appointment.t :=
  filter (fun apt =>
            (weekday (Appointment.appointment_date apt)
             =? Schedule.day_of_week schedule)
            && negb ((new_start <=? Appointment.appointment_time apt)
                     && (Appointment.appointment_time apt <? new_end)))
         (future_appointments clk db (Schedule.doctor_id schedule)).

(** The text of a guard's refusal, with its count. *)
Definition refusal (prefix : string) (n : nat) (suffix : string) : string :=
  String.append prefix (String.append (str_of_nat n) suffix).

(** An appointment the guards of [update_schedule] and [delete_schedule]
    protect: SCHEDULED, of the window's doctor, dated today or later, on
    the window's weekday, at a time inside the window. *)
Definition promised (clk : Clock) (db : Db) (s : Schedule.t)
  (a : Appointment.t) : Prop :=
  In a (appointments db)
  /\ Appointment.doctor_id a = Schedule.doctor_id s
  /\ today clk <= Appointment.appointment_date a
  /\ Appointment.status a = Some SCHEDULED
  /\ weekday (Appointment.appointment_date a) = Schedule.day_of_week s
  /\ Schedule.start_time s <= Appointment.appointment_time a
     < Schedule.end_time s.

(** The table without the rows of one id. *)
Definition without_schedule (db : Db) (schedule_id : Z) : Db :=
  mkDb (filter (fun r => negb (Schedule.id r =? schedule_id)) (schedules db))
       (appointments db).

(** A row with another value in [is_active]. *)
Definition with_is_active (s : Schedule.t) (b : option bool) : Schedule.t :=
  Schedule.mk (Schedule.id s) (Schedule.doctor_id s) (Schedule.day_of_week s)
    (Schedule.start_time s) (Schedule.end_time s) (Schedule.slot_duration s)
    b (Schedule.created_at s).

(** A row with other hours. *)
Definition with_hours (s : Schedule.t) (new_start new_end : time)
  : Schedule.t :=
  Schedule.mk (Schedule.id s) (Schedule.doctor_id s) (Schedule.day_of_week s)
    new_start new_end (Schedule.slot_duration s) (Schedule.is_active s)
    (Schedule.created_at s).

Definition write_schedule (db : Db) (i : Z) (s' : Schedule.t) : Db :=
  mkDb (replace_schedule (schedules db) i s') (appointments db).

(** Patient 2 books 11:00 as well, after the 10:00 appointment was
    cancelled; a request then asks to move the 11:00 one to 10:00. *)
Definition booking_11am : AppointmentCreate.t :=
  AppointmentCreate.mk tuesday (mk_time 11 0) "second visit" 30 1.

Definition db_cancelled_and_11am : Db :=
  run db_cancelled [(clk0, patient2, POST_appointment booking_11am)].

Definition move_to_10am : AppointmentUpdate.t :=
  AppointmentUpdate.mk Unset (Given (Some (mk_time 10 0))) Unset Unset.

(** A request that changes the date only. *)
Definition new_date_only (d : date) : AppointmentUpdate.t :=
  AppointmentUpdate.mk (Given (Some d)) Unset Unset Unset.

(** The appointment after its date was set to [d] at [utcnow clk]. *)
Definition with_date (clk : Clock) (a : Appointment.t) (d : date)
  : Appointment.t :=
  Appointment.mk
    (Appointment.id a) (Appointment.doctor_id a) (Appointment.patient_id a)
    d (Appointment.appointment_time a)
    (Appointment.duration a) (Appointment.reason a) (Appointment.status a)
    (Appointment.created_at a)
    (if Appointment.appointment_date a =? d
     then Appointment.updated_at a else utcnow clk).

(** * Proofs *)

(** ** Basic facts *)

Lemma next_id_fresh (ids : list Z) (x : Z) : In x ids -> x < next_id ids.
Proof.
  unfold next_id. induction ids as [|y ids IH]; cbn [fold_right In]; [tauto|].
  pose proof (Z.le_max_l y (fold_right Z.max 0 ids)).
  pose proof (Z.le_max_r y (fold_right Z.max 0 ids)).
  intros [->|Hx]; [lia|]. specialize (IH Hx). lia.
Qed.

Lemma slot_key_taken_true (rows : list Appointment.t) (a : Appointment.t) :
  In a rows ->
  slot_key_taken rows (Appointment.doctor_id a)
    (Appointment.appointment_date a) (Appointment.appointment_time a) = true.
Proof.
  intro H. unfold slot_key_taken. apply existsb_exists. exists a.
  split; [assumption|]. now rewrite !Z.eqb_refl.
Qed.

Lemma slot_key_taken_false (rows : list Appointment.t) (doc d t : Z) :
  slot_key_taken rows doc d t = false ->
  forall x, In x rows -> slot_key x <> (doc, d, t).
Proof.
  intros H x Hx E. unfold slot_key in E. injection E as E1 E2 E3.
  assert (slot_key_taken rows doc d t = true) as H'.
  { subst. now apply slot_key_taken_true. }
  congruence.
Qed.

(** ** The constraints survive every commit *)

Lemma NoDup_snoc {A} (l : list A) (x : A) :
  NoDup l -> ~ In x l -> NoDup (l ++ [x]).
Proof.
  induction l as [|y l IH]; simpl; intros Hl Hx.
  - constructor; [tauto|constructor].
  - inversion Hl as [|? ? Hy Hl']; subst. constructor.
    + rewrite in_app_iff; simpl. intros [?|[?|[]]]; [tauto|]. subst. tauto.
    + apply IH; tauto.
Qed.

Lemma get_appointment_Some (db : Db) (i : Z) (a : Appointment.t) :
  get_appointment db i = Some a ->
  In a (appointments db) /\ Appointment.id a = i.
Proof.
  unfold get_appointment. intro H. apply find_some in H.
  destruct H as [H1 H2]. split; [assumption|]. now apply Z.eqb_eq.
Qed.

Lemma replace_appointment_ids rows i r' :
  Appointment.id r' = i ->
  map Appointment.id (replace_appointment rows i r')
  = map Appointment.id rows.
Proof.
  intro Hi. induction rows as [|r rest IH]; simpl; [reflexivity|].
  destruct (Appointment.id r =? i) eqn:E; simpl.
  - apply Z.eqb_eq in E. congruence.
  - now rewrite IH.
Qed.

Lemma replace_appointment_In rows i r' x :
  NoDup (map Appointment.id rows) ->
  In x (replace_appointment rows i r') ->
  x = r' \/ (In x rows /\ Appointment.id x <> i).
Proof.
  induction rows as [|r rest IH]; simpl; [tauto|].
  intro Hnd. inversion Hnd as [|? ? Hr Hrest]; subst.
  destruct (Appointment.id r =? i) eqn:E; simpl.
  - apply Z.eqb_eq in E. intros [<-|H]; [now left|].
    right. split; [now right|]. intro Hx. apply Hr.
    rewrite E, <- Hx. now apply in_map.
  - apply Z.eqb_neq in E. intros [<-|H]; [right; tauto|].
    destruct (IH Hrest H) as [->|[? ?]]; [now left|right; tauto].
Qed.

Lemma replace_appointment_keys rows i r' :
  NoDup (map Appointment.id rows) ->
  NoDup (map slot_key rows) ->
  (forall x, In x rows -> Appointment.id x <> i -> slot_key x <> slot_key r') ->
  NoDup (map slot_key (replace_appointment rows i r')).
Proof.
  induction rows as [|r rest IH]; simpl; intros Hid Hk Hfresh; [constructor|].
  inversion Hid as [|? ? Hr Hrest]; subst.
  inversion Hk as [|? ? Hkr Hkrest]; subst.
  destruct (Appointment.id r =? i) eqn:E; simpl.
  - apply Z.eqb_eq in E. constructor; [|assumption].
    intro Hin. apply in_map_iff in Hin. destruct Hin as [x [Hx1 Hx2]].
    apply (Hfresh x); [now right| |assumption].
    intro Hxi. apply Hr. rewrite E, <- Hxi. now apply in_map.
  - apply Z.eqb_neq in E. constructor.
    + intro Hin. apply in_map_iff in Hin. destruct Hin as [x [Hx1 Hx2]].
      destruct (replace_appointment_In _ _ _ _ Hrest Hx2) as [->|[Hx3 _]].
      * apply (Hfresh r); [now left|assumption|now symmetry].
      * apply Hkr. rewrite <- Hx1. now apply in_map.
    + apply IH; auto.
Qed.

Lemma create_appointment_ok clk db ap pid :
  appointments_ok db -> appointments_ok (fst (create_appointment clk db ap pid)).
Proof.
  intros [Hid Hk]. unfold create_appointment. cbn [Appointment.doctor_id
    Appointment.appointment_date Appointment.appointment_time].
  destruct (slot_key_taken _ _ _ _) eqn:E; cbn [fst]; [now split|].
  split; cbn [appointments]; rewrite map_app; cbn [map]; apply NoDup_snoc;
    try assumption.
  - cbn [Appointment.id]. intro Hin. apply next_id_fresh in Hin. lia.
  - intro Hin. apply in_map_iff in Hin. destruct Hin as [x [Hx1 Hx2]].
    now apply (slot_key_taken_false _ _ _ _ E x Hx2).
Qed.

Lemma update_appointment_ok clk db i u :
  appointments_ok db -> appointments_ok (fst (update_appointment clk db i u)).
Proof.
  intros [Hid Hk]. unfold update_appointment.
  destruct (get_appointment db i) as [a|] eqn:Hget; [|now split].
  destruct (get_appointment_Some _ _ _ Hget) as [Hin Hai].
  destruct (setattr (AppointmentUpdate.appointment_date u) _) as [d|];
    [|now split].
  destruct (setattr (AppointmentUpdate.appointment_time u) _) as [t|];
    [|now split].
  destruct (setattr (AppointmentUpdate.reason u) _) as [r|]; [|now split].
  destruct (slot_key_taken _ _ _ _) eqn:E; cbn [fst]; [now split|].
  split; cbn [appointments].
  - now rewrite replace_appointment_ids.
  - apply replace_appointment_keys; try assumption.
    intros x Hx Hxi. unfold slot_key at 2. cbn.
    apply (slot_key_taken_false _ _ _ _ E). apply filter_In. split; [assumption|].
    apply negb_true_iff. now apply Z.eqb_neq.
Qed.

Lemma create_new_appointment_ok clk db ap user :
  appointments_ok db ->
  appointments_ok (fst (create_new_appointment clk db ap user)).
Proof.
  intro H. unfold create_new_appointment.
  destruct (negb (UserRole_eqb _ _)); [assumption|].
  destruct (negb (check_slot_availability _ _ _ _ _)); [assumption|].
  pose proof (create_appointment_ok clk db ap (User.id user) H) as H'.
  destruct (create_appointment clk db ap (User.id user)) as [db' [x|[]]];
    assumption.
Qed.

Lemma bookSlot_ok clk db body user :
  appointments_ok db -> appointments_ok (fst (bookSlot clk db body user)).
Proof.
  intro H. unfold bookSlot.
  destruct (AppointmentCreate.validate _ _); [|assumption].
  now apply create_new_appointment_ok.
Qed.

Lemma update_appointment_by_id_ok clk db i u user :
  appointments_ok db ->
  appointments_ok (fst (update_appointment_by_id clk db i u user)).
Proof.
  intro H. unfold update_appointment_by_id.
  destruct (get_appointment db i) as [a|]; [|assumption].
  destruct (update_permission user a u); [assumption|].
  destruct (_ && _); [assumption|].
  now apply update_appointment_ok.
Qed.

Lemma cancel_appointment_ok clk db i user :
  appointments_ok db ->
  appointments_ok (fst (cancel_appointment clk db i user)).
Proof.
  intro H. unfold cancel_appointment.
  destruct (get_appointment db i); [|assumption].
  destruct (_ && _); [assumption|]. destruct (_ && _); [assumption|].
  match goal with |- context [update_appointment ?c ?d ?j ?v] =>
    pose proof (update_appointment_ok c d j v H) as H';
    destruct (update_appointment c d j v) as [db' [x|e]] end; assumption.
Qed.

(** The schedule routes never write to [appointments]. *)

Lemma update_schedule_appointments clk db i u :
  appointments (fst (update_schedule clk db i u)) = appointments db.
Proof.
  unfold update_schedule. destruct (get_schedule db i) as [s|]; [|reflexivity].
  destruct (negb (is_nil _)); [reflexivity|].
  match goal with |- context [match ?p with Return _ => _ | Raise _ => _ end]
    => destruct p as [c|e] end; [|reflexivity].
  destruct (negb (is_nil c)); [reflexivity|].
  unfold apply_schedule_updates.
  destruct (setattr (ScheduleUpdate.day_of_week u) _); [|reflexivity].
  destruct (setattr (ScheduleUpdate.start_time u) _); [|reflexivity].
  destruct (setattr (ScheduleUpdate.end_time u) _); [|reflexivity].
  destruct (schedule_key_taken _ _ _ _ _); reflexivity.
Qed.

Lemma defineWindow_appointments clk db body user :
  appointments (fst (defineWindow clk db body user)) = appointments db.
Proof.
  unfold defineWindow. destruct (ScheduleCreate.validate body); [|reflexivity].
  unfold create_doctor_schedule. destruct (negb _); [reflexivity|].
  unfold create_schedule. destruct (schedule_key_taken _ _ _ _ _); reflexivity.
Qed.

Lemma update_doctor_schedule_appointments clk db i u user :
  appointments (fst (update_doctor_schedule clk db i u user))
  = appointments db.
Proof.
  unfold update_doctor_schedule.
  destruct (get_schedule db i) as [s|] eqn:Hs; [|reflexivity].
  destruct (negb _); [reflexivity|].
  pose proof (update_schedule_appointments clk db i u) as H.
  destruct (update_schedule clk db i u) as [db' [[x|]|[]]]; exact H.
Qed.

Lemma delete_doctor_schedule_appointments clk db i user :
  appointments (fst (delete_doctor_schedule clk db i user))
  = appointments db.
Proof.
  unfold delete_doctor_schedule.
  destruct (get_schedule db i) as [s|] eqn:Hs; [|reflexivity].
  destruct (negb _); [reflexivity|].
  unfold delete_schedule. rewrite Hs.
  destruct (negb (is_nil _)); reflexivity.
Qed.

Lemma appointments_ok_ext db db' :
  appointments db' = appointments db -> appointments_ok db ->
  appointments_ok db'.
Proof. unfold appointments_ok. now intros ->. Qed.

Lemma serve_ok db ev : appointments_ok db -> appointments_ok (serve db ev).
Proof.
  destruct ev as [[clk user] [body|i body|i|body|i body|i]]; cbn [serve];
    intro H.
  - now apply bookSlot_ok.
  - now apply update_appointment_by_id_ok.
  - now apply cancel_appointment_ok.
  - eapply appointments_ok_ext; [apply defineWindow_appointments|exact H].
  - eapply appointments_ok_ext;
      [apply update_doctor_schedule_appointments|exact H].
  - eapply appointments_ok_ext;
      [apply delete_doctor_schedule_appointments|exact H].
Qed.

Lemma run_ok trace : forall db,
  appointments_ok db -> appointments_ok (run db trace).
Proof.
  unfold run. induction trace as [|ev trace IH]; intros db H; simpl;
    [assumption|].
  apply IH. now apply serve_ok.
Qed.

Lemma empty_db_ok : appointments_ok empty_db.
Proof. split; constructor. Qed.

(** Under the unique constraint a key selects at most one row. *)
Lemma unique_key_filter {A K} (key : A -> K) (p : A -> bool) (l : list A) :
  NoDup (map key l) ->
  (forall x y, p x = true -> p y = true -> key x = key y) ->
  (List.length (filter p l) <= 1)%nat.
Proof.
  intros Hnd Hp. induction l as [|a l IH]; simpl; [lia|].
  inversion Hnd as [|? ? Ha Hl]; subst. specialize (IH Hl).
  destruct (p a) eqn:Ea; [|assumption]. simpl.
  destruct (filter p l) as [|b rest] eqn:Ef; [simpl; lia|].
  exfalso. apply Ha.
  assert (In b (filter p l)) as Hb by (rewrite Ef; now left).
  apply filter_In in Hb. destruct Hb as [Hb1 Hb2].
  rewrite (Hp a b Ea Hb2). now apply in_map.
Qed.

Lemma non_cancelled_at_most_one db doctor_id d t :
  appointments_ok db ->
  (List.length (non_cancelled_at db doctor_id d t) <= 1)%nat.
Proof.
  intros [_ Hk]. unfold non_cancelled_at.
  apply (unique_key_filter slot_key); [assumption|].
  intros x y Hx Hy. unfold slot_key.
  apply andb_prop in Hx. destruct Hx as [Hx _].
  apply andb_prop in Hx. destruct Hx as [Hx Hx3].
  apply andb_prop in Hx. destruct Hx as [Hx1 Hx2].
  apply andb_prop in Hy. destruct Hy as [Hy _].
  apply andb_prop in Hy. destruct Hy as [Hy Hy3].
  apply andb_prop in Hy. destruct Hy as [Hy1 Hy2].
  apply Z.eqb_eq in Hx1, Hx2, Hx3, Hy1, Hy2, Hy3. congruence.
Qed.

(** ** Booking a triple that a row already holds *)

Lemma create_appointment_taken clk db ap pid a :
  In a (appointments db) ->
  slot_key a = (AppointmentCreate.doctor_id ap,
                AppointmentCreate.appointment_date ap,
                AppointmentCreate.appointment_time ap) ->
  create_appointment clk db ap pid
  = (db, Raise (ValueError "This time slot is already booked")).
Proof.
  intros Hin Hk. unfold create_appointment.
  cbn [Appointment.doctor_id Appointment.appointment_date
       Appointment.appointment_time].
  unfold slot_key in Hk. injection Hk as <- <- <-.
  now rewrite slot_key_taken_true.
Qed.

Lemma bookSlot_taken clk db body user a :
  In a (appointments db) ->
  slot_key a = (AppointmentCreate.doctor_id body,
                AppointmentCreate.appointment_date body,
                AppointmentCreate.appointment_time body) ->
  fst (bookSlot clk db body user) = db
  /\ (forall x, snd (bookSlot clk db body user) <> Return x)
  /\ (User.role user = PATIENT ->
      today clk <= AppointmentCreate.appointment_date body ->
      is_Conflict (snd (bookSlot clk db body user))).
Proof.
  intros Hin Hk. unfold bookSlot, AppointmentCreate.validate.
  destruct (AppointmentCreate.appointment_date body <? today clk) eqn:Ed.
  - apply Z.ltb_lt in Ed. cbn. repeat split; try discriminate. lia.
  - unfold create_new_appointment.
    destruct (User.role user) eqn:Er; cbn [UserRole_eqb negb].
    + cbn. repeat split; discriminate.
    + destruct (check_slot_availability _ _ _ _ _); cbn [negb].
      * rewrite (create_appointment_taken clk db body (User.id user) a Hin Hk).
        cbn. repeat split; try discriminate. intros _ _. now right.
      * cbn. repeat split; try discriminate. intros _ _. now left.
Qed.

(** C1. If a non-CANCELLED appointment holds a (doctor, date, time) triple,
    booking that triple again leaves the database as it is and never
    returns an appointment; for a patient asking for a date that is not in
    the past the answer is the HTTP 400 conflict.  Hence, after any sequence
    of requests served from the empty database, every triple has at most
    one non-CANCELLED appointment. *)
Theorem no_double_booking :
  (forall clk db body user a,
      In a (appointments db) ->
      slot_key a = (AppointmentCreate.doctor_id body,
                    AppointmentCreate.appointment_date body,
                    AppointmentCreate.appointment_time body) ->
      Appointment.status a <> Some CANCELLED ->
      fst (bookSlot clk db body user) = db
      /\ (forall x, snd (bookSlot clk db body user) <> Return x)
      /\ (User.role user = PATIENT ->
          today clk <= AppointmentCreate.appointment_date body ->
          is_Conflict (snd (bookSlot clk db body user))))
  /\ (forall trace doctor_id d t,
         (List.length (non_cancelled_at (run empty_db trace) doctor_id d t)
          <= 1)%nat).
Proof.
  split.
  - intros clk db body user a Hin Hk _. now apply (bookSlot_taken _ _ _ _ a).
  - intros trace doctor_id d t. apply non_cancelled_at_most_one.
    apply run_ok, empty_db_ok.
Qed.

Lemma no_double_booking_witness :
  fst (bookSlot clk0 db_booked booking_10am patient2) = db_booked
  /\ snd (bookSlot clk0 db_booked booking_10am patient2)
     = Raise (HTTPException 400 "This time slot is not available")
  /\ List.length (non_cancelled_at db_booked 1 tuesday (mk_time 10 0)) = 1%nat.
Proof.
  destruct (proj1 no_double_booking clk0 db_booked booking_10am patient2
              (Appointment.mk 1 1 2 tuesday (mk_time 10 0) (Some 30)
                 "checkup" (Some SCHEDULED) 1000 1000))
    as [H1 _].
  - vm_compute. now left.
  - reflexivity.
  - discriminate.
  - split; [exact H1|]. split; reflexivity.
Defined.

(** C2, evaluated: the patient books Tuesday 10:00 and cancels; the row is
    CANCELLED and [check_slot_availability] reports the slot free, yet the
    same booking is refused, because the unique constraint on
    (doctor_id, appointment_date, appointment_time) still counts the
    cancelled row. *)
Theorem rebook_after_cancel_fails :
  map Appointment.status (appointments db_cancelled) = [Some CANCELLED]
  /\ check_slot_availability db_cancelled 1 tuesday (mk_time 10 0) None = true
  /\ bookSlot clk0 db_cancelled booking_10am patient2
     = (db_cancelled,
        Raise (HTTPException 400 "This time slot is already booked")).
Proof. repeat split. Qed.

(** ** Status changes *)

Lemma NoDup_map_inj_on {A K} (key : A -> K) (l : list A) (x y : A) :
  NoDup (map key l) -> In x l -> In y l -> key x = key y -> x = y.
Proof.
  induction l as [|a l IH]; simpl; [tauto|].
  intro Hnd. inversion Hnd as [|? ? Ha Hl]; subst.
  intros [<-|Hx] [<-|Hy] E; auto.
  - exfalso. apply Ha. rewrite E. now apply in_map.
  - exfalso. apply Ha. rewrite <- E. now apply in_map.
Qed.

Lemma own_slot_free db i a :
  appointments_ok db -> get_appointment db i = Some a ->
  slot_key_taken
    (filter (fun x => negb (Appointment.id x =? i)) (appointments db))
    (Appointment.doctor_id a) (Appointment.appointment_date a)
    (Appointment.appointment_time a) = false.
Proof.
  intros [_ Hk] Hget. destruct (get_appointment_Some _ _ _ Hget) as [Hin Hi].
  destruct (slot_key_taken _ _ _ _) eqn:E; [|reflexivity]. exfalso.
  unfold slot_key_taken in E. apply existsb_exists in E.
  destruct E as [x [Hx Hkey]]. apply filter_In in Hx. destruct Hx as [Hx Hxi].
  apply negb_true_iff, Z.eqb_neq in Hxi.
  apply andb_prop in Hkey. destruct Hkey as [Hkey H3].
  apply andb_prop in Hkey. destruct Hkey as [H1 H2].
  apply Z.eqb_eq in H1, H2, H3.
  assert (x = a) as ->.
  { apply (NoDup_map_inj_on slot_key (appointments db)); try assumption.
    unfold slot_key. congruence. }
  congruence.
Qed.

Lemma update_status_only clk db i a s :
  appointments_ok db -> get_appointment db i = Some a ->
  update_appointment clk db i (status_only s)
  = (write_appointment db i (with_status clk a s),
     Return (Some (with_status clk a s))).
Proof.
  intros Hok Hget. unfold update_appointment. rewrite Hget.
  cbn [status_only AppointmentUpdate.appointment_date
       AppointmentUpdate.appointment_time AppointmentUpdate.reason
       AppointmentUpdate.status setattr].
  rewrite (own_slot_free db i a Hok Hget).
  unfold appointment_modified, with_status, write_appointment.
  rewrite !Z.eqb_refl, String.eqb_refl. cbn [andb].
  now destruct (opt_eqb _ _ _).
Qed.

(** C3, as the code has it: a status change is checked against the actor's
    role and ownership only.  The owning doctor may set any status and the
    owning patient may set CANCELLED, from whatever status the appointment
    has; the row then differs in [status] (and [updated_at]) alone.  A
    patient asking for another status is refused with 403, and so is an
    actor who does not own the appointment; both leave the database as it
    is. *)
Theorem status_change_checks_role_only :
  forall clk db i a user s,
    appointments_ok db ->
    get_appointment db i = Some a ->
    (User.role user = DOCTOR -> Appointment.doctor_id a = User.id user ->
     update_appointment_by_id clk db i (status_only s) user
     = (write_appointment db i (with_status clk a s),
        Return (Some (with_status clk a s))))
    /\ (User.role user = PATIENT -> Appointment.patient_id a = User.id user ->
        update_appointment_by_id clk db i (status_only CANCELLED) user
        = (write_appointment db i (with_status clk a CANCELLED),
           Return (Some (with_status clk a CANCELLED))))
    /\ (User.role user = PATIENT -> Appointment.patient_id a = User.id user ->
        s <> CANCELLED ->
        update_appointment_by_id clk db i (status_only s) user
        = (db, Raise (HTTPException 403
                        "Patients can only cancel appointments")))
    /\ (User.role user = PATIENT -> Appointment.patient_id a <> User.id user ->
        update_appointment_by_id clk db i (status_only s) user
        = (db, Raise (HTTPException 403
                        "You can only update your own appointments")))
    /\ (User.role user = DOCTOR -> Appointment.doctor_id a <> User.id user ->
        update_appointment_by_id clk db i (status_only s) user
        = (db, Raise (HTTPException 403
                        "You can only update appointments for your patients"))).
Proof.
  intros clk db i a user s Hok Hget.
  repeat split; intros Hrole Hown;
    unfold update_appointment_by_id, update_permission;
    rewrite Hget, Hrole.
  - apply Z.eqb_eq in Hown. rewrite Hown. cbn.
    now apply update_status_only.
  - apply Z.eqb_eq in Hown. rewrite Hown. cbn.
    now apply update_status_only.
  - intro Hs. apply Z.eqb_eq in Hown. rewrite Hown. cbn.
    destruct s; cbn; congruence.
  - apply Z.eqb_neq in Hown. now rewrite Hown.
  - apply Z.eqb_neq in Hown. now rewrite Hown.
Qed.

Lemma status_change_checks_role_only_witness :
  get_appointment db_cancelled 1
  = Some (Appointment.mk 1 1 2 tuesday (mk_time 10 0) (Some 30) "checkup"
            (Some CANCELLED) 1000 1000)
  /\ snd (update_appointment_by_id clk0 db_cancelled 1
            (status_only COMPLETED) doctor1)
     = Return (Some (Appointment.mk 1 1 2 tuesday (mk_time 10 0) (Some 30)
                       "checkup" (Some COMPLETED) 1000 1000)).
Proof.
  split; [reflexivity|].
  assert (appointments_ok db_cancelled) as Hok
    by (apply run_ok, run_ok, run_ok, empty_db_ok).
  destruct (status_change_checks_role_only clk0 db_cancelled 1
              (Appointment.mk 1 1 2 tuesday (mk_time 10 0) (Some 30)
                 "checkup" (Some CANCELLED) 1000 1000)
              doctor1 COMPLETED Hok eq_refl) as [H _].
  rewrite (H eq_refl eq_refl). reflexivity.
Defined.

(** C3 fails as stated: the doctor sets a CANCELLED appointment back to
    SCHEDULED; the request succeeds and the stored row is SCHEDULED again. *)
Lemma terminal_status_resurrected :
  map Appointment.status (appointments db_cancelled) = [Some CANCELLED]
  /\ exists db' a',
      update_appointment_by_id clk0 db_cancelled 1 (status_only SCHEDULED)
        doctor1 = (db', Return (Some a'))
      /\ Appointment.status a' = Some SCHEDULED
      /\ map Appointment.status (appointments db') = [Some SCHEDULED].
Proof.
  split; [reflexivity|]. eexists. eexists. repeat split.
Qed.

(** ** The frame of [update_appointment] *)

(** C10. [update_appointment] on an existing appointment either commits a
    row that keeps [id], [doctor_id], [patient_id], [created_at] and
    [duration], and keeps each of date, time, reason and status that the
    request leaves unset, or it raises after the rollback and the database
    is as before. *)
Theorem update_appointment_frame :
  forall clk db i u a,
    get_appointment db i = Some a ->
    (exists a',
        update_appointment clk db i u
        = (write_appointment db i a', Return (Some a'))
        /\ Appointment.id a' = Appointment.id a
        /\ Appointment.doctor_id a' = Appointment.doctor_id a
        /\ Appointment.patient_id a' = Appointment.patient_id a
        /\ Appointment.created_at a' = Appointment.created_at a
        /\ Appointment.duration a' = Appointment.duration a
        /\ (AppointmentUpdate.appointment_date u = Unset ->
            Appointment.appointment_date a' = Appointment.appointment_date a)
        /\ (AppointmentUpdate.appointment_time u = Unset ->
            Appointment.appointment_time a' = Appointment.appointment_time a)
        /\ (AppointmentUpdate.reason u = Unset ->
            Appointment.reason a' = Appointment.reason a)
        /\ (AppointmentUpdate.status u = Unset ->
            Appointment.status a' = Appointment.status a))
    \/ update_appointment clk db i u
       = (db, Raise (ValueError "This time slot is already booked")).
Proof.
  intros clk db i u a Hget. unfold update_appointment. rewrite Hget.
  destruct (setattr (AppointmentUpdate.appointment_date u) _) as [d|] eqn:Ed;
    [|now right].
  destruct (setattr (AppointmentUpdate.appointment_time u) _) as [t|] eqn:Et;
    [|now right].
  destruct (setattr (AppointmentUpdate.reason u) _) as [r|] eqn:Er;
    [|now right].
  destruct (slot_key_taken _ _ _ _); [now right|]. left.
  eexists. split; [reflexivity|]. cbn.
  repeat split; intro Hu; rewrite Hu in *; cbn in *; congruence.
Qed.

Lemma update_appointment_frame_witness :
  exists a',
    snd (update_appointment clk0 db_booked 1 new_reason_only)
    = Return (Some a')
    /\ Appointment.reason a' = "follow-up"
    /\ Appointment.appointment_time a' = mk_time 10 0
    /\ Appointment.status a' = Some SCHEDULED.
Proof.
  destruct (update_appointment_frame clk0 db_booked 1 new_reason_only
              (Appointment.mk 1 1 2 tuesday (mk_time 10 0) (Some 30)
                 "checkup" (Some SCHEDULED) 1000 1000) eq_refl)
    as [[a' [H [_ [_ [_ [_ [_ [_ [Ht [_ Hs]]]]]]]]]]|H].
  - exists a'. rewrite H. split; [reflexivity|].
    split; [|split; [exact (Ht eq_refl)|exact (Hs eq_refl)]].
    vm_compute in H. now inversion H.
  - vm_compute in H. discriminate H.
Defined.

(** ** Window bounds *)

(** C9, as the code has it: at creation a window with
    [start_time >= end_time] is refused with a validation error, so every
    window defineWindow stores has [start_time < end_time] (and a weekday
    between 0 and 6); the slot duration is stored as given, whatever its
    sign. *)
Theorem window_bounds_checked_at_creation :
  forall clk db body user,
    (ScheduleCreate.end_time body <= ScheduleCreate.start_time body ->
     exists msg,
       defineWindow clk db body user = (db, Raise (RequestValidationError msg)))
    /\ (forall db' s,
           defineWindow clk db body user = (db', Return s) ->
           Schedule.start_time s < Schedule.end_time s
           /\ 0 <= Schedule.day_of_week s <= 6
           /\ Schedule.slot_duration s
              = Some (ScheduleCreate.slot_duration body)
           /\ schedules db' = schedules db ++ [s]).
Proof.
  intros clk db body user. unfold defineWindow, ScheduleCreate.validate.
  destruct (negb _) eqn:Ed.
  - split; [intros _; eexists; reflexivity|discriminate].
  - apply negb_false_iff, andb_prop in Ed. destruct Ed as [Hd1 Hd2].
    apply Z.leb_le in Hd1, Hd2.
    destruct (ScheduleCreate.end_time body <=? ScheduleCreate.start_time body)
      eqn:Et.
    + split; [intros _; eexists; reflexivity|discriminate].
    + apply Z.leb_gt in Et. split; [lia|].
      intros db' s. unfold create_doctor_schedule.
      destruct (negb _); [discriminate|]. unfold create_schedule.
      destruct (schedule_key_taken _ _ _ _ _); [discriminate|].
      intro H. injection H as <- <-. cbn. repeat split; lia.
Qed.

Lemma window_bounds_checked_at_creation_witness :
  (exists msg,
      defineWindow clk0 empty_db
        (ScheduleCreate.mk 1 (mk_time 17 0) (mk_time 9 0) 30) doctor1
      = (empty_db, Raise (RequestValidationError msg)))
  /\ Schedule.start_time
       (Schedule.mk 1 1 1 (mk_time 9 0) (mk_time 17 0) (Some 30) (Some true)
          1000)
     < Schedule.end_time
         (Schedule.mk 1 1 1 (mk_time 9 0) (mk_time 17 0) (Some 30)
            (Some true) 1000).
Proof.
  split.
  - apply (proj1 (window_bounds_checked_at_creation clk0 empty_db
                    (ScheduleCreate.mk 1 (mk_time 17 0) (mk_time 9 0) 30)
                    doctor1)).
    vm_compute. discriminate.
  - apply (proj2 (window_bounds_checked_at_creation clk0 empty_db
                    nine_to_five doctor1) db_window).
    reflexivity.
Defined.

(** C9 fails as stated: a window with zero-minute slots is accepted at
    creation and stored. *)
Lemma zero_duration_window_accepted :
  exists db' s,
    defineWindow clk0 empty_db zero_minute_slots doctor1 = (db', Return s)
    /\ Schedule.slot_duration s = Some 0
    /\ In s (schedules db').
Proof.
  eexists. eexists. split; [reflexivity|]. split; [reflexivity|]. now left.
Qed.

(** ** Rescheduling *)

Lemma filter_filter_comm {A} (p q : A -> bool) (l : list A) :
  filter p (filter q l) = filter q (filter p l).
Proof.
  induction l as [|x l IH]; simpl; [reflexivity|].
  destruct (q x) eqn:Eq, (p x) eqn:Ep; simpl; rewrite ?Eq, ?Ep, IH;
    reflexivity.
Qed.

(** Excluding an appointment id from the conflict check is running the
    booking check on the ledger without that row. *)
Lemma check_excluding_is_check_without db doctor_id d t i a :
  get_appointment db i = Some a -> i <> 0 ->
  check_slot_availability db doctor_id d t (Some i)
  = check_slot_availability (fst (delete_appointment db i)) doctor_id d t None.
Proof.
  intros Hget Hi. unfold delete_appointment. rewrite Hget. cbn [fst].
  unfold check_slot_availability. cbn [schedules appointments].
  destruct (find _ (schedules db)) as [s|]; [|reflexivity].
  destruct (negb _); [reflexivity|].
  apply Z.eqb_neq in Hi. rewrite Hi.
  now rewrite filter_filter_comm.
Qed.




(** ** Widening a window *)

(** What the time-change scan does get right: when every future appointment
    of the weekday lies inside the old hours, new hours that contain the
    old ones leave nothing outside. *)
Lemma widening_scan_finds_nothing day_of_week old_start old_end
  new_start new_end :
  new_start <= old_start -> old_end <= new_end ->
  forall future acc,
    (forall apt, In apt future ->
                 weekday (Appointment.appointment_date apt) = day_of_week ->
                 old_start <= Appointment.appointment_time apt < old_end) ->
    outside_hours_scan day_of_week (Some new_start) (Some new_end) future acc
    = Return acc.
Proof.
  intros Hs He. induction future as [|apt rest IH]; intros acc Hin;
    cbn [outside_hours_scan]; [reflexivity|].
  assert (forall x, In x rest ->
                    weekday (Appointment.appointment_date x) = day_of_week ->
                    old_start <= Appointment.appointment_time x < old_end)
    as Hrest by (intros x Hx; apply Hin; now right).
  destruct (weekday (Appointment.appointment_date apt) =? day_of_week) eqn:E;
    [|now apply IH].
  apply Z.eqb_eq in E. specialize (Hin apt (or_introl eq_refl) E).
  unfold outside_new_hours.
  replace (new_start <=? Appointment.appointment_time apt) with true
    by (symmetry; apply Z.leb_le; lia).
  replace (Appointment.appointment_time apt <? new_end) with true
    by (symmetry; apply Z.ltb_lt; lia).
  cbn [negb]. now apply IH.
Qed.

(** C4, evaluated: the doctor has two Tuesday windows, 9:00-17:00 holding
    the 10:00 appointment and 18:00-19:00 holding none.  Widening the
    second one to 17:30-19:00 is refused: the scan counts the 10:00
    appointment, which was never inside the window being edited. *)
Theorem widening_refused_by_other_window :
  map (fun s => (Schedule.id s, Schedule.start_time s, Schedule.end_time s))
      (schedules db_two_windows)
  = [(1, mk_time 9 0, mk_time 17 0); (2, mk_time 18 0, mk_time 19 0)]
  /\ map Appointment.appointment_time (appointments db_two_windows)
     = [mk_time 10 0]
  /\ update_doctor_schedule clk0 db_two_windows 2 evening_from_1730 doctor1
     = (db_two_windows,
        Raise (HTTPException 400
          "Cannot modify schedule: 1 appointments would be outside new hours")).
Proof. repeat split. Qed.

(** ** The slot generator *)

Lemma next_slot_time_no_wrap (t m : Z) :
  0 <= t -> 0 < m -> t + m * usec_per_minute < usec_per_day ->
  next_slot_time t m = t + m * usec_per_minute.
Proof.
  intros Ht Hm Hlt. unfold next_slot_time. apply Z.mod_small.
  unfold usec_per_minute in *. lia.
Qed.

Lemma slot_count_step (cur en step : Z) :
  0 < step -> cur < en ->
  slot_count cur en step = S (slot_count (cur + step) en step).
Proof.
  intros Hs Hlt. unfold slot_count.
  replace (en - cur + step - 1) with ((en - cur - 1) + 1 * step) by lia.
  replace (en - (cur + step) + step - 1) with (en - cur - 1) by lia.
  rewrite Z.div_add by lia.
  assert (0 <= (en - cur - 1) / step) by (apply Z.div_pos; lia).
  rewrite <- Z2Nat.inj_succ by assumption. reflexivity.
Qed.

Lemma slot_count_done (cur en step : Z) :
  0 < step -> en <= cur -> slot_count cur en step = O.
Proof.
  intros Hs Hle. unfold slot_count.
  assert ((en - cur + step - 1) / step <= 0).
  { assert ((en - cur + step - 1) / step < 1); [|lia].
    apply Z.div_lt_upper_bound; lia. }
  destruct ((en - cur + step - 1) / step); try reflexivity; lia.
Qed.

Lemma free_slots_cons booked doctor_id d t ts :
  free_slots booked doctor_id d (t :: ts)
  = (if in_booked_slots booked d t then []
     else [AvailableSlot.mk d t doctor_id])
    ++ free_slots booked doctor_id d ts.
Proof.
  unfold free_slots. cbn [filter].
  destruct (in_booked_slots booked d t); reflexivity.
Qed.

(** A regular window's loop returns once it has [slot_count + 1] units
    of fuel, with the window's free slots appended. *)
Lemma slot_loop_regular booked doctor_id d s minutes :
  Schedule.slot_duration s = Some minutes ->
  0 < minutes ->
  Schedule.end_time s + minutes * usec_per_minute <= usec_per_day ->
  forall fuel cur acc,
    0 <= cur ->
    (slot_count cur (Schedule.end_time s) (minutes * usec_per_minute)
     < fuel)%nat ->
    slot_loop fuel booked doctor_id d s cur acc
    = Some (Return
              (acc ++ free_slots booked doctor_id d
                        (times_from
                           (slot_count cur (Schedule.end_time s)
                              (minutes * usec_per_minute))
                           cur (minutes * usec_per_minute)))).
Proof.
  intros Hdur Hm Hend.
  assert (0 < minutes * usec_per_minute) as Hstep
    by (unfold usec_per_minute; lia).
  induction fuel as [|fuel IH]; intros cur acc Hcur Hfuel; [lia|].
  cbn [slot_loop].
  destruct (cur <? Schedule.end_time s) eqn:E.
  - apply Z.ltb_lt in E.
    rewrite (slot_count_step _ _ _ Hstep E) in *.
    cbn [times_from]. rewrite free_slots_cons, Hdur.
    rewrite next_slot_time_no_wrap by lia.
    rewrite IH by lia.
    destruct (in_booked_slots booked d cur); cbn [app];
      now rewrite <- ?app_assoc.
  - apply Z.ltb_ge in E. rewrite (slot_count_done _ _ _ Hstep E).
    cbn. now rewrite app_nil_r.
Qed.

Lemma slot_count_regular_bound s minutes :
  Schedule.slot_duration s = Some minutes ->
  0 < minutes ->
  0 <= Schedule.start_time s ->
  Schedule.end_time s + minutes * usec_per_minute <= usec_per_day ->
  (slot_count (Schedule.start_time s) (Schedule.end_time s)
     (minutes * usec_per_minute) < 1440)%nat.
Proof.
  intros _ Hm Hs He. unfold slot_count.
  set (step := minutes * usec_per_minute) in *.
  assert (60000000 <= step) as Hstep
    by (unfold step, usec_per_minute; lia).
  assert ((Schedule.end_time s - Schedule.start_time s + step - 1) / step
          < 1440) as Hq.
  { apply Z.div_lt_upper_bound; [lia|]. unfold usec_per_day in He. lia. }
  lia.
Qed.

Lemma schedule_loop_regular booked doctor_id d fuel :
  (1440 <= fuel)%nat ->
  forall ws acc,
    Forall regular_window ws ->
    schedule_loop fuel booked doctor_id d ws acc
    = Some (Return
              (acc ++ flat_map
                        (fun s => free_slots booked doctor_id d
                                    (window_times s)) ws)).
Proof.
  intro Hfuel. induction ws as [|s ws IH]; intros acc Hreg; cbn [schedule_loop
    flat_map].
  - now rewrite app_nil_r.
  - inversion Hreg as [|? ? [m [Hdur [Hm [Hs He]]]] Hws]; subst.
    pose proof (slot_count_regular_bound s m Hdur Hm Hs He) as Hb.
    rewrite (slot_loop_regular booked doctor_id d s m Hdur Hm He) by lia.
    rewrite IH by assumption. unfold window_times. rewrite Hdur.
    now rewrite app_assoc.
Qed.

Lemma Forall_filter {A} (P : A -> Prop) (p : A -> bool) (l : list A) :
  Forall P l -> Forall P (filter p l).
Proof.
  intro H. apply Forall_forall. intros x Hx. apply filter_In in Hx.
  rewrite Forall_forall in H. now apply H.
Qed.

Lemma date_loop_regular booked doctor_id ws end_date inner :
  (1440 <= inner)%nat ->
  Forall regular_window ws ->
  forall fuel cur acc,
    (Z.to_nat (end_date - cur + 1) < fuel)%nat ->
    date_loop fuel inner booked doctor_id ws cur end_date acc
    = Some (Return
              (acc ++ flat_map
                        (fun d =>
                           flat_map
                             (fun s => free_slots booked doctor_id d
                                         (window_times s))
                             (filter (fun s => Schedule.day_of_week s
                                               =? weekday d) ws))
                        (times_from (Z.to_nat (end_date - cur + 1)) cur 1))).
Proof.
  intros Hinner Hreg.
  induction fuel as [|fuel IH]; intros cur acc Hfuel; [lia|].
  cbn [date_loop]. destruct (cur <=? end_date) eqn:E.
  - apply Z.leb_le in E.
    replace (Z.to_nat (end_date - cur + 1))
      with (S (Z.to_nat (end_date - (cur + 1) + 1))) in * by lia.
    rewrite schedule_loop_regular by (try assumption; now apply Forall_filter).
    rewrite IH by lia. cbn [times_from flat_map]. now rewrite app_assoc.
  - apply Z.leb_gt in E.
    replace (Z.to_nat (end_date - cur + 1)) with O by lia.
    cbn. now rewrite app_nil_r.
Qed.

(** With regular windows the generator returns, and what it returns is the
    closed form. *)
Lemma get_available_slots_regular db doctor_id start_date end_date fuel :
  Forall regular_window (get_schedules_by_doctor db doctor_id) ->
  (1440 <= fuel)%nat ->
  (Z.to_nat (end_date - start_date + 1) < fuel)%nat ->
  get_available_slots fuel db doctor_id start_date end_date
  = Some (Return
            (slots_by_date_window_time db doctor_id start_date end_date)).
Proof.
  intros Hreg Hf1 Hf2. unfold get_available_slots, slots_by_date_window_time.
  destruct (get_schedules_by_doctor db doctor_id) as [|s ws] eqn:Ews.
  - cbn [is_nil]. cbn [filter flat_map].
    induction (dates_between start_date end_date) as [|d l IHl];
      [reflexivity|]. cbn [flat_map app]. exact IHl.
  - cbn [is_nil].
    rewrite (date_loop_regular _ _ _ _ _ Hf1 Hreg) by assumption.
    reflexivity.
Qed.

Lemma filter_none {A} (p : A -> bool) (l : list A) :
  (forall x, In x l -> p x = false) -> filter p l = [].
Proof.
  induction l as [|x l IH]; intro H; cbn [filter]; [reflexivity|].
  rewrite (H x (or_introl eq_refl)). apply IH. intros y Hy. apply H.
  now right.
Qed.

Lemma free_slots_nothing_booked doctor_id d ts :
  free_slots [] doctor_id d ts
  = map (fun t => AvailableSlot.mk d t doctor_id) ts.
Proof.
  unfold free_slots. f_equal.
  induction ts as [|t ts IH]; [reflexivity|].
  cbn [filter]. unfold in_booked_slots at 1. cbn [existsb negb].
  now f_equal.
Qed.

(** C8. A doctor whose only active window is 9:00-17:00 in 30-minute slots
    and who has no appointment that is not cancelled: on a date of the
    window's weekday the generator returns (given 17 units of fuel or more)
    exactly the sixteen half-hour slots from 9:00 to 16:30, all before
    17:00. *)
Theorem nine_to_five_gives_sixteen_slots :
  forall db doctor_id d s fuel,
    get_schedules_by_doctor db doctor_id = [s] ->
    Schedule.start_time s = mk_time 9 0 ->
    Schedule.end_time s = mk_time 17 0 ->
    Schedule.slot_duration s = Some 30 ->
    Schedule.day_of_week s = weekday d ->
    (forall a, In a (appointments db) ->
               Appointment.doctor_id a = doctor_id ->
               status_is_not (Appointment.status a) CANCELLED = false) ->
    (17 <= fuel)%nat ->
    get_available_slots fuel db doctor_id d d
    = Some (Return (map (fun t => AvailableSlot.mk d t doctor_id)
                        half_hours_9_to_17))
    /\ List.length half_hours_9_to_17 = 16%nat
    /\ hd_error half_hours_9_to_17 = Some (mk_time 9 0)
    /\ last half_hours_9_to_17 0 = mk_time 16 30
    /\ Forall (fun t => t < mk_time 17 0) half_hours_9_to_17.
Proof.
  intros db doctor_id d s fuel Hs Hstart Hend Hdur Hdow Hfree Hfuel.
  split; [|split; [reflexivity|split; [reflexivity|split; [reflexivity|]]]].
  - unfold get_available_slots. rewrite Hs. cbn [is_nil].
    rewrite filter_none.
    2:{ intros a Ha. destruct (Appointment.doctor_id a =? doctor_id) eqn:E;
          [|reflexivity].
        apply Z.eqb_eq in E. rewrite (Hfree a Ha E).
        now rewrite !andb_false_r. }
    cbn [map]. destruct fuel as [|[|fuel]]; try lia.
    cbn [date_loop]. rewrite Z.leb_refl. cbn [filter].
    rewrite Hdow, Z.eqb_refl. cbn [schedule_loop].
    rewrite (slot_loop_regular [] doctor_id d s 30 Hdur).
    + rewrite Hstart, Hend.
      replace (slot_count (mk_time 9 0) (mk_time 17 0) (30 * usec_per_minute))
        with 16%nat by reflexivity.
      replace (times_from 16 (mk_time 9 0) (30 * usec_per_minute))
        with half_hours_9_to_17 by reflexivity.
      rewrite free_slots_nothing_booked. cbn [app].
      replace (d + 1 <=? d) with false by (symmetry; apply Z.leb_gt; lia).
      reflexivity.
    + lia.
    + rewrite Hend. vm_compute. discriminate.
    + rewrite Hstart. vm_compute. discriminate.
    + rewrite Hstart, Hend.
      replace (slot_count (mk_time 9 0) (mk_time 17 0) (30 * usec_per_minute))
        with 16%nat by reflexivity.
      lia.
  - repeat constructor.
Qed.

Lemma nine_to_five_gives_sixteen_slots_witness :
  get_available_slots 17 db_window 1 tuesday tuesday
  = Some (Return (map (fun t => AvailableSlot.mk tuesday t 1)
                      half_hours_9_to_17)).
Proof.
  apply (nine_to_five_gives_sixteen_slots db_window 1 tuesday
           (Schedule.mk 1 1 1 (mk_time 9 0) (mk_time 17 0) (Some 30)
              (Some true) 1000) 17%nat);
    try reflexivity; try lia.
  intros a [].
Defined.

(** *** Order of the output *)

Lemma times_from_lower (n : nat) (step : Z) :
  0 < step -> forall t x, In x (times_from n t step) -> t <= x.
Proof.
  intro Hs. induction n as [|n IH]; intros t x; cbn [times_from In];
    [tauto|].
  intros [<-|H]; [lia|]. specialize (IH _ _ H). lia.
Qed.

Lemma times_from_sorted (n : nat) (step : Z) :
  0 < step -> forall t, StronglySorted Z.lt (times_from n t step).
Proof.
  intro Hs. induction n as [|n IH]; intro t; cbn [times_from];
    constructor; [apply IH|].
  apply Forall_forall. intros x Hx.
  pose proof (times_from_lower n step Hs _ _ Hx). lia.
Qed.

Lemma window_times_sorted s :
  regular_window s -> StronglySorted Z.lt (window_times s).
Proof.
  intros [m [Hdur [Hm _]]]. unfold window_times. rewrite Hdur.
  apply times_from_sorted. unfold usec_per_minute. lia.
Qed.

Lemma schedule_le_total a b : schedule_le a b = false -> schedule_le b a = true.
Proof.
  unfold schedule_le. intro H. apply orb_false_iff in H. destruct H as [H1 H2].
  apply Z.ltb_ge in H1.
  destruct (Z.eq_dec (Schedule.day_of_week a) (Schedule.day_of_week b))
    as [E|E].
  - rewrite E, Z.eqb_refl in *. cbn [andb] in H2. apply Z.leb_gt in H2.
    apply orb_true_iff. right. cbn [andb]. apply Z.leb_le. lia.
  - apply orb_true_iff. left. apply Z.ltb_lt. lia.
Qed.

Lemma schedule_le_trans a b c :
  schedule_le a b = true -> schedule_le b c = true -> schedule_le a c = true.
Proof.
  unfold schedule_le. intros H1 H2.
  apply orb_true_iff in H1. apply orb_true_iff in H2.
  apply orb_true_iff.
  destruct H1 as [H1|H1], H2 as [H2|H2];
    rewrite ?andb_true_iff, ?Z.ltb_lt, ?Z.eqb_eq, ?Z.leb_le in *.
  - left. lia.
  - left. lia.
  - left. lia.
  - right. lia.
Qed.

Lemma insert_schedule_In x l y :
  In y (insert_schedule x l) -> y = x \/ In y l.
Proof.
  induction l as [|z l IH]; cbn [insert_schedule].
  - intros [<-|[]]. now left.
  - destruct (schedule_le x z).
    + intros [<-|H]; [now left|now right].
    + intros [<-|H]; [right; now left|].
      destruct (IH H) as [->|?]; [now left|right; now right].
Qed.

Lemma insert_schedule_sorted x l :
  StronglySorted (fun a b => schedule_le a b = true) l ->
  StronglySorted (fun a b => schedule_le a b = true) (insert_schedule x l).
Proof.
  induction l as [|z l IH]; cbn [insert_schedule]; intro Hs.
  - repeat constructor.
  - inversion Hs as [|? ? Hl Hz]; subst.
    destruct (schedule_le x z) eqn:E.
    + constructor; [assumption|]. constructor; [assumption|].
      rewrite Forall_forall in *. intros y Hy.
      apply (schedule_le_trans x z y E). now apply Hz.
    + constructor; [now apply IH|].
      apply Forall_forall. intros y Hy.
      destruct (insert_schedule_In _ _ _ Hy) as [->|Hy'].
      * now apply schedule_le_total.
      * rewrite Forall_forall in Hz. now apply Hz.
Qed.

Lemma get_schedules_by_doctor_sorted db doctor_id :
  StronglySorted (fun a b => schedule_le a b = true)
                 (get_schedules_by_doctor db doctor_id).
Proof.
  unfold get_schedules_by_doctor, order_by_day_start.
  induction (filter _ (schedules db)) as [|x l IH]; cbn [fold_right].
  - constructor.
  - now apply insert_schedule_sorted.
Qed.

(** C6, as the code has it: for a doctor whose active windows have a
    positive slot length and [end_time + slot length <= 24:00], the generator
    returns (given enough fuel) the free slots date by date in ascending
    date order, within a date window by window in the order of
    [get_schedules_by_doctor] (day of week, then start time), and within a
    window in ascending time order.  Nothing is deduplicated: a time that
    lies in two windows of the day appears once for each. *)
Theorem slots_ordered_by_date_window_time :
  forall db doctor_id start_date end_date,
    Forall regular_window (get_schedules_by_doctor db doctor_id) ->
    (forall fuel,
        (1440 <= fuel)%nat ->
        (Z.to_nat (end_date - start_date + 1) < fuel)%nat ->
        get_available_slots fuel db doctor_id start_date end_date
        = Some (Return (slots_by_date_window_time db doctor_id
                          start_date end_date)))
    /\ StronglySorted Z.lt (dates_between start_date end_date)
    /\ StronglySorted (fun a b => schedule_le a b = true)
                      (get_schedules_by_doctor db doctor_id)
    /\ Forall (fun s => StronglySorted Z.lt (window_times s))
              (get_schedules_by_doctor db doctor_id).
Proof.
  intros db doctor_id start_date end_date Hreg. repeat split.
  - intros fuel H1 H2. now apply get_available_slots_regular.
  - apply times_from_sorted. lia.
  - apply get_schedules_by_doctor_sorted.
  - rewrite Forall_forall in *. intros s Hs.
    apply window_times_sorted. now apply Hreg.
Qed.

Lemma slots_ordered_by_date_window_time_witness :
  get_available_slots 1440 db_overlap 1 tuesday tuesday
  = Some (Return (slots_by_date_window_time db_overlap 1 tuesday tuesday))
  /\ map AvailableSlot.time
         (slots_by_date_window_time db_overlap 1 tuesday tuesday)
     = half_hours_9_to_17 ++ [mk_time 10 0; mk_time 10 30].
Proof.
  split; [|reflexivity].
  apply (proj1 (slots_ordered_by_date_window_time db_overlap 1 tuesday
                  tuesday
                  ltac:(repeat constructor; exists 30;
                        repeat split; vm_compute; discriminate))).
  - apply le_n.
  - vm_compute. repeat constructor.
Defined.

Lemma StronglySorted_adjacent {A} (R : A -> A -> Prop) l1 x y l2 :
  StronglySorted R (l1 ++ x :: y :: l2) -> R x y.
Proof.
  induction l1 as [|a l1 IH]; cbn [app]; intro H;
    inversion H as [|? ? Hl Hf]; subst.
  - inversion Hf; assumption.
  - now apply IH.
Qed.

(** C6 fails as stated: with the windows 9:00-17:00 and 10:00-11:00 on the
    same day the output lists 10:00 and 10:30 twice, the second time after
    16:30. *)
Lemma overlapping_windows_repeat_slots :
  get_available_slots 17 db_overlap 1 tuesday tuesday
  = Some (Return overlap_output)
  /\ map AvailableSlot.time overlap_output
     = half_hours_9_to_17 ++ [mk_time 10 0; mk_time 10 30]
  /\ ~ NoDup (map slot_pair overlap_output)
  /\ ~ StronglySorted Z.le (map AvailableSlot.time overlap_output).
Proof.
  split; [vm_compute; reflexivity|]. split; [vm_compute; reflexivity|].
  split.
  - intro H. vm_compute in H.
    apply (NoDup_remove_2 [_; _]) in H. apply H.
    apply in_or_app. right. do 13 right. now left.
  - intro H. vm_compute in H.
    apply (StronglySorted_adjacent Z.le
             [_; _; _; _; _; _; _; _; _; _; _; _; _; _; _]) in H.
    now apply H.
Qed.

(** *** A window that reaches midnight *)

Lemma late_loop_never_exits booked doctor_id d s :
  Schedule.slot_duration s = Some 30 ->
  Schedule.end_time s = mk_time 23 45 ->
  forall fuel k acc,
    0 <= k < 48 ->
    slot_loop fuel booked doctor_id d s (k * (30 * usec_per_minute)) acc
    = None.
Proof.
  intros Hdur Hend. induction fuel as [|fuel IH]; intros k acc Hk;
    [reflexivity|].
  cbn [slot_loop]. rewrite Hend, Hdur.
  replace (k * (30 * usec_per_minute) <? mk_time 23 45) with true
    by (symmetry; apply Z.ltb_lt; unfold mk_time, usec_per_minute; lia).
  destruct (Z.eq_dec k 47) as [->|Hne].
  - change (next_slot_time (47 * (30 * usec_per_minute)) 30)
      with (0 * (30 * usec_per_minute)).
    apply IH. lia.
  - rewrite next_slot_time_no_wrap
      by (unfold usec_per_minute, usec_per_day; lia).
    replace (k * (30 * usec_per_minute) + 30 * usec_per_minute)
      with ((k + 1) * (30 * usec_per_minute)) by lia.
    apply IH. lia.
Qed.

(** C7, evaluated: the window Tuesday 23:00-23:45 with 30-minute slots is
    valid (start before end, positive duration), and on a Tuesday the
    generator never returns, whatever fuel it is given: after 23:30 the time
    of day wraps to 0:00, which is again before 23:45. *)
Theorem midnight_window_never_returns :
  map (fun s => (Schedule.start_time s, Schedule.end_time s,
                 Schedule.slot_duration s))
      (get_schedules_by_doctor db_late 1)
  = [(mk_time 23 0, mk_time 23 45, Some 30)]
  /\ next_slot_time (mk_time 23 30) 30 = mk_time 0 0
  /\ forall fuel, get_available_slots fuel db_late 1 tuesday tuesday = None.
Proof.
  split; [reflexivity|]. split; [reflexivity|]. intro fuel.
  unfold get_available_slots.
  set (s := Schedule.mk 1 1 1 (mk_time 23 0) (mk_time 23 45) (Some 30)
              (Some true) 1000).
  change (get_schedules_by_doctor db_late 1) with [s].
  cbn [is_nil]. destruct fuel as [|fuel]; [reflexivity|].
  cbn [date_loop]. rewrite Z.leb_refl.
  change (filter (fun x => Schedule.day_of_week x =? weekday tuesday) [s])
    with [s].
  cbn [schedule_loop].
  change (Schedule.start_time s) with (46 * (30 * usec_per_minute)).
  rewrite (late_loop_never_exits _ 1 tuesday s eq_refl eq_refl (S fuel) 46)
    by lia.
  reflexivity.
Qed.

(** * Further properties of the CRUD layer and the routes *)

(** ** Booking *)

(** X1. bookSlot returns an appointment exactly when the actor is a
    patient, the date is today or later, [check_slot_availability] accepts
    the slot and no row (cancelled ones included) holds the triple; the
    appointment is then the new SCHEDULED row appended to the table.  In
    every other case nothing is written. *)
Theorem bookSlot_succeeds_iff :
  forall clk db body user,
    (User.role user = PATIENT ->
     today clk <= AppointmentCreate.appointment_date body ->
     check_slot_availability db (AppointmentCreate.doctor_id body)
       (AppointmentCreate.appointment_date body)
       (AppointmentCreate.appointment_time body) None = true ->
     slot_key_taken (appointments db) (AppointmentCreate.doctor_id body)
       (AppointmentCreate.appointment_date body)
       (AppointmentCreate.appointment_time body) = false ->
     bookSlot clk db body user
     = (mkDb (schedules db)
             (appointments db ++ [booked_row clk db body (User.id user)]),
        Return (booked_row clk db body (User.id user))))
    /\ (forall db' a,
           bookSlot clk db body user = (db', Return a) ->
           User.role user = PATIENT
           /\ today clk <= AppointmentCreate.appointment_date body
           /\ check_slot_availability db (AppointmentCreate.doctor_id body)
                (AppointmentCreate.appointment_date body)
                (AppointmentCreate.appointment_time body) None = true
           /\ slot_key_taken (appointments db)
                (AppointmentCreate.doctor_id body)
                (AppointmentCreate.appointment_date body)
                (AppointmentCreate.appointment_time body) = false)
    /\ (forall db' e, bookSlot clk db body user = (db', Raise e) -> db' = db).
Proof.
  intros clk db body user.
  unfold bookSlot, AppointmentCreate.validate, create_new_appointment,
    create_appointment.
  cbn [Appointment.doctor_id Appointment.appointment_date
       Appointment.appointment_time].
  fold (booked_row clk db body (User.id user)).
  destruct (AppointmentCreate.appointment_date body <? today clk) eqn:Ed.
  { apply Z.ltb_lt in Ed. repeat split; try discriminate; try lia.
    intros db' e H. now injection H as <- _. }
  apply Z.ltb_ge in Ed.
  destruct (User.role user) eqn:Er; cbn [UserRole_eqb negb].
  { repeat split; try discriminate.
    intros db' e H. now injection H as <- _. }
  destruct (check_slot_availability _ _ _ _ _) eqn:Ec; cbn [negb].
  2:{ repeat split; try discriminate.
      intros db' e H. now injection H as <- _. }
  destruct (slot_key_taken _ _ _ _) eqn:Ek.
  { repeat split; try discriminate.
    intros db' e H. now injection H as <- _. }
  repeat split; try assumption; try discriminate.
Qed.

Lemma bookSlot_succeeds_iff_witness :
  bookSlot clk0 db_window booking_10am patient2
  = (db_booked,
     Return (Appointment.mk 1 1 2 tuesday (mk_time 10 0) (Some 30) "checkup"
               (Some SCHEDULED) 1000 1000)).
Proof.
  rewrite (proj1 (bookSlot_succeeds_iff clk0 db_window booking_10am patient2));
    try reflexivity.
  vm_compute. discriminate.
Defined.

Lemma filter_nil_false {A} (p : A -> bool) (l : list A) (a : A) :
  filter p l = [] -> In a l -> p a = false.
Proof.
  intros Hf Ha. destruct (p a) eqn:E; [|reflexivity].
  assert (In a (filter p l)) as H by (apply filter_In; now split).
  rewrite Hf in H. destruct H.
Qed.

Lemma is_nil_true {A} (l : list A) :
  match l with [] => true | _ :: _ => false end = true -> l = [].
Proof. destruct l; [reflexivity|discriminate]. Qed.

(** X2. When [check_slot_availability] accepts a slot, an active window of
    that doctor on that weekday contains the time in its half-open range
    [start_time, end_time), and every row at the triple whose status is
    neither CANCELLED nor NULL is the one excluded by id. *)
Theorem check_slot_availability_sound :
  forall db doctor_id d t exclude,
    check_slot_availability db doctor_id d t exclude = true ->
    (exists s,
        In s (schedules db)
        /\ Schedule.doctor_id s = doctor_id
        /\ Schedule.day_of_week s = weekday d
        /\ Schedule.is_active s = Some true
        /\ Schedule.start_time s <= t < Schedule.end_time s)
    /\ (forall a,
           In a (appointments db) ->
           slot_key a = (doctor_id, d, t) ->
           status_is_not (Appointment.status a) CANCELLED = true ->
           exists i, exclude = Some i /\ i <> 0 /\ Appointment.id a = i).
Proof.
  intros db doctor_id d t exclude. unfold check_slot_availability.
  destruct (find _ (schedules db)) as [s|] eqn:Ef; [|discriminate].
  apply find_some in Ef. destruct Ef as [Hin Hs].
  apply andb_prop in Hs. destruct Hs as [Hs Hact].
  apply andb_prop in Hs. destruct Hs as [Hdoc Hdow].
  apply Z.eqb_eq in Hdoc, Hdow.
  destruct (negb _) eqn:Ew; [discriminate|].
  apply negb_false_iff, andb_prop in Ew. destruct Ew as [Hlo Hhi].
  apply Z.leb_le in Hlo. apply Z.ltb_lt in Hhi.
  intro Hq. split.
  - exists s. repeat split; try assumption.
    destruct (Schedule.is_active s) as [[|]|]; try discriminate. reflexivity.
  - intros a Ha Hk Hst. unfold slot_key in Hk. injection Hk as K1 K2 K3.
    assert (In a (filter
                    (fun a =>
                       (Appointment.doctor_id a =? doctor_id)
                       && (Appointment.appointment_date a =? d)
                       && (Appointment.appointment_time a =? t)
                       && status_is_not (Appointment.status a) CANCELLED)
                    (appointments db))) as Haq.
    { apply filter_In. split; [assumption|].
      now rewrite K1, K2, K3, !Z.eqb_refl, Hst. }
    destruct exclude as [i|].
    + destruct (i =? 0) eqn:Ei.
      * apply is_nil_true in Hq. rewrite Hq in Haq. destruct Haq.
      * apply Z.eqb_neq in Ei. exists i. repeat split; try assumption.
        apply is_nil_true in Hq.
        pose proof (filter_nil_false _ _ a Hq Haq) as Hx.
        apply negb_false_iff in Hx. now apply Z.eqb_eq in Hx.
    + apply is_nil_true in Hq. rewrite Hq in Haq. destruct Haq.
Qed.

Lemma check_slot_availability_sound_witness :
  exists s,
    In s (schedules db_window)
    /\ Schedule.start_time s <= mk_time 16 30 < Schedule.end_time s.
Proof.
  destruct (check_slot_availability_sound db_window 1 tuesday (mk_time 16 30)
              None eq_refl) as [[s [H1 [_ [_ [_ H2]]]]] _].
  exists s. now split.
Defined.

(** What a successful booking did. *)
Lemma bookSlot_Return clk db body user db' a :
  bookSlot clk db body user = (db', Return a) ->
  User.role user = PATIENT
  /\ today clk <= AppointmentCreate.appointment_date body
  /\ check_slot_availability db (AppointmentCreate.doctor_id body)
       (AppointmentCreate.appointment_date body)
       (AppointmentCreate.appointment_time body) None = true
  /\ slot_key_taken (appointments db) (AppointmentCreate.doctor_id body)
       (AppointmentCreate.appointment_date body)
       (AppointmentCreate.appointment_time body) = false
  /\ a = booked_row clk db body (User.id user)
  /\ db' = mkDb (schedules db) (appointments db ++ [a]).
Proof.
  unfold bookSlot, AppointmentCreate.validate, create_new_appointment,
    create_appointment.
  cbn [Appointment.doctor_id Appointment.appointment_date
       Appointment.appointment_time].
  fold (booked_row clk db body (User.id user)).
  destruct (AppointmentCreate.appointment_date body <? today clk) eqn:Ed;
    [discriminate|]. apply Z.ltb_ge in Ed.
  destruct (User.role user) eqn:Er; cbn [UserRole_eqb negb]; [discriminate|].
  destruct (check_slot_availability _ _ _ _ _) eqn:Ec; cbn [negb];
    [|discriminate].
  destruct (slot_key_taken _ _ _ _) eqn:Ek; [discriminate|].
  intro H. injection H as <- <-. repeat split; assumption.
Qed.

Lemma find_snoc_fresh {A} (p : A -> bool) (l : list A) (a : A) :
  (forall x, In x l -> p x = false) -> p a = true ->
  find p (l ++ [a]) = Some a.
Proof.
  intros Hl Ha. induction l as [|x l IH]; cbn [app find].
  - now rewrite Ha.
  - rewrite (Hl x (or_introl eq_refl)). apply IH. intros y Hy. apply Hl.
    now right.
Qed.

Lemma insert_appointment_perm x l :
  Permutation (insert_appointment x l) (x :: l).
Proof.
  induction l as [|y l IH]; cbn [insert_appointment]; [reflexivity|].
  destruct (appointment_le x y); [reflexivity|].
  rewrite IH. apply perm_swap.
Qed.

Lemma order_by_date_time_perm l : Permutation (order_by_date_time l) l.
Proof.
  unfold order_by_date_time. induction l as [|x l IH]; cbn [fold_right];
    [reflexivity|].
  rewrite insert_appointment_perm. now constructor.
Qed.

(** X3. After a successful booking the new appointment is found under its
    id, appears in the patient's listing, and the slot it took is no longer
    available; the windows are untouched. *)
Theorem booked_appointment_is_recorded :
  forall clk db body user db' a,
    bookSlot clk db body user = (db', Return a) ->
    get_appointment db' (Appointment.id a) = Some a
    /\ In a (get_appointments_by_patient db' (User.id user))
    /\ check_slot_availability db' (Appointment.doctor_id a)
         (Appointment.appointment_date a) (Appointment.appointment_time a)
         None = false
    /\ schedules db' = schedules db.
Proof.
  intros clk db body user db' a H.
  destruct (bookSlot_Return _ _ _ _ _ _ H)
    as [_ [_ [Hc [_ [Ha Hdb]]]]].
  subst db'. repeat split.
  - unfold get_appointment. cbn [appointments]. apply find_snoc_fresh.
    + intros x Hx. apply Z.eqb_neq. subst a. cbn [booked_row Appointment.id].
      pose proof (next_id_fresh (map Appointment.id (appointments db))
                    (Appointment.id x) (in_map _ _ _ Hx)). lia.
    + apply Z.eqb_refl.
  - unfold get_appointments_by_patient.
    apply (Permutation_in _ (Permutation_sym (order_by_date_time_perm _))).
    apply filter_In. cbn [appointments]. split.
    + apply in_or_app. right. now left.
    + subst a. cbn. apply Z.eqb_refl.
  - subst a. cbn [booked_row Appointment.doctor_id
                  Appointment.appointment_date Appointment.appointment_time].
    unfold check_slot_availability in *. cbn [schedules appointments].
    destruct (find _ (schedules db)) as [s|]; [|reflexivity].
    destruct (negb _); [reflexivity|].
    rewrite filter_app. cbn [filter Appointment.doctor_id
      Appointment.appointment_date Appointment.appointment_time
      Appointment.status]. rewrite !Z.eqb_refl. cbn.
    now destruct (filter _ (appointments db)).
Qed.

Lemma booked_appointment_is_recorded_witness :
  get_appointment db_booked 1
  = Some (Appointment.mk 1 1 2 tuesday (mk_time 10 0) (Some 30) "checkup"
            (Some SCHEDULED) 1000 1000)
  /\ check_slot_availability db_booked 1 tuesday (mk_time 10 0) None = false.
Proof.
  destruct (booked_appointment_is_recorded clk0 db_window booking_10am
              patient2 db_booked
              (Appointment.mk 1 1 2 tuesday (mk_time 10 0) (Some 30)
                 "checkup" (Some SCHEDULED) 1000 1000) eq_refl)
    as [H1 [_ [H2 _]]].
  split; [exact H1|exact H2].
Defined.

(** ** What the slot generator offers *)

Lemma slot_loop_Forall (P : AvailableSlot.t -> Prop) booked doctor_id d s :
  (forall t, t < Schedule.end_time s ->
             in_booked_slots booked d t = false ->
             P (AvailableSlot.mk d t doctor_id)) ->
  forall fuel cur acc l,
    Forall P acc ->
    slot_loop fuel booked doctor_id d s cur acc = Some (Return l) ->
    Forall P l.
Proof.
  intro HP. induction fuel as [|fuel IH]; intros cur acc l Hacc;
    cbn [slot_loop]; [discriminate|].
  destruct (cur <? Schedule.end_time s) eqn:E.
  - apply Z.ltb_lt in E.
    destruct (Schedule.slot_duration s) as [m|]; [|discriminate].
    apply IH. destruct (in_booked_slots booked d cur) eqn:Eb; [assumption|].
    apply Forall_app. split; [assumption|]. constructor; [|constructor].
    now apply HP.
  - intro H. injection H as <-. assumption.
Qed.

Lemma schedule_loop_Forall (P : AvailableSlot.t -> Prop) fuel booked
  doctor_id d :
  forall ws acc l,
    (forall s t, In s ws -> t < Schedule.end_time s ->
                 in_booked_slots booked d t = false ->
                 P (AvailableSlot.mk d t doctor_id)) ->
    Forall P acc ->
    schedule_loop fuel booked doctor_id d ws acc = Some (Return l) ->
    Forall P l.
Proof.
  induction ws as [|s ws IH]; intros acc l HP Hacc; cbn [schedule_loop].
  - intro H. injection H as <-. assumption.
  - destruct (slot_loop fuel booked doctor_id d s (Schedule.start_time s) acc)
      as [[acc'|e]|] eqn:Es; try discriminate.
    apply IH.
    + intros s' t Hs'. apply HP. now right.
    + apply (slot_loop_Forall P booked doctor_id d s) in Es; try assumption.
      intros t. apply HP. now left.
Qed.

Lemma date_loop_Forall (P : AvailableSlot.t -> Prop) inner booked doctor_id
  ws start_date end_date :
  (forall d s t, start_date <= d <= end_date -> In s ws ->
                 Schedule.day_of_week s = weekday d ->
                 t < Schedule.end_time s ->
                 in_booked_slots booked d t = false ->
                 P (AvailableSlot.mk d t doctor_id)) ->
  forall fuel cur acc l,
    start_date <= cur ->
    Forall P acc ->
    date_loop fuel inner booked doctor_id ws cur end_date acc
    = Some (Return l) ->
    Forall P l.
Proof.
  intro HP. induction fuel as [|fuel IH]; intros cur acc l Hcur Hacc;
    cbn [date_loop]; [discriminate|].
  destruct (cur <=? end_date) eqn:E.
  - apply Z.leb_le in E.
    destruct (schedule_loop inner booked doctor_id cur _ acc)
      as [[acc'|e]|] eqn:Es; try discriminate.
    apply IH; [lia|].
    apply (schedule_loop_Forall P) in Es; try assumption.
    intros s t Hs. apply filter_In in Hs. destruct Hs as [Hs Hd].
    apply Z.eqb_eq in Hd. apply HP; [lia|assumption|assumption].
  - intro H. injection H as <-. assumption.
Qed.

Lemma order_by_day_start_In l y : In y (order_by_day_start l) -> In y l.
Proof.
  unfold order_by_day_start. induction l as [|x l IH]; cbn [fold_right];
    [tauto|].
  intro H. destruct (insert_schedule_In _ _ _ H) as [->|H'];
    [now left|right; now apply IH].
Qed.

Lemma get_schedules_by_doctor_In db doctor_id s :
  In s (get_schedules_by_doctor db doctor_id) ->
  In s (schedules db)
  /\ Schedule.doctor_id s = doctor_id
  /\ Schedule.is_active s = Some true.
Proof.
  intro H. apply order_by_day_start_In, filter_In in H.
  destruct H as [Hin H]. apply andb_prop in H. destruct H as [H1 H2].
  apply Z.eqb_eq in H1. repeat split; try assumption.
  destruct (Schedule.is_active s) as [[|]|]; try discriminate. reflexivity.
Qed.

Lemma not_in_booked_slots_of db doctor_id start_date end_date d t a :
  in_booked_slots (booked_slots_of db doctor_id start_date end_date) d t
  = false ->
  start_date <= d <= end_date ->
  In a (appointments db) ->
  Appointment.doctor_id a = doctor_id ->
  Appointment.appointment_date a = d ->
  Appointment.appointment_time a = t ->
  status_is_not (Appointment.status a) CANCELLED = false.
Proof.
  intros Hb Hd Ha H1 H2 H3.
  destruct (status_is_not (Appointment.status a) CANCELLED) eqn:Es;
    [|reflexivity].
  exfalso. rewrite <- not_true_iff_false in Hb. apply Hb.
  unfold in_booked_slots. apply existsb_exists.
  exists (Appointment.appointment_date a, Appointment.appointment_time a).
  split.
  - unfold booked_slots_of.
    apply (in_map (fun apt => (Appointment.appointment_date apt,
                               Appointment.appointment_time apt))).
    apply filter_In. split; [assumption|].
    rewrite H1, Z.eqb_refl, Es.
    replace (start_date <=? Appointment.appointment_date a) with true
      by (symmetry; apply Z.leb_le; lia).
    replace (Appointment.appointment_date a <=? end_date) with true
      by (symmetry; apply Z.leb_le; lia).
    reflexivity.
  - cbn [fst snd]. now rewrite H2, H3, !Z.eqb_refl.
Qed.

(** X4. Whatever [get_available_slots] returns, each slot in it carries the
    doctor's id, has its date inside the requested range, starts before the
    end of an active window of that doctor on the date's weekday, and is
    not held by any appointment of the doctor whose status differs from
    CANCELLED. *)
Theorem offered_slots_are_free_and_in_a_window :
  forall fuel db doctor_id start_date end_date l x,
    get_available_slots fuel db doctor_id start_date end_date
    = Some (Return l) ->
    In x l ->
    AvailableSlot.doctor_id x = doctor_id
    /\ start_date <= AvailableSlot.date x <= end_date
    /\ (exists s,
           In s (schedules db)
           /\ Schedule.doctor_id s = doctor_id
           /\ Schedule.is_active s = Some true
           /\ Schedule.day_of_week s = weekday (AvailableSlot.date x)
           /\ AvailableSlot.time x < Schedule.end_time s)
    /\ (forall a,
           In a (appointments db) ->
           Appointment.doctor_id a = doctor_id ->
           Appointment.appointment_date a = AvailableSlot.date x ->
           Appointment.appointment_time a = AvailableSlot.time x ->
           status_is_not (Appointment.status a) CANCELLED = false).
Proof.
  intros fuel db doctor_id start_date end_date l x Hret Hx.
  unfold get_available_slots in Hret.
  destruct (is_nil (get_schedules_by_doctor db doctor_id)).
  { injection Hret as <-. destruct Hx. }
  fold (booked_slots_of db doctor_id start_date end_date) in Hret.
  eapply (date_loop_Forall
            (fun x =>
               AvailableSlot.doctor_id x = doctor_id
               /\ start_date <= AvailableSlot.date x <= end_date
               /\ (exists s,
                      In s (schedules db)
                      /\ Schedule.doctor_id s = doctor_id
                      /\ Schedule.is_active s = Some true
                      /\ Schedule.day_of_week s
                         = weekday (AvailableSlot.date x)
                      /\ AvailableSlot.time x < Schedule.end_time s)
               /\ (forall a,
                      In a (appointments db) ->
                      Appointment.doctor_id a = doctor_id ->
                      Appointment.appointment_date a = AvailableSlot.date x ->
                      Appointment.appointment_time a = AvailableSlot.time x ->
                      status_is_not (Appointment.status a) CANCELLED = false))
            fuel _ doctor_id _ start_date end_date)
    in Hret.
  - rewrite Forall_forall in Hret. now apply Hret.
  - intros d s t Hd Hs Hdow Ht Hb. cbn [AvailableSlot.doctor_id
      AvailableSlot.date AvailableSlot.time].
    destruct (get_schedules_by_doctor_In _ _ _ Hs) as [Hs1 [Hs2 Hs3]].
    repeat split; try lia.
    + exists s. repeat split; assumption.
    + intros a Ha H1 H2 H3.
      now apply (not_in_booked_slots_of db doctor_id start_date end_date d t a).
  - lia.
  - constructor.
Qed.

Lemma offered_slots_are_free_and_in_a_window_witness :
  AvailableSlot.time (AvailableSlot.mk tuesday (mk_time 16 30) 1)
  < mk_time 17 0.
Proof.
  destruct (offered_slots_are_free_and_in_a_window 17 db_window 1 tuesday
              tuesday
              (map (fun t => AvailableSlot.mk tuesday t 1) half_hours_9_to_17)
              (AvailableSlot.mk tuesday (mk_time 16 30) 1))
    as [_ [_ [[s [Hs [_ [_ [_ Ht]]]]] _]]].
  - vm_compute. reflexivity.
  - do 15 right. now left.
  - destruct Hs as [<-|[]]. exact Ht.
Defined.

(** ** The windows table *)

Lemma get_schedule_Some (db : Db) (i : Z) (s : Schedule.t) :
  get_schedule db i = Some s -> In s (schedules db) /\ Schedule.id s = i.
Proof.
  unfold get_schedule. intro H. apply find_some in H.
  destruct H as [H1 H2]. split; [assumption|]. now apply Z.eqb_eq.
Qed.

Lemma schedule_key_taken_true rows s :
  In s rows ->
  schedule_key_taken rows (Schedule.doctor_id s) (Schedule.day_of_week s)
    (Schedule.start_time s) (Schedule.end_time s) = true.
Proof.
  intro H. unfold schedule_key_taken. apply existsb_exists. exists s.
  split; [assumption|]. now rewrite !Z.eqb_refl.
Qed.

Lemma schedule_key_taken_false rows doc dow st en :
  schedule_key_taken rows doc dow st en = false ->
  forall x, In x rows -> schedule_key x <> (doc, dow, st, en).
Proof.
  intros H x Hx E. unfold schedule_key in E. injection E as E1 E2 E3 E4.
  assert (schedule_key_taken rows doc dow st en = true) as H'.
  { subst. now apply schedule_key_taken_true. }
  congruence.
Qed.

Lemma replace_schedule_ids rows i r' :
  Schedule.id r' = i ->
  map Schedule.id (replace_schedule rows i r') = map Schedule.id rows.
Proof.
  intro Hi. induction rows as [|r rest IH]; cbn [replace_schedule map];
    [reflexivity|].
  destruct (Schedule.id r =? i) eqn:E; cbn [map].
  - apply Z.eqb_eq in E. congruence.
  - now rewrite IH.
Qed.

Lemma replace_schedule_In rows i r' x :
  NoDup (map Schedule.id rows) ->
  In x (replace_schedule rows i r') ->
  x = r' \/ (In x rows /\ Schedule.id x <> i).
Proof.
  induction rows as [|r rest IH]; cbn [replace_schedule map In]; [tauto|].
  intro Hnd. inversion Hnd as [|? ? Hr Hrest]; subst.
  destruct (Schedule.id r =? i) eqn:E; cbn [In].
  - apply Z.eqb_eq in E. intros [<-|H]; [now left|].
    right. split; [now right|]. intro Hx. apply Hr.
    rewrite E, <- Hx. now apply in_map.
  - apply Z.eqb_neq in E. intros [<-|H]; [right; tauto|].
    destruct (IH Hrest H) as [->|[? ?]]; [now left|right; tauto].
Qed.

Lemma replace_schedule_keys rows i r' :
  NoDup (map Schedule.id rows) ->
  NoDup (map schedule_key rows) ->
  (forall x, In x rows -> Schedule.id x <> i ->
             schedule_key x <> schedule_key r') ->
  NoDup (map schedule_key (replace_schedule rows i r')).
Proof.
  induction rows as [|r rest IH]; cbn [replace_schedule map];
    intros Hid Hk Hfresh; [constructor|].
  inversion Hid as [|? ? Hr Hrest]; subst.
  inversion Hk as [|? ? Hkr Hkrest]; subst.
  destruct (Schedule.id r =? i) eqn:E; cbn [map].
  - apply Z.eqb_eq in E. constructor; [|assumption].
    intro Hin. apply in_map_iff in Hin. destruct Hin as [x [Hx1 Hx2]].
    apply (Hfresh x); [now right| |assumption].
    intro Hxi. apply Hr. rewrite E, <- Hxi. now apply in_map.
  - apply Z.eqb_neq in E. constructor.
    + intro Hin. apply in_map_iff in Hin. destruct Hin as [x [Hx1 Hx2]].
      destruct (replace_schedule_In _ _ _ _ Hrest Hx2) as [->|[Hx3 _]].
      * apply (Hfresh r); [now left|assumption|now symmetry].
      * apply Hkr. rewrite <- Hx1. now apply in_map.
    + apply IH; auto. intros x Hx. apply Hfresh. now right.
Qed.

Lemma NoDup_map_filter {A K} (key : A -> K) (p : A -> bool) (l : list A) :
  NoDup (map key l) -> NoDup (map key (filter p l)).
Proof.
  induction l as [|x l IH]; cbn [map filter]; intro H; [constructor|].
  inversion H as [|? ? Hx Hl]; subst. destruct (p x); cbn [map].
  - constructor; [|now apply IH]. intro Hin. apply Hx.
    apply in_map_iff in Hin. destruct Hin as [y [Hy1 Hy2]].
    apply filter_In in Hy2. rewrite <- Hy1. apply in_map. tauto.
  - now apply IH.
Qed.

Lemma create_schedule_ok clk db body doctor_id :
  schedules_ok db -> schedules_ok (fst (create_schedule clk db body doctor_id)).
Proof.
  intros [Hid Hk]. unfold create_schedule.
  cbn [Schedule.day_of_week Schedule.start_time Schedule.end_time].
  destruct (schedule_key_taken _ _ _ _ _) eqn:E; cbn [fst]; [now split|].
  split; cbn [schedules]; rewrite map_app; cbn [map]; apply NoDup_snoc;
    try assumption.
  - cbn [Schedule.id]. intro Hin. apply next_id_fresh in Hin. lia.
  - intro Hin. apply in_map_iff in Hin. destruct Hin as [x [Hx1 Hx2]].
    now apply (schedule_key_taken_false _ _ _ _ _ E x Hx2).
Qed.

Lemma apply_schedule_updates_ok db i s u :
  get_schedule db i = Some s ->
  schedules_ok db -> schedules_ok (fst (apply_schedule_updates db i s u)).
Proof.
  intros Hget [Hid Hk]. unfold apply_schedule_updates.
  destruct (get_schedule_Some _ _ _ Hget) as [Hin Hi].
  destruct (setattr (ScheduleUpdate.day_of_week u) _) as [dow|]; [|now split].
  destruct (setattr (ScheduleUpdate.start_time u) _) as [st|]; [|now split].
  destruct (setattr (ScheduleUpdate.end_time u) _) as [en|]; [|now split].
  destruct (schedule_key_taken _ _ _ _ _) eqn:E; cbn [fst]; [now split|].
  split; cbn [schedules].
  - now rewrite replace_schedule_ids.
  - apply replace_schedule_keys; try assumption.
    intros x Hx Hxi. unfold schedule_key at 2. cbn.
    apply (schedule_key_taken_false _ _ _ _ _ E). apply filter_In.
    split; [assumption|]. apply negb_true_iff. now apply Z.eqb_neq.
Qed.

Lemma update_schedule_ok clk db i u :
  schedules_ok db -> schedules_ok (fst (update_schedule clk db i u)).
Proof.
  intro H. unfold update_schedule.
  destruct (get_schedule db i) as [s|] eqn:Hs; [|assumption].
  destruct (negb (is_nil _)); [assumption|].
  match goal with |- context [match ?p with Return _ => _ | Raise _ => _ end]
    => destruct p as [c|e] end; [|assumption].
  destruct (negb (is_nil c)); [assumption|].
  now apply apply_schedule_updates_ok.
Qed.

Lemma delete_schedule_ok clk db i :
  schedules_ok db -> schedules_ok (fst (delete_schedule clk db i)).
Proof.
  intros [Hid Hk]. unfold delete_schedule.
  destruct (get_schedule db i) as [s|]; [|now split].
  destruct (negb (is_nil _)); [now split|].
  split; cbn [fst schedules]; now apply NoDup_map_filter.
Qed.

Lemma update_appointment_schedules clk db i u :
  schedules (fst (update_appointment clk db i u)) = schedules db.
Proof.
  unfold update_appointment. destruct (get_appointment db i) as [a|];
    [|reflexivity].
  destruct (setattr (AppointmentUpdate.appointment_date u) _); [|reflexivity].
  destruct (setattr (AppointmentUpdate.appointment_time u) _); [|reflexivity].
  destruct (setattr (AppointmentUpdate.reason u) _); [|reflexivity].
  destruct (slot_key_taken _ _ _ _); reflexivity.
Qed.

Lemma bookSlot_schedules clk db body user :
  schedules (fst (bookSlot clk db body user)) = schedules db.
Proof.
  unfold bookSlot. destruct (AppointmentCreate.validate _ _); [|reflexivity].
  unfold create_new_appointment. destruct (negb _); [reflexivity|].
  destruct (negb _); [reflexivity|]. unfold create_appointment.
  destruct (slot_key_taken _ _ _ _); reflexivity.
Qed.

Lemma update_appointment_by_id_schedules clk db i u user :
  schedules (fst (update_appointment_by_id clk db i u user)) = schedules db.
Proof.
  unfold update_appointment_by_id.
  destruct (get_appointment db i) as [a|]; [|reflexivity].
  destruct (update_permission user a u); [reflexivity|].
  destruct (_ && _); [reflexivity|]. apply update_appointment_schedules.
Qed.

Lemma cancel_appointment_schedules clk db i user :
  schedules (fst (cancel_appointment clk db i user)) = schedules db.
Proof.
  unfold cancel_appointment.
  destruct (get_appointment db i) as [a|]; [|reflexivity].
  destruct (_ && _); [reflexivity|]. destruct (_ && _); [reflexivity|].
  match goal with |- context [update_appointment ?c ?d ?j ?v] =>
    pose proof (update_appointment_schedules c d j v) as H;
    destruct (update_appointment c d j v) as [db' [x|e]] end; exact H.
Qed.

Lemma schedules_ok_ext db db' :
  schedules db' = schedules db -> schedules_ok db -> schedules_ok db'.
Proof. unfold schedules_ok. now intros ->. Qed.

Lemma defineWindow_ok clk db body user :
  schedules_ok db -> schedules_ok (fst (defineWindow clk db body user)).
Proof.
  intro H. unfold defineWindow.
  destruct (ScheduleCreate.validate body) as [b|]; [|assumption].
  unfold create_doctor_schedule. destruct (negb _); [assumption|].
  pose proof (create_schedule_ok clk db b (User.id user) H) as H'.
  destruct (create_schedule clk db b (User.id user)) as [db' [x|[]]];
    assumption.
Qed.

Lemma update_doctor_schedule_ok clk db i u user :
  schedules_ok db ->
  schedules_ok (fst (update_doctor_schedule clk db i u user)).
Proof.
  intro H. unfold update_doctor_schedule.
  destruct (get_schedule db i) as [s|]; [|assumption].
  destruct (negb _); [assumption|].
  pose proof (update_schedule_ok clk db i u H) as H'.
  destruct (update_schedule clk db i u) as [db' [[x|]|[]]]; assumption.
Qed.

Lemma delete_doctor_schedule_ok clk db i user :
  schedules_ok db ->
  schedules_ok (fst (delete_doctor_schedule clk db i user)).
Proof.
  intro H. unfold delete_doctor_schedule.
  destruct (get_schedule db i) as [s|]; [|assumption].
  destruct (negb _); [assumption|].
  pose proof (delete_schedule_ok clk db i H) as H'.
  destruct (delete_schedule clk db i) as [db' [x|[]]]; assumption.
Qed.

Lemma serve_schedules_ok db ev : schedules_ok db -> schedules_ok (serve db ev).
Proof.
  destruct ev as [[clk user] [body|i body|i|body|i body|i]]; cbn [serve];
    intro H.
  - eapply schedules_ok_ext; [apply bookSlot_schedules|exact H].
  - eapply schedules_ok_ext; [apply update_appointment_by_id_schedules|exact H].
  - eapply schedules_ok_ext; [apply cancel_appointment_schedules|exact H].
  - now apply defineWindow_ok.
  - now apply update_doctor_schedule_ok.
  - now apply delete_doctor_schedule_ok.
Qed.

Lemma run_schedules_ok trace : forall db,
  schedules_ok db -> schedules_ok (run db trace).
Proof.
  unfold run. induction trace as [|ev trace IH]; intros db H; cbn [fold_left];
    [assumption|].
  apply IH. now apply serve_schedules_ok.
Qed.

(** X5. Defining a window whose (doctor, weekday, start, end) an existing
    row already has never stores anything; for a doctor sending valid
    bounds the answer is HTTP 400.  Hence, after any sequence of requests
    served from the empty database, no two windows share an id or share
    their (doctor, weekday, start, end). *)
Theorem no_duplicate_windows :
  (forall clk db body user s,
      In s (schedules db) ->
      schedule_key s = (User.id user, ScheduleCreate.day_of_week body,
                        ScheduleCreate.start_time body,
                        ScheduleCreate.end_time body) ->
      fst (defineWindow clk db body user) = db
      /\ (forall x, snd (defineWindow clk db body user) <> Return x)
      /\ (User.role user = DOCTOR ->
          ScheduleCreate.validate body = Return body ->
          snd (defineWindow clk db body user)
          = Raise (HTTPException 400
                     "A schedule already exists for this day and time")))
  /\ (forall trace,
         NoDup (map Schedule.id (schedules (run empty_db trace)))
         /\ NoDup (map schedule_key (schedules (run empty_db trace)))).
Proof.
  split.
  - intros clk db body user s Hin Hk. unfold defineWindow.
    destruct (ScheduleCreate.validate body) as [b|e] eqn:Ev.
    + assert (b = body) as ->.
      { unfold ScheduleCreate.validate in Ev.
        destruct (negb _); [discriminate|].
        destruct (_ <=? _); [discriminate|]. now injection Ev. }
      unfold create_doctor_schedule.
      destruct (User.role user) eqn:Er; cbn [UserRole_eqb negb].
      * unfold create_schedule.
        cbn [Schedule.day_of_week Schedule.start_time Schedule.end_time].
        unfold schedule_key in Hk. injection Hk as K1 K2 K3 K4.
        rewrite <- K1, <- K2, <- K3, <- K4.
        rewrite (schedule_key_taken_true _ s Hin). cbn.
        repeat split; discriminate.
      * cbn. repeat split; discriminate.
    + cbn. repeat split; discriminate.
  - intro trace. apply (run_schedules_ok trace empty_db).
    split; constructor.
Qed.

Lemma no_duplicate_windows_witness :
  defineWindow clk0 db_window nine_to_five doctor1
  = (db_window,
     Raise (HTTPException 400
              "A schedule already exists for this day and time")).
Proof.
  destruct (proj1 no_duplicate_windows clk0 db_window nine_to_five doctor1
              (Schedule.mk 1 1 1 (mk_time 9 0) (mk_time 17 0) (Some 30)
                 (Some true) 1000))
    as [H1 [_ H2]].
  - now left.
  - reflexivity.
  - rewrite (surjective_pairing (defineWindow _ _ _ _)), H1, H2;
      reflexivity.
Defined.

(** ** The guards of the windows *)

Lemma status_is_SCHEDULED s :
  status_is s SCHEDULED = true <-> s = Some SCHEDULED.
Proof.
  destruct s as [[| |]|]; cbn; split; congruence.
Qed.

Lemma inside_window_scan_In clk db s a :
  In a (inside_window_scan s
          (future_appointments clk db (Schedule.doctor_id s)))
  <-> promised clk db s a.
Proof.
  unfold inside_window_scan, future_appointments, promised.
  rewrite !filter_In, !andb_true_iff, !Z.eqb_eq, !Z.leb_le, Z.ltb_lt,
    status_is_SCHEDULED.
  tauto.
Qed.

Lemma nonempty_length {A} (l : list A) : l <> [] -> (0 < List.length l)%nat.
Proof. destruct l; [congruence|cbn; lia]. Qed.

Lemma exists_In_nonempty {A} (l : list A) (a : A) : In a l -> l <> [].
Proof. destruct l; [intros []|discriminate]. Qed.

Lemma negb_is_nil_nonempty {A} (l : list A) :
  l <> [] -> negb (is_nil l) = true.
Proof. destruct l; [congruence|reflexivity]. Qed.

Lemma get_schedule_without db i : get_schedule (without_schedule db i) i = None.
Proof.
  unfold get_schedule, without_schedule. cbn [schedules].
  destruct (find _ _) as [x|] eqn:E; [|reflexivity].
  apply find_some in E. destruct E as [E1 E2]. apply filter_In in E1.
  destruct E1 as [_ E1]. rewrite E2 in E1. discriminate.
Qed.

(** X6. The owning doctor deletes a window.  If the window holds a promised
    appointment (SCHEDULED, dated today or later, on its weekday, inside its
    hours) the request is refused with HTTP 400 naming their number and
    nothing changes; if it holds none, every row with that id is removed,
    the other windows and all appointments stay, and the id is no longer
    found. *)
Theorem delete_window_guard :
  forall clk db i s user,
    get_schedule db i = Some s ->
    Schedule.doctor_id s = User.id user ->
    ((exists a, promised clk db s a) ->
     exists n,
       (0 < n)%nat
       /\ n = List.length
                (filter (fun a =>
                           (Appointment.doctor_id a =? Schedule.doctor_id s)
                           && (today clk <=? Appointment.appointment_date a)
                           && status_is (Appointment.status a) SCHEDULED
                           && (weekday (Appointment.appointment_date a)
                               =? Schedule.day_of_week s)
                           && (Schedule.start_time s
                               <=? Appointment.appointment_time a)
                           && (Appointment.appointment_time a
                               <? Schedule.end_time s))
                        (appointments db))
       /\ delete_doctor_schedule clk db i user
          = (db, Raise (HTTPException 400
                          (refusal "Cannot delete schedule: " n
                             " appointments would be affected"))))
    /\ ((forall a, ~ promised clk db s a) ->
        delete_doctor_schedule clk db i user
        = (without_schedule db i, Return "Schedule deleted successfully")
        /\ get_schedule (without_schedule db i) i = None).
Proof.
  intros clk db i s user Hget Hown.
  unfold delete_doctor_schedule, delete_schedule. rewrite Hget.
  apply Z.eqb_eq in Hown. rewrite Hown. cbn [negb].
  split.
  - intros [a Ha]. apply inside_window_scan_In in Ha.
    pose proof (exists_In_nonempty _ _ Ha) as Hne.
    rewrite (negb_is_nil_nonempty _ Hne).
    exists (List.length
              (inside_window_scan s
                 (future_appointments clk db (Schedule.doctor_id s)))).
    split; [now apply nonempty_length|]. split; [|reflexivity].
    unfold inside_window_scan, future_appointments.
    clear. induction (appointments db) as [|x l IH]; [reflexivity|].
    cbn [filter].
    destruct ((Appointment.doctor_id x =? Schedule.doctor_id s)
              && (today clk <=? Appointment.appointment_date x)
              && status_is (Appointment.status x) SCHEDULED) eqn:E1;
      cbn [filter andb].
    + destruct ((weekday (Appointment.appointment_date x)
                 =? Schedule.day_of_week s)) eqn:E2; cbn [andb].
      * destruct (Schedule.start_time s <=? Appointment.appointment_time x);
          cbn [andb]; [|exact IH].
        destruct (Appointment.appointment_time x <? Schedule.end_time s);
          cbn [List.length]; [now f_equal|exact IH].
      * exact IH.
    + exact IH.
  - intro Hnone.
    assert (inside_window_scan s
              (future_appointments clk db (Schedule.doctor_id s)) = [])
      as ->.
    { destruct (inside_window_scan _ _) as [|a l] eqn:E; [reflexivity|].
      exfalso. apply (Hnone a). apply inside_window_scan_In. rewrite E.
      now left. }
    cbn [is_nil negb]. split; [reflexivity|apply get_schedule_without].
Qed.

Lemma delete_window_guard_witness :
  (exists n,
      (0 < n)%nat
      /\ snd (delete_doctor_schedule clk0 db_booked 1 doctor1)
         = Raise (HTTPException 400
                    (refusal "Cannot delete schedule: " n
                       " appointments would be affected")))
  /\ delete_doctor_schedule clk0 db_window 1 doctor1
     = (empty_db, Return "Schedule deleted successfully").
Proof.
  split.
  - destruct (proj1 (delete_window_guard clk0 db_booked 1
                       (Schedule.mk 1 1 1 (mk_time 9 0) (mk_time 17 0)
                          (Some 30) (Some true) 1000)
                       doctor1 eq_refl eq_refl))
      as [n [Hn [_ H]]].
    + exists (Appointment.mk 1 1 2 tuesday (mk_time 10 0) (Some 30)
                "checkup" (Some SCHEDULED) 1000 1000).
      unfold promised. cbn. repeat split; try (vm_compute; congruence).
      now left.
    + exists n. split; [exact Hn|]. now rewrite H.
  - apply (proj2 (delete_window_guard clk0 db_window 1
                    (Schedule.mk 1 1 1 (mk_time 9 0) (mk_time 17 0)
                       (Some 30) (Some true) 1000)
                    doctor1 eq_refl eq_refl)).
    intros a [[] _].
Defined.

Lemma own_schedule_key_free db i s :
  schedules_ok db -> get_schedule db i = Some s ->
  schedule_key_taken
    (filter (fun x => negb (Schedule.id x =? i)) (schedules db))
    (Schedule.doctor_id s) (Schedule.day_of_week s)
    (Schedule.start_time s) (Schedule.end_time s) = false.
Proof.
  intros [_ Hk] Hget. destruct (get_schedule_Some _ _ _ Hget) as [Hin Hi].
  destruct (schedule_key_taken _ _ _ _ _) eqn:E; [|reflexivity]. exfalso.
  unfold schedule_key_taken in E. apply existsb_exists in E.
  destruct E as [x [Hx Hkey]]. apply filter_In in Hx. destruct Hx as [Hx Hxi].
  apply negb_true_iff, Z.eqb_neq in Hxi.
  rewrite !andb_true_iff, !Z.eqb_eq in Hkey.
  assert (x = s) as ->.
  { apply (NoDup_map_inj_on schedule_key (schedules db)); try assumption.
    unfold schedule_key. destruct Hkey as [[[-> ->] ->] ->]. reflexivity. }
  congruence.
Qed.

Lemma future_appointments_In clk db doctor_id a :
  In a (future_appointments clk db doctor_id)
  <-> In a (appointments db)
      /\ Appointment.doctor_id a = doctor_id
      /\ today clk <= Appointment.appointment_date a
      /\ Appointment.status a = Some SCHEDULED.
Proof.
  unfold future_appointments.
  rewrite filter_In, !andb_true_iff, Z.eqb_eq, Z.leb_le, status_is_SCHEDULED.
  tauto.
Qed.

(** X7. The owning doctor deactivates a window (the request sets
    [is_active] to false and nothing else).  If the window holds a promised
    appointment the request is refused with HTTP 400 naming their number
    and nothing changes; if it holds none the row is stored with
    [is_active] false, everything else as before, and the doctor's listing
    of active windows no longer has a row of that id. *)
Theorem deactivate_window_guard :
  forall clk db i s user,
    schedules_ok db ->
    get_schedule db i = Some s ->
    Schedule.doctor_id s = User.id user ->
    (forall a,
        In a (inside_window_scan s
                (future_appointments clk db (Schedule.doctor_id s)))
        <-> promised clk db s a)
    /\ ((exists a, promised clk db s a) ->
        (0 < List.length
               (inside_window_scan s
                  (future_appointments clk db (Schedule.doctor_id s))))%nat
        /\ update_doctor_schedule clk db i deactivate_only user
           = (db, Raise (HTTPException 400
                           (refusal "Cannot deactivate schedule: "
                              (List.length
                                 (inside_window_scan s
                                    (future_appointments clk db
                                       (Schedule.doctor_id s))))
                              " appointments would be affected"))))
    /\ ((forall a, ~ promised clk db s a) ->
        update_doctor_schedule clk db i deactivate_only user
        = (write_schedule db i (with_is_active s (Some false)),
           Return (with_is_active s (Some false)))
        /\ forall x,
            In x (get_schedules_by_doctor
                    (write_schedule db i (with_is_active s (Some false)))
                    (Schedule.doctor_id s)) ->
            Schedule.id x <> i).
Proof.
  intros clk db i s user Hok Hget Hown.
  split; [intro a; apply inside_window_scan_In|].
  unfold update_doctor_schedule, update_schedule. rewrite Hget.
  apply Z.eqb_eq in Hown. rewrite Hown.
  cbn [negb deactivate_only ScheduleUpdate.is_active
       ScheduleUpdate.start_time ScheduleUpdate.end_time value_of is_set orb].
  split.
  - intros [a Ha]. apply inside_window_scan_In in Ha.
    pose proof (exists_In_nonempty _ _ Ha) as Hne.
    rewrite (negb_is_nil_nonempty _ Hne).
    split; [now apply nonempty_length|reflexivity].
  - intro Hnone.
    assert (inside_window_scan s
              (future_appointments clk db (Schedule.doctor_id s)) = [])
      as ->.
    { destruct (inside_window_scan _ _) as [|a l] eqn:E; [reflexivity|].
      exfalso. apply (Hnone a). apply inside_window_scan_In. rewrite E.
      now left. }
    cbn [is_nil negb]. unfold apply_schedule_updates.
    cbn [deactivate_only ScheduleUpdate.day_of_week ScheduleUpdate.start_time
         ScheduleUpdate.end_time ScheduleUpdate.slot_duration
         ScheduleUpdate.is_active setattr].
    rewrite (own_schedule_key_free db i s Hok Hget).
    split; [reflexivity|].
    intros x Hx. apply get_schedules_by_doctor_In in Hx.
    destruct Hx as [Hx [_ Hact]]. cbn [write_schedule schedules] in Hx.
    destruct Hok as [Hid _].
    destruct (replace_schedule_In _ _ _ _ Hid Hx) as [->|[_ Hne]];
      [discriminate Hact|assumption].
Qed.

Lemma deactivate_window_guard_witness :
  update_doctor_schedule clk0 db_booked 1 deactivate_only doctor1
  = (db_booked,
     Raise (HTTPException 400
              "Cannot deactivate schedule: 1 appointments would be affected"))
  /\ snd (update_doctor_schedule clk0 db_window 1 deactivate_only doctor1)
     = Return (Schedule.mk 1 1 1 (mk_time 9 0) (mk_time 17 0) (Some 30)
                 (Some false) 1000).
Proof.
  assert (schedules_ok db_booked) as Hok1
    by (apply run_schedules_ok, run_schedules_ok; split; constructor).
  assert (schedules_ok db_window) as Hok2
    by (apply run_schedules_ok; split; constructor).
  split.
  - destruct (deactivate_window_guard clk0 db_booked 1
                (Schedule.mk 1 1 1 (mk_time 9 0) (mk_time 17 0)
                   (Some 30) (Some true) 1000)
                doctor1 Hok1 eq_refl eq_refl) as [_ [H _]].
    destruct H as [_ H].
    + exists (Appointment.mk 1 1 2 tuesday (mk_time 10 0) (Some 30)
                "checkup" (Some SCHEDULED) 1000 1000).
      unfold promised. cbn. repeat split; try (vm_compute; congruence).
      now left.
    + rewrite H. reflexivity.
  - destruct (deactivate_window_guard clk0 db_window 1
                (Schedule.mk 1 1 1 (mk_time 9 0) (mk_time 17 0)
                   (Some 30) (Some true) 1000)
                doctor1 Hok2 eq_refl eq_refl) as [_ [_ H]].
    destruct H as [H _]; [intros a [[] _]|]. rewrite H. reflexivity.
Defined.

(** With both bounds given, the time-change scan is a filter. *)
Lemma outside_hours_scan_filter day_of_week new_start new_end :
  forall future acc,
    outside_hours_scan day_of_week (Some new_start) (Some new_end) future acc
    = Return
        (acc ++ filter
                  (fun apt =>
                     (weekday (Appointment.appointment_date apt)
                      =? day_of_week)
                     && negb ((new_start <=? Appointment.appointment_time apt)
                              && (Appointment.appointment_time apt
                                  <? new_end)))
                  future).
Proof.
  induction future as [|apt rest IH]; intro acc;
    cbn [outside_hours_scan filter].
  - now rewrite app_nil_r.
  - destruct (weekday (Appointment.appointment_date apt) =? day_of_week);
      cbn [andb]; [|apply IH].
    unfold outside_new_hours.
    destruct (new_start <=? Appointment.appointment_time apt); cbn [andb negb].
    + destruct (Appointment.appointment_time apt <? new_end); cbn [negb].
      * apply IH.
      * rewrite IH. now rewrite <- app_assoc.
    + rewrite IH. now rewrite <- app_assoc.
Qed.

Lemma left_outside_In clk db s new_start new_end a :
  In a (left_outside clk db s new_start new_end)
  <-> In a (appointments db)
      /\ Appointment.doctor_id a = Schedule.doctor_id s
      /\ today clk <= Appointment.appointment_date a
      /\ Appointment.status a = Some SCHEDULED
      /\ weekday (Appointment.appointment_date a) = Schedule.day_of_week s
      /\ ~ (new_start <= Appointment.appointment_time a < new_end).
Proof.
  unfold left_outside.
  rewrite filter_In, future_appointments_In, andb_true_iff, Z.eqb_eq,
    negb_true_iff, andb_false_iff, Z.leb_gt, Z.ltb_ge.
  intuition lia.
Qed.

(** X8. The owning doctor gives a window new hours.  If a SCHEDULED
    appointment of that doctor, dated today or later and on the window's
    weekday, has its time outside the new half-open range, the request is
    refused with HTTP 400 naming the number of such appointments, and
    nothing changes. *)
Theorem new_hours_refused_with_count :
  forall clk db i s user new_start new_end,
    get_schedule db i = Some s ->
    Schedule.doctor_id s = User.id user ->
    (exists a,
        In a (appointments db)
        /\ Appointment.doctor_id a = Schedule.doctor_id s
        /\ today clk <= Appointment.appointment_date a
        /\ Appointment.status a = Some SCHEDULED
        /\ weekday (Appointment.appointment_date a) = Schedule.day_of_week s
        /\ ~ (new_start <= Appointment.appointment_time a < new_end)) ->
    (0 < List.length (left_outside clk db s new_start new_end))%nat
    /\ update_doctor_schedule clk db i (new_hours new_start new_end) user
       = (db, Raise (HTTPException 400
                       (refusal "Cannot modify schedule: "
                          (List.length
                             (left_outside clk db s new_start new_end))
                          " appointments would be outside new hours"))).
Proof.
  intros clk db i s user new_start new_end Hget Hown [a Ha].
  apply left_outside_In in Ha.
  pose proof (exists_In_nonempty _ _ Ha) as Hne.
  split; [now apply nonempty_length|].
  unfold update_doctor_schedule, update_schedule. rewrite Hget.
  apply Z.eqb_eq in Hown. rewrite Hown.
  cbn [negb new_hours ScheduleUpdate.is_active ScheduleUpdate.start_time
       ScheduleUpdate.end_time value_of is_set orb is_nil setattr].
  rewrite outside_hours_scan_filter. cbn [app].
  fold (left_outside clk db s new_start new_end).
  now rewrite (negb_is_nil_nonempty _ Hne).
Qed.

Lemma new_hours_refused_with_count_witness :
  update_doctor_schedule clk0 db_booked 1
    (new_hours (mk_time 9 0) (mk_time 9 30)) doctor1
  = (db_booked,
     Raise (HTTPException 400
       "Cannot modify schedule: 1 appointments would be outside new hours")).
Proof.
  destruct (new_hours_refused_with_count clk0 db_booked 1
              (Schedule.mk 1 1 1 (mk_time 9 0) (mk_time 17 0)
                 (Some 30) (Some true) 1000)
              doctor1 (mk_time 9 0) (mk_time 9 30) eq_refl eq_refl)
    as [_ H].
  - exists (Appointment.mk 1 1 2 tuesday (mk_time 10 0) (Some 30)
              "checkup" (Some SCHEDULED) 1000 1000).
    cbn. repeat split; try (vm_compute; congruence); [now left|].
    vm_compute. intros [_ H]. discriminate H.
  - rewrite H. reflexivity.
Defined.

(** X9. The owning doctor widens a window (new start not later, new end not
    earlier).  If every SCHEDULED appointment of that doctor dated today or
    later on the window's weekday lies inside the old hours, and no other
    window has the new (doctor, weekday, start, end), the request succeeds:
    the row is stored with the new hours and everything else as before. *)
Theorem widening_accepted :
  forall clk db i s user new_start new_end,
    get_schedule db i = Some s ->
    Schedule.doctor_id s = User.id user ->
    new_start <= Schedule.start_time s ->
    Schedule.end_time s <= new_end ->
    (forall a,
        In a (appointments db) ->
        Appointment.doctor_id a = Schedule.doctor_id s ->
        today clk <= Appointment.appointment_date a ->
        Appointment.status a = Some SCHEDULED ->
        weekday (Appointment.appointment_date a) = Schedule.day_of_week s ->
        Schedule.start_time s <= Appointment.appointment_time a
        < Schedule.end_time s) ->
    schedule_key_taken
      (filter (fun x => negb (Schedule.id x =? i)) (schedules db))
      (Schedule.doctor_id s) (Schedule.day_of_week s) new_start new_end
    = false ->
    update_doctor_schedule clk db i (new_hours new_start new_end) user
    = (write_schedule db i (with_hours s new_start new_end),
       Return (with_hours s new_start new_end)).
Proof.
  intros clk db i s user new_start new_end Hget Hown Hs He Hin Hkey.
  unfold update_doctor_schedule, update_schedule. rewrite Hget.
  apply Z.eqb_eq in Hown. rewrite Hown.
  cbn [negb new_hours ScheduleUpdate.is_active ScheduleUpdate.start_time
       ScheduleUpdate.end_time value_of is_set orb is_nil setattr].
  rewrite (widening_scan_finds_nothing (Schedule.day_of_week s)
             (Schedule.start_time s) (Schedule.end_time s)
             new_start new_end Hs He).
  - cbn [is_nil negb]. unfold apply_schedule_updates.
    cbn [new_hours ScheduleUpdate.day_of_week ScheduleUpdate.start_time
         ScheduleUpdate.end_time ScheduleUpdate.slot_duration
         ScheduleUpdate.is_active setattr].
    now rewrite Hkey.
  - intros apt Hapt Hday. apply future_appointments_In in Hapt.
    destruct Hapt as [H1 [H2 [H3 H4]]]. now apply Hin.
Qed.

Lemma widening_accepted_witness :
  snd (update_doctor_schedule clk0 db_booked 1
         (new_hours (mk_time 8 0) (mk_time 18 0)) doctor1)
  = Return (Schedule.mk 1 1 1 (mk_time 8 0) (mk_time 18 0) (Some 30)
              (Some true) 1000).
Proof.
  rewrite (widening_accepted clk0 db_booked 1
             (Schedule.mk 1 1 1 (mk_time 9 0) (mk_time 17 0)
                (Some 30) (Some true) 1000)
             doctor1 (mk_time 8 0) (mk_time 18 0) eq_refl eq_refl).
  - reflexivity.
  - vm_compute. discriminate.
  - vm_compute. discriminate.
  - intros a [<-|[]] _ _ _ _. vm_compute. split; congruence.
  - reflexivity.
Defined.

(** ** Cancelling and access *)

Lemma owns_patient user a :
  User.role user = PATIENT ->
  (Appointment.patient_id a =? User.id user) = true <-> owns user a.
Proof. unfold owns. intros ->. apply Z.eqb_eq. Qed.

Lemma owns_doctor user a :
  User.role user = DOCTOR ->
  (Appointment.doctor_id a =? User.id user) = true <-> owns user a.
Proof. unfold owns. intros ->. apply Z.eqb_eq. Qed.

Lemma eqb_false_not_true (x y : Z) : (x =? y) <> true -> (x =? y) = false.
Proof. destruct (x =? y); congruence. Qed.

Lemma replace_appointment_twice rows i a' :
  Appointment.id a' = i ->
  replace_appointment (replace_appointment rows i a') i a'
  = replace_appointment rows i a'.
Proof.
  intro Hi. induction rows as [|r rest IH]; cbn [replace_appointment];
    [reflexivity|].
  destruct (Appointment.id r =? i) eqn:E; cbn [replace_appointment].
  - now rewrite Hi, Z.eqb_refl.
  - now rewrite E, IH.
Qed.

Lemma get_appointment_written db i a a' :
  get_appointment db i = Some a -> Appointment.id a' = i ->
  get_appointment (write_appointment db i a') i = Some a'.
Proof.
  unfold get_appointment, write_appointment. cbn [appointments].
  intros Hget Hi. induction (appointments db) as [|r rest IH];
    cbn [find replace_appointment] in *; [discriminate|].
  destruct (Appointment.id r =? i) eqn:E; cbn [find].
  - now rewrite Hi, Z.eqb_refl.
  - rewrite E. now apply IH.
Qed.

Lemma cancel_by_owner clk db i a user :
  appointments_ok db -> get_appointment db i = Some a -> owns user a ->
  cancel_appointment clk db i user
  = (write_appointment db i (with_status clk a CANCELLED),
     Return "Appointment cancelled successfully").
Proof.
  intros Hok Hget Hown. unfold cancel_appointment. rewrite Hget.
  destruct (User.role user) eqn:Er; cbn [UserRole_eqb andb].
  - apply (owns_doctor _ _ Er) in Hown. rewrite Hown. cbn [negb].
    fold (status_only CANCELLED).
    now rewrite (update_status_only clk db i a CANCELLED Hok Hget).
  - apply (owns_patient _ _ Er) in Hown. rewrite Hown. cbn [negb].
    fold (status_only CANCELLED).
    now rewrite (update_status_only clk db i a CANCELLED Hok Hget).
Qed.

(** X10. Cancelling is a soft delete and is idempotent: when the owner
    cancels, the row stays in place with status CANCELLED and only
    [updated_at] may change besides; cancelling again, at any later time,
    succeeds and leaves the database exactly as the first cancellation
    left it. *)
Theorem cancel_is_idempotent :
  forall clk clk' db i a user,
    appointments_ok db ->
    get_appointment db i = Some a ->
    owns user a ->
    cancel_appointment clk db i user
    = (write_appointment db i (with_status clk a CANCELLED),
       Return "Appointment cancelled successfully")
    /\ map Appointment.id
           (appointments (write_appointment db i (with_status clk a CANCELLED)))
       = map Appointment.id (appointments db)
    /\ cancel_appointment clk'
         (write_appointment db i (with_status clk a CANCELLED)) i user
       = (write_appointment db i (with_status clk a CANCELLED),
          Return "Appointment cancelled successfully").
Proof.
  intros clk clk' db i a user Hok Hget Hown.
  destruct (get_appointment_Some _ _ _ Hget) as [_ Hi].
  split; [now apply cancel_by_owner|]. split.
  - cbn [write_appointment appointments]. now apply replace_appointment_ids.
  - set (a' := with_status clk a CANCELLED).
    assert (Appointment.id a' = i) as Hi' by exact Hi.
    assert (appointments_ok (write_appointment db i a')) as Hok'.
    { pose proof (update_appointment_ok clk db i (status_only CANCELLED) Hok)
        as H.
      now rewrite (update_status_only clk db i a CANCELLED Hok Hget) in H. }
    rewrite (cancel_by_owner clk' _ i a' user Hok'
               (get_appointment_written db i a a' Hget Hi')).
    + f_equal. unfold write_appointment at 1. cbn [schedules appointments].
      unfold write_appointment. f_equal.
      replace (with_status clk' a' CANCELLED) with a'.
      * now apply replace_appointment_twice.
      * unfold a', with_status. cbn. reflexivity.
    + unfold owns in *. destruct (User.role user); exact Hown.
Qed.

Lemma cancel_is_idempotent_witness :
  cancel_appointment clk0 db_booked 1 patient2
  = (db_cancelled, Return "Appointment cancelled successfully")
  /\ cancel_appointment (mkClock 739921 2000) db_cancelled 1 patient2
     = (db_cancelled, Return "Appointment cancelled successfully").
Proof.
  assert (appointments_ok db_booked) as Hok
    by (apply run_ok, run_ok, empty_db_ok).
  destruct (cancel_is_idempotent clk0 (mkClock 739921 2000) db_booked 1
              (Appointment.mk 1 1 2 tuesday (mk_time 10 0) (Some 30)
                 "checkup" (Some SCHEDULED) 1000 1000)
              patient2 Hok eq_refl eq_refl) as [H1 [_ H2]].
  split; [exact H1|exact H2].
Defined.

Lemma update_appointment_ids clk db i u :
  map Appointment.id (appointments (fst (update_appointment clk db i u)))
  = map Appointment.id (appointments db).
Proof.
  unfold update_appointment.
  destruct (get_appointment db i) as [a|] eqn:Hget; [|reflexivity].
  destruct (get_appointment_Some _ _ _ Hget) as [_ Hi].
  destruct (setattr (AppointmentUpdate.appointment_date u) _); [|reflexivity].
  destruct (setattr (AppointmentUpdate.appointment_time u) _); [|reflexivity].
  destruct (setattr (AppointmentUpdate.reason u) _); [|reflexivity].
  destruct (slot_key_taken _ _ _ _); [reflexivity|].
  cbn [fst appointments]. now apply replace_appointment_ids.
Qed.

Lemma serve_keeps_ids db ev :
  exists extra,
    map Appointment.id (appointments (serve db ev))
    = map Appointment.id (appointments db) ++ extra.
Proof.
  destruct ev as [[clk user] [body|i body|i|body|i body|i]]; cbn [serve].
  - unfold bookSlot. destruct (AppointmentCreate.validate _ _) as [b|];
      [|exists []; now rewrite app_nil_r].
    unfold create_new_appointment.
    destruct (negb _); [exists []; now rewrite app_nil_r|].
    destruct (negb _); [exists []; now rewrite app_nil_r|].
    unfold create_appointment.
    destruct (slot_key_taken _ _ _ _); cbn [fst appointments].
    + exists []. now rewrite app_nil_r.
    + eexists. now rewrite map_app.
  - exists []. rewrite app_nil_r. unfold update_appointment_by_id.
    destruct (get_appointment db i) as [a|]; [|reflexivity].
    destruct (update_permission user a body); [reflexivity|].
    destruct (_ && _); [reflexivity|]. apply update_appointment_ids.
  - exists []. rewrite app_nil_r. unfold cancel_appointment.
    destruct (get_appointment db i) as [a|]; [|reflexivity].
    destruct (_ && _); [reflexivity|]. destruct (_ && _); [reflexivity|].
    match goal with |- context [update_appointment ?c ?d ?j ?v] =>
      pose proof (update_appointment_ids c d j v) as H;
      destruct (update_appointment c d j v) as [db' [x|e]] end; exact H.
  - exists []. now rewrite app_nil_r, defineWindow_appointments.
  - exists []. now rewrite app_nil_r, update_doctor_schedule_appointments.
  - exists []. now rewrite app_nil_r, delete_doctor_schedule_appointments.
Qed.

(** X11. No request removes an appointment: whatever sequence of requests
    is served, the ids in the appointments table before it are, in the same
    order, the first ids in the table after it. *)
Theorem appointments_are_never_removed :
  forall trace db,
    exists extra,
      map Appointment.id (appointments (run db trace))
      = map Appointment.id (appointments db) ++ extra.
Proof.
  unfold run. induction trace as [|ev trace IH]; intro db; cbn [fold_left].
  - exists []. now rewrite app_nil_r.
  - destruct (IH (serve db ev)) as [e1 H1].
    destruct (serve_keeps_ids db ev) as [e2 H2].
    exists (e2 ++ e1). now rewrite H1, H2, app_assoc.
Qed.

(** X12. An appointment is read, changed or cancelled only by its patient
    (acting as patient) or its doctor (acting as doctor): the owner reads
    it back, and for anyone else reading, updating and cancelling all end
    in HTTP 403 with the database untouched. *)
Theorem appointment_access_is_owner_only :
  forall clk db i a user,
    get_appointment db i = Some a ->
    (owns user a -> get_appointment_by_id db i user = Return a)
    /\ (~ owns user a ->
        (exists detail,
            get_appointment_by_id db i user
            = Raise (HTTPException 403 detail))
        /\ (forall u, exists detail,
               update_appointment_by_id clk db i u user
               = (db, Raise (HTTPException 403 detail)))
        /\ (exists detail,
               cancel_appointment clk db i user
               = (db, Raise (HTTPException 403 detail)))).
Proof.
  intros clk db i a user Hget.
  unfold get_appointment_by_id, update_appointment_by_id, update_permission,
    cancel_appointment. rewrite Hget.
  destruct (User.role user) eqn:Er; cbn [UserRole_eqb andb]; split.
  - intro Hown. apply (owns_doctor _ _ Er) in Hown. now rewrite Hown.
  - intro Hno. rewrite <- (owns_doctor _ _ Er) in Hno.
    apply eqb_false_not_true in Hno. rewrite Hno. cbn [negb].
    repeat split; try intro u; eexists; reflexivity.
  - intro Hown. apply (owns_patient _ _ Er) in Hown. now rewrite Hown.
  - intro Hno. rewrite <- (owns_patient _ _ Er) in Hno.
    apply eqb_false_not_true in Hno. rewrite Hno. cbn [negb].
    repeat split; try intro u; eexists; reflexivity.
Qed.

Lemma appointment_access_is_owner_only_witness :
  get_appointment_by_id db_booked 1 patient2
  = Return (Appointment.mk 1 1 2 tuesday (mk_time 10 0) (Some 30) "checkup"
              (Some SCHEDULED) 1000 1000)
  /\ exists detail,
      cancel_appointment clk0 db_booked 1 (User.mk 3 PATIENT)
      = (db_booked, Raise (HTTPException 403 detail)).
Proof.
  split.
  - apply (proj1 (appointment_access_is_owner_only clk0 db_booked 1
                    (Appointment.mk 1 1 2 tuesday (mk_time 10 0) (Some 30)
                       "checkup" (Some SCHEDULED) 1000 1000)
                    patient2 eq_refl)).
    reflexivity.
  - apply (proj2 (appointment_access_is_owner_only clk0 db_booked 1
                    (Appointment.mk 1 1 2 tuesday (mk_time 10 0) (Some 30)
                       "checkup" (Some SCHEDULED) 1000 1000)
                    (User.mk 3 PATIENT) eq_refl)).
    cbn. discriminate.
Defined.

(** ** The listings *)

Lemma appointment_le_total a b :
  appointment_le a b = false -> appointment_le b a = true.
Proof.
  unfold appointment_le. intro H. apply orb_false_iff in H.
  destruct H as [H1 H2]. apply Z.ltb_ge in H1.
  destruct (Z.eq_dec (Appointment.appointment_date a)
              (Appointment.appointment_date b)) as [E|E].
  - rewrite E, Z.eqb_refl in *. cbn [andb] in H2. apply Z.leb_gt in H2.
    apply orb_true_iff. right. cbn [andb]. apply Z.leb_le. lia.
  - apply orb_true_iff. left. apply Z.ltb_lt. lia.
Qed.

Lemma appointment_le_trans a b c :
  appointment_le a b = true -> appointment_le b c = true ->
  appointment_le a c = true.
Proof.
  unfold appointment_le. intros H1 H2.
  apply orb_true_iff in H1. apply orb_true_iff in H2.
  apply orb_true_iff.
  destruct H1 as [H1|H1], H2 as [H2|H2];
    rewrite ?andb_true_iff, ?Z.ltb_lt, ?Z.eqb_eq, ?Z.leb_le in *.
  - left. lia.
  - left. lia.
  - left. lia.
  - right. lia.
Qed.

Lemma insert_appointment_sorted x l :
  StronglySorted (fun a b => appointment_le a b = true) l ->
  StronglySorted (fun a b => appointment_le a b = true)
                 (insert_appointment x l).
Proof.
  induction l as [|z l IH]; cbn [insert_appointment]; intro Hs.
  - repeat constructor.
  - inversion Hs as [|? ? Hl Hz]; subst.
    destruct (appointment_le x z) eqn:E.
    + constructor; [assumption|]. constructor; [assumption|].
      rewrite Forall_forall in *. intros y Hy.
      apply (appointment_le_trans x z y E). now apply Hz.
    + constructor; [now apply IH|].
      apply Forall_forall. intros y Hy.
      apply (Permutation_in _ (insert_appointment_perm x l)) in Hy.
      destruct Hy as [<-|Hy].
      * now apply appointment_le_total.
      * rewrite Forall_forall in Hz. now apply Hz.
Qed.

Lemma order_by_date_time_sorted l :
  StronglySorted (fun a b => appointment_le a b = true)
                 (order_by_date_time l).
Proof.
  unfold order_by_date_time. induction l as [|x l IH]; cbn [fold_right].
  - constructor.
  - now apply insert_appointment_sorted.
Qed.

Lemma order_by_date_time_In l a : In a (order_by_date_time l) <-> In a l.
Proof.
  split; apply Permutation_in;
    [apply order_by_date_time_perm
    |apply Permutation_sym, order_by_date_time_perm].
Qed.

Lemma StronglySorted_filter_le {A} (R : A -> A -> Prop) (p : A -> bool) l :
  StronglySorted R l -> StronglySorted R (filter p l).
Proof.
  induction l as [|x l IH]; cbn [filter]; intro H; [constructor|].
  inversion H as [|? ? Hl Hx]; subst. destruct (p x); [|now apply IH].
  constructor; [now apply IH|].
  rewrite Forall_forall in *. intros y Hy. apply filter_In in Hy.
  now apply Hx.
Qed.

(** X13. The listings return exactly the rows asked for, each as often as
    it is in the table, ordered by date and then time:
    [get_appointments_by_patient] the rows of that patient,
    [get_appointments_by_doctor] the rows of that doctor, and
    [get_my_appointments] the one or the other by the actor's role. *)
Theorem listings_are_complete_and_sorted :
  forall db user_id,
    Permutation (get_appointments_by_patient db user_id)
      (filter (fun a => Appointment.patient_id a =? user_id)
              (appointments db))
    /\ StronglySorted (fun a b => appointment_le a b = true)
         (get_appointments_by_patient db user_id)
    /\ Permutation (get_appointments_by_doctor db user_id)
         (filter (fun a => Appointment.doctor_id a =? user_id)
                 (appointments db))
    /\ StronglySorted (fun a b => appointment_le a b = true)
         (get_appointments_by_doctor db user_id)
    /\ get_my_appointments db (User.mk user_id PATIENT)
       = get_appointments_by_patient db user_id
    /\ get_my_appointments db (User.mk user_id DOCTOR)
       = get_appointments_by_doctor db user_id.
Proof.
  intros db user_id.
  unfold get_appointments_by_patient, get_appointments_by_doctor.
  repeat split; try apply order_by_date_time_perm;
    apply order_by_date_time_sorted.
Qed.

(** X14. [get_doctor_appointments] never shows rows of another doctor: what
    it returns are rows of the table with the requested [doctor_id], all on
    the requested date when one is given, ordered by date and time; a
    patient whose id is not [doctor_id] is refused with HTTP 403. *)
Theorem doctor_appointments_listing :
  forall db doctor_id on_date user,
    (User.role user = PATIENT -> User.id user <> doctor_id ->
     get_doctor_appointments db doctor_id on_date user
     = Raise (HTTPException 403 "You can only view your own appointments"))
    /\ (forall l,
           get_doctor_appointments db doctor_id on_date user = Return l ->
           StronglySorted (fun a b => appointment_le a b = true) l
           /\ forall a,
               In a l
               <-> In a (appointments db)
                   /\ Appointment.doctor_id a = doctor_id
                   /\ (forall d, on_date = Some d ->
                                 Appointment.appointment_date a = d)).
Proof.
  intros db doctor_id on_date user. unfold get_doctor_appointments. split.
  - intros -> Hne. apply Z.eqb_neq in Hne. now rewrite Hne.
  - intro l. destruct (_ && _); [discriminate|].
    unfold get_appointments_by_doctor.
    destruct on_date as [d|]; intro H; injection H as <-; split.
    + apply StronglySorted_filter_le, order_by_date_time_sorted.
    + intro a. rewrite filter_In, order_by_date_time_In, filter_In,
        !Z.eqb_eq. split.
      * intros [[H1 H2] H3]. repeat split; try assumption.
        intros d' Hd. now injection Hd as <-.
      * intros [H1 [H2 H3]]. repeat split; try assumption.
        now apply H3.
    + apply order_by_date_time_sorted.
    + intro a. rewrite order_by_date_time_In, filter_In, Z.eqb_eq. split.
      * intros [H1 H2]. repeat split; try assumption. discriminate.
      * tauto.
Qed.

Lemma doctor_appointments_listing_witness :
  get_doctor_appointments db_booked 1 (Some tuesday) patient2
  = Raise (HTTPException 403 "You can only view your own appointments").
Proof.
  apply (proj1 (doctor_appointments_listing db_booked 1 (Some tuesday)
                  patient2)); [reflexivity|].
  cbn. discriminate.
Defined.

Lemma insert_schedule_perm x l : Permutation (insert_schedule x l) (x :: l).
Proof.
  induction l as [|y l IH]; cbn [insert_schedule]; [reflexivity|].
  destruct (schedule_le x y); [reflexivity|].
  rewrite IH. apply perm_swap.
Qed.

Lemma order_by_day_start_perm l : Permutation (order_by_day_start l) l.
Proof.
  unfold order_by_day_start. induction l as [|x l IH]; cbn [fold_right];
    [reflexivity|].
  rewrite insert_schedule_perm. now constructor.
Qed.

(** X15. [get_schedules_by_doctor] returns exactly the doctor's rows whose
    [is_active] is true (a NULL flag counts as inactive), each as often as
    it is in the table, ordered by weekday and then start time.
    [get_my_schedules] serves that list to a doctor and refuses anyone else
    with HTTP 403. *)
Theorem active_windows_listing :
  forall db user,
    Permutation (get_schedules_by_doctor db (User.id user))
      (filter (fun s => (Schedule.doctor_id s =? User.id user)
                        && is_true (Schedule.is_active s))
              (schedules db))
    /\ (forall s,
           In s (get_schedules_by_doctor db (User.id user))
           <-> In s (schedules db)
               /\ Schedule.doctor_id s = User.id user
               /\ Schedule.is_active s = Some true)
    /\ StronglySorted (fun a b => schedule_le a b = true)
         (get_schedules_by_doctor db (User.id user))
    /\ get_my_schedules db user
       = match User.role user with
         | DOCTOR => Return (get_schedules_by_doctor db (User.id user))
         | PATIENT => Raise (HTTPException 403 "Only doctors have schedules")
         end.
Proof.
  intros db user. split; [apply order_by_day_start_perm|]. split; [|split].
  - intro s. split; [apply get_schedules_by_doctor_In|].
    intros [H1 [H2 H3]]. unfold get_schedules_by_doctor.
    apply (Permutation_in _ (Permutation_sym (order_by_day_start_perm _))).
    apply filter_In. split; [assumption|].
    now rewrite H2, H3, Z.eqb_refl.
  - apply get_schedules_by_doctor_sorted.
  - unfold get_my_schedules. now destruct (User.role user).
Qed.

(** ** A slot length of zero *)

Lemma slot_loop_stalls booked doctor_id d s minutes :
  Schedule.slot_duration s = Some minutes ->
  minutes mod 1440 = 0 ->
  forall fuel cur acc,
    0 <= cur < usec_per_day ->
    cur < Schedule.end_time s ->
    slot_loop fuel booked doctor_id d s cur acc = None.
Proof.
  intros Hdur Hm. induction fuel as [|fuel IH]; intros cur acc Hcur Hlt;
    [reflexivity|].
  cbn [slot_loop]. rewrite Hdur.
  replace (cur <? Schedule.end_time s) with true
    by (symmetry; now apply Z.ltb_lt).
  replace (next_slot_time cur minutes) with cur; [now apply IH|].
  unfold next_slot_time.
  apply Z.mod_divide in Hm; [|lia]. destruct Hm as [k ->].
  replace (cur + k * 1440 * usec_per_minute) with (cur + k * usec_per_day)
    by (unfold usec_per_minute, usec_per_day; lia).
  rewrite Z.mod_add by (unfold usec_per_day; lia).
  symmetry. now apply Z.mod_small.
Qed.

Lemma schedule_loop_stalls fuel booked doctor_id d s minutes :
  Schedule.slot_duration s = Some minutes ->
  minutes mod 1440 = 0 ->
  0 <= Schedule.start_time s < usec_per_day ->
  Schedule.start_time s < Schedule.end_time s ->
  forall ws acc l,
    In s ws ->
    schedule_loop fuel booked doctor_id d ws acc <> Some (Return l).
Proof.
  intros Hdur Hm Hst Hlt. induction ws as [|w ws IH]; intros acc l Hin;
    [destruct Hin|].
  cbn [schedule_loop]. destruct Hin as [->|Hin].
  - now rewrite (slot_loop_stalls booked doctor_id d s minutes Hdur Hm).
  - destruct (slot_loop fuel booked doctor_id d w (Schedule.start_time w) acc)
      as [[acc'|e]|]; try discriminate. now apply IH.
Qed.

Lemma date_loop_stalls inner booked doctor_id ws s minutes d end_date :
  Schedule.slot_duration s = Some minutes ->
  minutes mod 1440 = 0 ->
  0 <= Schedule.start_time s < usec_per_day ->
  Schedule.start_time s < Schedule.end_time s ->
  In s ws ->
  Schedule.day_of_week s = weekday d ->
  d <= end_date ->
  forall fuel cur acc l,
    cur <= d ->
    date_loop fuel inner booked doctor_id ws cur end_date acc
    <> Some (Return l).
Proof.
  intros Hdur Hm Hst Hlt Hin Hdow Hd.
  induction fuel as [|fuel IH]; intros cur acc l Hcur; [discriminate|].
  cbn [date_loop].
  replace (cur <=? end_date) with true by (symmetry; apply Z.leb_le; lia).
  destruct (Z.eq_dec cur d) as [->|Hne].
  - pose proof (schedule_loop_stalls inner booked doctor_id d s minutes
                  Hdur Hm Hst Hlt
                  (filter (fun x => Schedule.day_of_week x =? weekday d) ws)
                  acc) as H.
    destruct (schedule_loop inner booked doctor_id d _ acc) as [[acc'|e]|];
      try discriminate.
    exfalso. apply (H acc'); [|reflexivity].
    apply filter_In. split; [assumption|]. now apply Z.eqb_eq.
  - destruct (schedule_loop inner booked doctor_id cur _ acc) as [[acc'|e]|];
      try discriminate.
    apply IH. lia.
Qed.

(** X16. A slot length of zero minutes (or any multiple of 24 hours), which
    the schema accepts, stalls the generator: if the doctor has such an
    active window with [start_time < end_time] and a date of the range
    falls on its weekday, [get_available_slots] returns no list, however
    much fuel it is given. *)
Theorem zero_slot_length_never_returns :
  forall db doctor_id s minutes d start_date end_date fuel l,
    In s (get_schedules_by_doctor db doctor_id) ->
    Schedule.slot_duration s = Some minutes ->
    minutes mod 1440 = 0 ->
    0 <= Schedule.start_time s < usec_per_day ->
    Schedule.start_time s < Schedule.end_time s ->
    Schedule.day_of_week s = weekday d ->
    start_date <= d <= end_date ->
    get_available_slots fuel db doctor_id start_date end_date
    <> Some (Return l).
Proof.
  intros db doctor_id s minutes d start_date end_date fuel l
    Hin Hdur Hm Hst Hlt Hdow Hd.
  unfold get_available_slots.
  destruct (get_schedules_by_doctor db doctor_id) as [|w ws] eqn:E;
    [destruct Hin|]. cbn [is_nil].
  apply (date_loop_stalls fuel _ doctor_id (w :: ws) s minutes d end_date);
    try assumption; lia.
Qed.

Lemma zero_slot_length_never_returns_witness :
  get_available_slots 5000
    (run empty_db [(clk0, doctor1, POST_schedule zero_minute_slots)])
    1 tuesday tuesday
  <> Some (Return []).
Proof.
  apply (zero_slot_length_never_returns _ 1
           (Schedule.mk 1 1 1 (mk_time 9 0) (mk_time 17 0) (Some 0)
              (Some true) 1000) 0 tuesday).
  - now left.
  - reflexivity.
  - reflexivity.
  - vm_compute. split; congruence.
  - vm_compute. reflexivity.
  - reflexivity.
  - lia.
Defined.

(** ** Editing a window, editing an appointment *)

(** X17. [update_schedule] on an existing window either commits a row that
    keeps [id], [doctor_id] and [created_at] and every column the request
    leaves unset, or raises with the database as it was. *)
Theorem update_schedule_frame :
  forall clk db i u s,
    get_schedule db i = Some s ->
    (exists s',
        update_schedule clk db i u
        = (write_schedule db i s', Return (Some s'))
        /\ Schedule.id s' = Schedule.id s
        /\ Schedule.doctor_id s' = Schedule.doctor_id s
        /\ Schedule.created_at s' = Schedule.created_at s
        /\ (ScheduleUpdate.day_of_week u = Unset ->
            Schedule.day_of_week s' = Schedule.day_of_week s)
        /\ (ScheduleUpdate.start_time u = Unset ->
            Schedule.start_time s' = Schedule.start_time s)
        /\ (ScheduleUpdate.end_time u = Unset ->
            Schedule.end_time s' = Schedule.end_time s)
        /\ (ScheduleUpdate.slot_duration u = Unset ->
            Schedule.slot_duration s' = Schedule.slot_duration s)
        /\ (ScheduleUpdate.is_active u = Unset ->
            Schedule.is_active s' = Schedule.is_active s))
    \/ (exists e, update_schedule clk db i u = (db, Raise e)).
Proof.
  intros clk db i u s Hget. unfold update_schedule. rewrite Hget.
  destruct (negb (is_nil _)); [right; eexists; reflexivity|].
  match goal with |- context [match ?p with Return _ => _ | Raise _ => _ end]
    => destruct p as [c|e] end; [|right; eexists; reflexivity].
  destruct (negb (is_nil c)); [right; eexists; reflexivity|].
  unfold apply_schedule_updates.
  destruct (setattr (ScheduleUpdate.day_of_week u) _) as [dow|] eqn:E1;
    [|right; eexists; reflexivity].
  destruct (setattr (ScheduleUpdate.start_time u) _) as [st|] eqn:E2;
    [|right; eexists; reflexivity].
  destruct (setattr (ScheduleUpdate.end_time u) _) as [en|] eqn:E3;
    [|right; eexists; reflexivity].
  destruct (schedule_key_taken _ _ _ _ _); [right; eexists; reflexivity|].
  left. eexists. split; [reflexivity|]. cbn.
  repeat split; intro Hu; rewrite Hu in *; cbn in *; congruence.
Qed.

Lemma update_schedule_frame_witness :
  exists s',
    snd (update_schedule clk0 db_window 1
           (ScheduleUpdate.mk Unset Unset Unset (Given (Some 45)) Unset))
    = Return (Some s')
    /\ Schedule.start_time s' = mk_time 9 0
    /\ Schedule.end_time s' = mk_time 17 0.
Proof.
  destruct (update_schedule_frame clk0 db_window 1
              (ScheduleUpdate.mk Unset Unset Unset (Given (Some 45)) Unset)
              (Schedule.mk 1 1 1 (mk_time 9 0) (mk_time 17 0) (Some 30)
                 (Some true) 1000) eq_refl)
    as [[s' [H [_ [_ [_ [_ [H1 [H2 _]]]]]]]]|[e H]].
  - exists s'. rewrite H. split; [reflexivity|].
    split; [exact (H1 eq_refl)|exact (H2 eq_refl)].
  - vm_compute in H. discriminate H.
Defined.

Lemma check_accepts_only_free db doctor_id d t i a :
  check_slot_availability db doctor_id d t (Some i) = true ->
  In a (appointments db) ->
  slot_key a = (doctor_id, d, t) ->
  Appointment.id a <> i ->
  status_is_not (Appointment.status a) CANCELLED = false.
Proof.
  unfold check_slot_availability.
  destruct (find _ (schedules db)) as [s|]; [|discriminate].
  destruct (negb _); [discriminate|].
  intros Hq Ha Hk Hid. unfold slot_key in Hk. injection Hk as K1 K2 K3.
  destruct (status_is_not (Appointment.status a) CANCELLED) eqn:Hst;
    [|reflexivity]. exfalso.
  assert (In a (filter
                  (fun a =>
                     (Appointment.doctor_id a =? doctor_id)
                     && (Appointment.appointment_date a =? d)
                     && (Appointment.appointment_time a =? t)
                     && status_is_not (Appointment.status a) CANCELLED)
                  (appointments db))) as Haq.
  { apply filter_In. split; [assumption|].
    now rewrite K1, K2, K3, !Z.eqb_refl, Hst. }
  destruct (i =? 0).
  - apply is_nil_true in Hq. rewrite Hq in Haq. destruct Haq.
  - apply is_nil_true in Hq.
    pose proof (filter_nil_false _ _ a Hq Haq) as Hx.
    apply negb_false_iff, Z.eqb_eq in Hx. contradiction.
Qed.

(** X18. Moving an appointment onto a (date, time) that another row of the
    same doctor holds, where the availability check passes: that row is
    then CANCELLED (or has no status), the unique constraint refuses the
    update, nothing is written, and the route lets the [ValueError] escape
    instead of answering with an [HTTPException]. *)
Theorem reschedule_onto_cancelled_row_raises :
  forall clk db i u user a x,
    get_appointment db i = Some a ->
    update_permission user a u = None ->
    changing_time u = true ->
    check_slot_availability db (Appointment.doctor_id a)
      (new_date a u) (new_time a u) (Some i) = true ->
    In x (appointments db) ->
    Appointment.id x <> i ->
    slot_key x = (Appointment.doctor_id a, new_date a u, new_time a u) ->
    update_appointment_by_id clk db i u user
    = (db, Raise (ValueError "This time slot is already booked"))
    /\ (Appointment.status x = Some CANCELLED
        \/ Appointment.status x = None).
Proof.
  intros clk db i u user a x Hget Hperm Hch Hcheck Hx Hxi Hk. split.
  - unfold update_appointment_by_id. rewrite Hget, Hperm, Hch, Hcheck.
    cbn [negb andb]. unfold update_appointment. rewrite Hget.
    unfold new_date, new_time in Hk.
    destruct (AppointmentUpdate.appointment_date u) as [|[d|]];
      cbn [setattr value_of] in *; try reflexivity;
      destruct (AppointmentUpdate.appointment_time u) as [|[t|]];
      cbn [setattr value_of] in *; try reflexivity;
      (destruct (setattr (AppointmentUpdate.reason u) _); [|reflexivity]);
      (match goal with |- context [slot_key_taken ?l ?p ?q ?r] =>
         replace (slot_key_taken l p q r) with true; [reflexivity|] end);
      symmetry; unfold slot_key in Hk; injection Hk as K1 K2 K3;
      rewrite <- K1, <- K2, <- K3; apply slot_key_taken_true;
      apply filter_In; (split; [assumption|]);
      apply negb_true_iff; now apply Z.eqb_neq.
  - pose proof (check_accepts_only_free _ _ _ _ _ x Hcheck Hx Hk Hxi) as H.
    destruct (Appointment.status x) as [[| |]|]; cbn in H;
      try discriminate; auto.
Qed.

Lemma reschedule_onto_cancelled_row_raises_witness :
  update_appointment_by_id clk0 db_cancelled_and_11am 2 move_to_10am patient2
  = (db_cancelled_and_11am,
     Raise (ValueError "This time slot is already booked")).
Proof.
  apply (reschedule_onto_cancelled_row_raises clk0 db_cancelled_and_11am 2
           move_to_10am patient2
           (Appointment.mk 2 1 2 tuesday (mk_time 11 0) (Some 30)
              "second visit" (Some SCHEDULED) 1000 1000)
           (Appointment.mk 1 1 2 tuesday (mk_time 10 0) (Some 30)
              "checkup" (Some CANCELLED) 1000 1000));
    try reflexivity.
  - now left.
  - cbn. discriminate.
Defined.

(** ** The availability route *)

Lemma length_times_from n t step : List.length (times_from n t step) = n.
Proof.
  revert t. induction n as [|n IH]; intro t; cbn [times_from List.length];
    [reflexivity|]. now rewrite IH.
Qed.

Lemma length_flat_map_le {A B} (f : A -> list B) (k : nat) (l : list A) :
  (forall x, In x l -> (List.length (f x) <= k)%nat) ->
  (List.length (flat_map f l) <= List.length l * k)%nat.
Proof.
  induction l as [|x l IH]; intro H; cbn [flat_map List.length]; [lia|].
  rewrite length_app.
  pose proof (H x (or_introl eq_refl)).
  assert (forall y, In y l -> (List.length (f y) <= k)%nat) as H'
    by (intros y Hy; apply H; now right).
  specialize (IH H'). lia.
Qed.

Lemma length_free_slots booked doctor_id d ts :
  (List.length (free_slots booked doctor_id d ts) <= List.length ts)%nat.
Proof.
  unfold free_slots. rewrite length_map. apply filter_length_le.
Qed.

Lemma length_window_times s :
  regular_window s -> (List.length (window_times s) <= 1439)%nat.
Proof.
  intros [m [Hdur [Hm [Hs He]]]]. unfold window_times. rewrite Hdur.
  rewrite length_times_from.
  pose proof (slot_count_regular_bound s m Hdur Hm Hs He). lia.
Qed.

(** X19. The availability route refuses a range that ends before it starts
    and a range longer than 30 days, each with HTTP 400.  For a range it
    accepts and windows with a positive slot length and
    [end_time + slot length <= 24:00], it returns (1440 units of fuel
    suffice, whatever the request) a list of at most 31 x 1439 slots per
    active window. *)
Theorem available_slots_route_is_bounded :
  forall db doctor_id start_date end_date,
    (end_date < start_date ->
     forall fuel,
       get_doctor_available_slots fuel db doctor_id start_date end_date
       = Some (Raise (HTTPException 400
                        "End date must be after start date")))
    /\ (30 < end_date - start_date ->
        forall fuel,
          get_doctor_available_slots fuel db doctor_id start_date end_date
          = Some (Raise (HTTPException 400
                           "Date range cannot exceed 30 days")))
    /\ (start_date <= end_date <= start_date + 30 ->
        Forall regular_window (get_schedules_by_doctor db doctor_id) ->
        forall fuel,
          (1440 <= fuel)%nat ->
          exists l,
            get_doctor_available_slots fuel db doctor_id start_date end_date
            = Some (Return l)
            /\ (List.length l
                <= 31 * List.length (get_schedules_by_doctor db doctor_id)
                   * 1439)%nat).
Proof.
  intros db doctor_id start_date end_date.
  unfold get_doctor_available_slots. repeat split.
  - intros H fuel. apply Z.ltb_lt in H. now rewrite H.
  - intros H fuel.
    replace (end_date <? start_date) with false
      by (symmetry; apply Z.ltb_ge; lia).
    apply Z.ltb_lt in H. now rewrite H.
  - intros Hr Hreg fuel Hfuel.
    replace (end_date <? start_date) with false
      by (symmetry; apply Z.ltb_ge; lia).
    replace (30 <? end_date - start_date) with false
      by (symmetry; apply Z.ltb_ge; lia).
    rewrite get_available_slots_regular by (try assumption; lia).
    eexists. split; [reflexivity|].
    unfold slots_by_date_window_time.
    set (ws := get_schedules_by_doctor db doctor_id) in *.
    etransitivity.
    + apply (length_flat_map_le _ (List.length ws * 1439)).
      intros d _. etransitivity.
      * apply (length_flat_map_le _ 1439). intros s Hs.
        etransitivity; [apply length_free_slots|].
        apply length_window_times. apply filter_In in Hs.
        rewrite Forall_forall in Hreg. now apply Hreg.
      * apply Nat.mul_le_mono_r. apply filter_length_le.
    + unfold dates_between. rewrite length_times_from.
      assert (Z.to_nat (end_date - start_date + 1) <= 31)%nat by lia.
      rewrite Nat.mul_assoc. apply Nat.mul_le_mono_r.
      now apply Nat.mul_le_mono_r.
Qed.

Lemma available_slots_route_is_bounded_witness :
  get_doctor_available_slots 10 db_window 1 tuesday (tuesday + 31)
  = Some (Raise (HTTPException 400 "Date range cannot exceed 30 days"))
  /\ exists l,
      get_doctor_available_slots 1440 db_window 1 tuesday (tuesday + 30)
      = Some (Return l)
      /\ (List.length l <= 31 * 1 * 1439)%nat.
Proof.
  split.
  - apply (proj1 (proj2 (available_slots_route_is_bounded db_window 1
                           tuesday (tuesday + 31)))).
    lia.
  - apply (proj2 (proj2 (available_slots_route_is_bounded db_window 1
                           tuesday (tuesday + 30)))).
    + lia.
    + repeat constructor. exists 30. repeat split; vm_compute; discriminate.
    + apply le_n.
Defined.

(** ** Offered slots against the booking check *)

Lemma times_from_before_end (en step : Z) :
  0 < step ->
  forall n cur x,
    n = slot_count cur en step -> In x (times_from n cur step) -> x < en.
Proof.
  intro Hs. induction n as [|n IH]; intros cur x Hn; cbn [times_from In];
    [tauto|].
  assert (cur < en) as Hlt.
  { destruct (Z_lt_le_dec cur en) as [H|H]; [assumption|].
    rewrite (slot_count_done _ _ _ Hs H) in Hn. discriminate. }
  intros [<-|Hx]; [assumption|].
  apply (IH (cur + step)); [|assumption].
  rewrite (slot_count_step _ _ _ Hs Hlt) in Hn. now injection Hn.
Qed.

Lemma times_from_unit_range n : forall t x,
  In x (times_from n t 1) -> t <= x < t + Z.of_nat n.
Proof.
  induction n as [|n IH]; intros t x; cbn [times_from In]; [tauto|].
  intros [<-|H]; [lia|]. specialize (IH _ _ H). lia.
Qed.

Lemma find_exists {A} (p : A -> bool) (l : list A) (a : A) :
  In a l -> p a = true -> exists b, find p l = Some b.
Proof.
  intros Ha Hp. destruct (find p l) as [b|] eqn:E; [now exists b|].
  pose proof (find_none p l E a Ha). congruence.
Qed.

(** X20. Offered slots pass the booking check.  For a doctor with at most
    one active window per weekday, all of them with a positive slot length
    and [end_time + slot length <= 24:00], every slot that
    [get_available_slots] returns is accepted by
    [check_slot_availability]. *)
Theorem offered_slots_pass_the_booking_check :
  forall db doctor_id start_date end_date fuel l x,
    Forall regular_window (get_schedules_by_doctor db doctor_id) ->
    (forall s1 s2,
        In s1 (schedules db) -> In s2 (schedules db) ->
        Schedule.doctor_id s1 = doctor_id ->
        Schedule.doctor_id s2 = doctor_id ->
        Schedule.is_active s1 = Some true ->
        Schedule.is_active s2 = Some true ->
        Schedule.day_of_week s1 = Schedule.day_of_week s2 ->
        s1 = s2) ->
    (1440 <= fuel)%nat ->
    (Z.to_nat (end_date - start_date + 1) < fuel)%nat ->
    get_available_slots fuel db doctor_id start_date end_date
    = Some (Return l) ->
    In x l ->
    check_slot_availability db doctor_id (AvailableSlot.date x)
      (AvailableSlot.time x) None = true.
Proof.
  intros db doctor_id start_date end_date fuel l x Hreg Huniq Hf1 Hf2 Hret Hx.
  rewrite get_available_slots_regular in Hret by assumption.
  injection Hret as <-. unfold slots_by_date_window_time in Hx.
  apply in_flat_map in Hx. destruct Hx as [d [Hd Hx]].
  apply in_flat_map in Hx. destruct Hx as [s [Hs Hx]].
  apply filter_In in Hs. destruct Hs as [Hs Hdow]. apply Z.eqb_eq in Hdow.
  unfold free_slots in Hx. apply in_map_iff in Hx.
  destruct Hx as [t [<- Ht]]. apply filter_In in Ht.
  destruct Ht as [Ht Hfree]. apply negb_true_iff in Hfree.
  cbn [AvailableSlot.date AvailableSlot.time].
  (* the date is in range, the time is inside the window *)
  apply times_from_unit_range in Hd.
  assert (start_date <= d <= end_date) as Hrange by lia.
  rewrite Forall_forall in Hreg.
  destruct (Hreg s Hs) as [m [Hdur [Hm [Hst Hen]]]].
  assert (0 < m * usec_per_minute) as Hstep
    by (unfold usec_per_minute; lia).
  unfold window_times in Ht. rewrite Hdur in Ht.
  pose proof (times_from_lower _ _ Hstep _ _ Ht) as Hlo.
  pose proof (times_from_before_end _ _ Hstep _ _ _ eq_refl Ht) as Hhi.
  destruct (get_schedules_by_doctor_In _ _ _ Hs) as [Hs1 [Hs2 Hs3]].
  (* the window the check looks at is this one *)
  unfold check_slot_availability.
  destruct (find_exists
              (fun s0 => (Schedule.doctor_id s0 =? doctor_id)
                         && (Schedule.day_of_week s0 =? weekday d)
                         && is_true (Schedule.is_active s0))
              (schedules db) s Hs1) as [s' Hfind].
  { now rewrite Hs2, Hdow, Hs3, !Z.eqb_refl. }
  rewrite Hfind. apply find_some in Hfind. destruct Hfind as [Hs' Hp].
  rewrite !andb_true_iff, !Z.eqb_eq in Hp. destruct Hp as [[Hp1 Hp2] Hp3].
  assert (s' = s) as ->.
  { apply Huniq; try assumption; try congruence.
    destruct (Schedule.is_active s') as [[|]|]; try discriminate.
    reflexivity. }
  replace (Schedule.start_time s <=? t) with true
    by (symmetry; apply Z.leb_le; lia).
  replace (t <? Schedule.end_time s) with true
    by (symmetry; apply Z.ltb_lt; lia).
  cbn [andb negb].
  rewrite filter_none; [reflexivity|].
  intros a Ha.
  destruct ((Appointment.doctor_id a =? doctor_id)
            && (Appointment.appointment_date a =? d)
            && (Appointment.appointment_time a =? t)) eqn:Ek;
    [|reflexivity].
  rewrite !andb_true_iff, !Z.eqb_eq in Ek. destruct Ek as [[K1 K2] K3].
  cbn [andb].
  now apply (not_in_booked_slots_of db doctor_id start_date end_date d t a).
Qed.

Lemma offered_slots_pass_the_booking_check_witness :
  check_slot_availability db_booked 1 tuesday (mk_time 16 30) None = true.
Proof.
  apply (offered_slots_pass_the_booking_check db_booked 1 tuesday tuesday
           1440
           (slots_by_date_window_time db_booked 1 tuesday tuesday)
           (AvailableSlot.mk tuesday (mk_time 16 30) 1)).
  - repeat constructor. exists 30. repeat split; vm_compute; discriminate.
  - intros s1 s2 [<-|[]] [<-|[]] _ _ _ _ _. reflexivity.
  - apply le_n.
  - vm_compute. repeat constructor.
  - apply get_available_slots_regular.
    + repeat constructor. exists 30. repeat split; vm_compute; discriminate.
    + apply le_n.
    + vm_compute. repeat constructor.
  - vm_compute. do 14 right. now left.
Defined.

(** ** Ids and the exclusion test *)

Lemma next_id_positive ids : 1 <= next_id ids.
Proof.
  unfold next_id. assert (0 <= fold_right Z.max 0 ids); [|lia].
  induction ids as [|x ids IH]; cbn [fold_right]; lia.
Qed.

Lemma serve_ids_cases db ev :
  map Appointment.id (appointments (serve db ev))
  = map Appointment.id (appointments db)
  \/ map Appointment.id (appointments (serve db ev))
     = map Appointment.id (appointments db)
       ++ [next_id (map Appointment.id (appointments db))].
Proof.
  destruct ev as [[clk user] [body|i body|i|body|i body|i]]; cbn [serve].
  - unfold bookSlot. destruct (AppointmentCreate.validate _ _) as [b|];
      [|now left].
    unfold create_new_appointment.
    destruct (negb _); [now left|]. destruct (negb _); [now left|].
    unfold create_appointment.
    destruct (slot_key_taken _ _ _ _); cbn [fst appointments]; [now left|].
    right. now rewrite map_app.
  - left. unfold update_appointment_by_id.
    destruct (get_appointment db i) as [a|]; [|reflexivity].
    destruct (update_permission user a body); [reflexivity|].
    destruct (_ && _); [reflexivity|]. apply update_appointment_ids.
  - left. unfold cancel_appointment.
    destruct (get_appointment db i) as [a|]; [|reflexivity].
    destruct (_ && _); [reflexivity|]. destruct (_ && _); [reflexivity|].
    match goal with |- context [update_appointment ?c ?d ?j ?v] =>
      pose proof (update_appointment_ids c d j v) as H;
      destruct (update_appointment c d j v) as [db' [x|e]] end; exact H.
  - left. now rewrite defineWindow_appointments.
  - left. now rewrite update_doctor_schedule_appointments.
  - left. now rewrite delete_doctor_schedule_appointments.
Qed.

Lemma run_ids_positive trace : forall db,
  Forall (fun i => 1 <= i) (map Appointment.id (appointments db)) ->
  Forall (fun i => 1 <= i) (map Appointment.id (appointments (run db trace))).
Proof.
  unfold run. induction trace as [|ev trace IH]; intros db H;
    cbn [fold_left]; [assumption|].
  apply IH. destruct (serve_ids_cases db ev) as [->| ->]; [assumption|].
  apply Forall_app. split; [assumption|].
  constructor; [apply next_id_positive|constructor].
Qed.

(** X21. Appointment ids are positive in every database reached from the
    empty one, so the truthiness test on [exclude_appointment_id] never
    drops an exclusion: for an appointment of such a database, the check
    with its id excluded is the booking check on the ledger without its
    row. *)
Theorem exclusion_by_id_is_effective :
  forall trace a doctor_id d t,
    In a (appointments (run empty_db trace)) ->
    1 <= Appointment.id a
    /\ check_slot_availability (run empty_db trace) doctor_id d t
         (Some (Appointment.id a))
       = check_slot_availability
           (fst (delete_appointment (run empty_db trace) (Appointment.id a)))
           doctor_id d t None.
Proof.
  intros trace a doctor_id d t Ha.
  assert (1 <= Appointment.id a) as Hpos.
  { pose proof (run_ids_positive trace empty_db (Forall_nil _)) as H.
    rewrite Forall_forall in H. apply H. now apply in_map. }
  split; [assumption|].
  destruct (find_exists (fun r => Appointment.id r =? Appointment.id a)
              (appointments (run empty_db trace)) a Ha (Z.eqb_refl _))
    as [a' Hget].
  apply (check_excluding_is_check_without _ _ _ _ _ a'); [exact Hget|lia].
Qed.

Lemma exclusion_by_id_is_effective_witness :
  check_slot_availability db_booked 1 tuesday (mk_time 10 0) (Some 1) = true.
Proof.
  destruct (exclusion_by_id_is_effective
              [(clk0, doctor1, POST_schedule nine_to_five);
               (clk0, patient2, POST_appointment booking_10am)]
              (Appointment.mk 1 1 2 tuesday (mk_time 10 0) (Some 30)
                 "checkup" (Some SCHEDULED) 1000 1000)
              1 tuesday (mk_time 10 0)) as [_ H].
  - now left.
  - etransitivity; [exact H|reflexivity].
Defined.

(** ** The hard delete of the CRUD layer *)

(** X22. [delete_appointment] answers false and changes nothing when the id
    is unknown; otherwise it answers true, the id is no longer found, the
    rows of other ids are exactly those that remain, and the windows are
    untouched. *)
Theorem delete_appointment_removes_the_row :
  forall db i,
    (get_appointment db i = None -> delete_appointment db i = (db, false))
    /\ (forall a,
           get_appointment db i = Some a ->
           snd (delete_appointment db i) = true
           /\ get_appointment (fst (delete_appointment db i)) i = None
           /\ (forall x,
                  In x (appointments (fst (delete_appointment db i)))
                  <-> In x (appointments db) /\ Appointment.id x <> i)
           /\ schedules (fst (delete_appointment db i)) = schedules db).
Proof.
  intros db i. unfold delete_appointment. split.
  - now intros ->.
  - intros a ->. cbn [fst snd appointments schedules].
    split; [reflexivity|]. split; [|split; [|reflexivity]].
    + unfold get_appointment. cbn [appointments].
      destruct (find _ _) as [x|] eqn:E; [|reflexivity].
      apply find_some in E. destruct E as [E1 E2]. apply filter_In in E1.
      destruct E1 as [_ E1]. rewrite E2 in E1. discriminate.
    + intro x. rewrite filter_In, negb_true_iff, Z.eqb_neq. tauto.
Qed.

Lemma delete_appointment_removes_the_row_witness :
  delete_appointment db_window 7 = (db_window, false)
  /\ get_appointment (fst (delete_appointment db_booked 1)) 1 = None.
Proof.
  split.
  - apply (proj1 (delete_appointment_removes_the_row db_window 7)).
    reflexivity.
  - destruct (proj2 (delete_appointment_removes_the_row db_booked 1)
                (Appointment.mk 1 1 2 tuesday (mk_time 10 0) (Some 30)
                   "checkup" (Some SCHEDULED) 1000 1000) eq_refl)
      as [_ [H _]].
    exact H.
Defined.

(** ** Rescheduling into the past *)

(** X23. The update route has no date validator: a request that moves an
    appointment to a date before today is committed whenever the
    availability check passes and no other row holds the new triple,
    whereas bookSlot refuses the same date with a validation error. *)
Theorem reschedule_accepts_past_dates :
  forall clk db i user a d,
    get_appointment db i = Some a ->
    update_permission user a (new_date_only d) = None ->
    d < today clk ->
    check_slot_availability db (Appointment.doctor_id a) d
      (Appointment.appointment_time a) (Some i) = true ->
    slot_key_taken
      (filter (fun x => negb (Appointment.id x =? i)) (appointments db))
      (Appointment.doctor_id a) d (Appointment.appointment_time a) = false ->
    update_appointment_by_id clk db i (new_date_only d) user
    = (write_appointment db i (with_date clk a d),
       Return (Some (with_date clk a d)))
    /\ forall body booker,
        AppointmentCreate.appointment_date body = d ->
        bookSlot clk db body booker
        = (db, Raise (RequestValidationError
                        "Appointment date must be in the future")).
Proof.
  intros clk db i user a d Hget Hperm Hd Hcheck Hkey. split.
  - unfold update_appointment_by_id. rewrite Hget, Hperm.
    cbn [new_date_only changing_time new_date new_time value_of
         AppointmentUpdate.appointment_date
         AppointmentUpdate.appointment_time].
    rewrite Hcheck. cbn [negb andb].
    unfold update_appointment. rewrite Hget.
    cbn [new_date_only setattr AppointmentUpdate.appointment_date
         AppointmentUpdate.appointment_time AppointmentUpdate.reason
         AppointmentUpdate.status].
    rewrite Hkey. unfold appointment_modified, with_date, write_appointment.
    rewrite Z.eqb_refl, String.eqb_refl.
    replace (opt_eqb AppointmentStatus_eqb (Appointment.status a)
               (Appointment.status a)) with true
      by (now destruct (Appointment.status a) as [[| |]|]).
    rewrite !andb_true_r.
    now destruct (Appointment.appointment_date a =? d).
  - intros body booker Hb. unfold bookSlot, AppointmentCreate.validate.
    rewrite Hb. replace (d <? today clk) with true
      by (symmetry; now apply Z.ltb_lt).
    reflexivity.
Qed.

Lemma reschedule_accepts_past_dates_witness :
  exists a',
    update_appointment_by_id (mkClock (tuesday + 14) 5000) db_booked 1
      (new_date_only (tuesday - 7)) doctor1
    = (write_appointment db_booked 1 a', Return (Some a'))
    /\ Appointment.appointment_date a' = tuesday - 7.
Proof.
  eexists. split.
  - apply (reschedule_accepts_past_dates (mkClock (tuesday + 14) 5000)
             db_booked 1 doctor1
             (Appointment.mk 1 1 2 tuesday (mk_time 10 0) (Some 30)
                "checkup" (Some SCHEDULED) 1000 1000) (tuesday - 7));
      try reflexivity.
  - reflexivity.
Defined.

(** ** What a move and a cancellation leave behind *)

Lemma slot_key_taken_none rows doc d t :
  (forall x, In x rows -> slot_key x <> (doc, d, t)) ->
  slot_key_taken rows doc d t = false.
Proof.
  intro H. destruct (slot_key_taken rows doc d t) eqn:E; [|reflexivity].
  exfalso. unfold slot_key_taken in E. apply existsb_exists in E.
  destruct E as [x [Hx Hk]]. rewrite !andb_true_iff, !Z.eqb_eq in Hk.
  apply (H x Hx). unfold slot_key. destruct Hk as [[-> ->] ->]. reflexivity.
Qed.

Lemma update_appointment_Return clk db i u a db' a' :
  get_appointment db i = Some a ->
  update_appointment clk db i u = (db', Return (Some a')) ->
  db' = write_appointment db i a'
  /\ Appointment.id a' = i
  /\ Appointment.doctor_id a' = Appointment.doctor_id a.
Proof.
  intros Hget. unfold update_appointment. rewrite Hget.
  destruct (get_appointment_Some _ _ _ Hget) as [_ Hi].
  destruct (setattr (AppointmentUpdate.appointment_date u) _); [|discriminate].
  destruct (setattr (AppointmentUpdate.appointment_time u) _); [|discriminate].
  destruct (setattr (AppointmentUpdate.reason u) _); [|discriminate].
  destruct (slot_key_taken _ _ _ _); [discriminate|].
  intro H. injection H as <- <-. repeat split. exact Hi.
Qed.

(** X24. A committed update moves the appointment: afterwards it is found
    under its id with the new values and holds its triple, and if the
    triple changed no row at all holds the old one any more. *)
Theorem committed_move_frees_the_old_triple :
  forall clk db i u a db' a',
    appointments_ok db ->
    get_appointment db i = Some a ->
    update_appointment clk db i u = (db', Return (Some a')) ->
    get_appointment db' i = Some a'
    /\ slot_key_taken (appointments db') (Appointment.doctor_id a')
         (Appointment.appointment_date a') (Appointment.appointment_time a')
       = true
    /\ (slot_key a' <> slot_key a ->
        slot_key_taken (appointments db') (Appointment.doctor_id a)
          (Appointment.appointment_date a) (Appointment.appointment_time a)
        = false).
Proof.
  intros clk db i u a db' a' [Hid Hk] Hget Hup.
  destruct (update_appointment_Return _ _ _ _ _ _ _ Hget Hup)
    as [-> [Hi' Hdoc]].
  destruct (get_appointment_Some _ _ _ Hget) as [Hin Hi].
  pose proof (get_appointment_written db i a a' Hget Hi') as Hget'.
  split; [assumption|]. split.
  - apply slot_key_taken_true.
    now destruct (get_appointment_Some _ _ _ Hget').
  - intro Hne. apply slot_key_taken_none. intros x Hx.
    cbn [write_appointment appointments] in Hx.
    destruct (replace_appointment_In _ _ _ _ Hid Hx) as [->|[Hx1 Hx2]].
    + exact Hne.
    + intro E. apply Hx2. rewrite <- Hi. f_equal.
      now apply (NoDup_map_inj_on slot_key (appointments db)).
Qed.

Lemma committed_move_frees_the_old_triple_witness :
  slot_key_taken
    (appointments (fst (update_appointment clk0 db_booked 1 move_to_11am)))
    1 tuesday (mk_time 10 0) = false.
Proof.
  assert (appointments_ok db_booked) as Hok
    by (apply run_ok, run_ok, empty_db_ok).
  destruct (committed_move_frees_the_old_triple clk0 db_booked 1 move_to_11am
              (Appointment.mk 1 1 2 tuesday (mk_time 10 0) (Some 30)
                 "checkup" (Some SCHEDULED) 1000 1000)
              (fst (update_appointment clk0 db_booked 1 move_to_11am))
              (Appointment.mk 1 1 2 tuesday (mk_time 11 0) (Some 30)
                 "checkup" (Some SCHEDULED) 1000 1000)
              Hok eq_refl eq_refl) as [_ [_ H]].
  apply H. vm_compute. discriminate.
Defined.

(** X25. A cancelled appointment keeps its triple: as long as a CANCELLED
    row holds (doctor, date, time), bookSlot for that triple never returns
    an appointment and writes nothing; when the booking passes the role,
    date and availability checks, the answer is HTTP 400 "This time slot is
    already booked". *)
Theorem cancelled_row_blocks_rebooking :
  forall clk db body user a,
    In a (appointments db) ->
    slot_key a = (AppointmentCreate.doctor_id body,
                  AppointmentCreate.appointment_date body,
                  AppointmentCreate.appointment_time body) ->
    Appointment.status a = Some CANCELLED ->
    fst (bookSlot clk db body user) = db
    /\ (forall x, snd (bookSlot clk db body user) <> Return x)
    /\ (User.role user = PATIENT ->
        today clk <= AppointmentCreate.appointment_date body ->
        check_slot_availability db (AppointmentCreate.doctor_id body)
          (AppointmentCreate.appointment_date body)
          (AppointmentCreate.appointment_time body) None = true ->
        snd (bookSlot clk db body user)
        = Raise (HTTPException 400 "This time slot is already booked")).
Proof.
  intros clk db body user a Hin Hk _.
  destruct (bookSlot_taken clk db body user a Hin Hk) as [H1 [H2 _]].
  split; [assumption|]. split; [assumption|].
  intros Hrole Hdate Hcheck.
  unfold bookSlot, AppointmentCreate.validate, create_new_appointment.
  replace (AppointmentCreate.appointment_date body <? today clk) with false
    by (symmetry; apply Z.ltb_ge; lia).
  rewrite Hrole, Hcheck. cbn [UserRole_eqb negb].
  now rewrite (create_appointment_taken clk db body (User.id user) a Hin Hk).
Qed.

Lemma cancelled_row_blocks_rebooking_witness :
  snd (bookSlot (mkClock tuesday 9000) db_cancelled booking_10am
         (User.mk 5 PATIENT))
  = Raise (HTTPException 400 "This time slot is already booked").
Proof.
  destruct (cancelled_row_blocks_rebooking (mkClock tuesday 9000)
              db_cancelled booking_10am (User.mk 5 PATIENT)
              (Appointment.mk 1 1 2 tuesday (mk_time 10 0) (Some 30)
                 "checkup" (Some CANCELLED) 1000 1000))
    as [_ [_ H]].
  - now left.
  - reflexivity.
  - reflexivity.
  - apply H; [reflexivity|vm_compute; discriminate|reflexivity].
Defined.

(** ** A slot length of NULL *)

Lemma slot_loop_null_duration booked doctor_id d s :
  Schedule.slot_duration s = None ->
  forall fuel cur acc l,
    cur < Schedule.end_time s ->
    slot_loop fuel booked doctor_id d s cur acc <> Some (Return l).
Proof.
  intros Hdur fuel cur acc l Hlt. destruct fuel as [|fuel]; [discriminate|].
  cbn [slot_loop]. rewrite Hdur.
  replace (cur <? Schedule.end_time s) with true
    by (symmetry; now apply Z.ltb_lt).
  discriminate.
Qed.

Lemma schedule_loop_null_duration fuel booked doctor_id d s :
  Schedule.slot_duration s = None ->
  Schedule.start_time s < Schedule.end_time s ->
  forall ws acc l,
    In s ws ->
    schedule_loop fuel booked doctor_id d ws acc <> Some (Return l).
Proof.
  intros Hdur Hlt. induction ws as [|w ws IH]; intros acc l Hin;
    [destruct Hin|].
  cbn [schedule_loop]. destruct Hin as [->|Hin].
  - pose proof (slot_loop_null_duration booked doctor_id d s Hdur fuel
                  (Schedule.start_time s) acc) as H.
    destruct (slot_loop fuel booked doctor_id d s (Schedule.start_time s) acc)
      as [[acc'|e]|]; try discriminate.
    exfalso. now apply (H acc').
  - destruct (slot_loop fuel booked doctor_id d w (Schedule.start_time w) acc)
      as [[acc'|e]|]; try discriminate. now apply IH.
Qed.

Lemma date_loop_null_duration inner booked doctor_id ws s d end_date :
  Schedule.slot_duration s = None ->
  Schedule.start_time s < Schedule.end_time s ->
  In s ws ->
  Schedule.day_of_week s = weekday d ->
  d <= end_date ->
  forall fuel cur acc l,
    cur <= d ->
    date_loop fuel inner booked doctor_id ws cur end_date acc
    <> Some (Return l).
Proof.
  intros Hdur Hlt Hin Hdow Hd.
  induction fuel as [|fuel IH]; intros cur acc l Hcur; [discriminate|].
  cbn [date_loop].
  replace (cur <=? end_date) with true by (symmetry; apply Z.leb_le; lia).
  destruct (Z.eq_dec cur d) as [->|Hne].
  - pose proof (schedule_loop_null_duration inner booked doctor_id d s
                  Hdur Hlt
                  (filter (fun x => Schedule.day_of_week x =? weekday d) ws)
                  acc) as H.
    destruct (schedule_loop inner booked doctor_id d _ acc) as [[acc'|e]|];
      try discriminate.
    exfalso. apply (H acc'); [|reflexivity].
    apply filter_In. split; [assumption|]. now apply Z.eqb_eq.
  - destruct (schedule_loop inner booked doctor_id cur _ acc) as [[acc'|e]|];
      try discriminate.
    apply IH. lia.
Qed.

(** X26. A window whose [slot_duration] was set to NULL (the update schema
    allows it) breaks the generator: if the doctor has such an active
    window with [start_time < end_time] and a date of the range falls on
    its weekday, [get_available_slots] returns no list. *)
Theorem null_slot_length_never_returns :
  forall db doctor_id s d start_date end_date fuel l,
    In s (get_schedules_by_doctor db doctor_id) ->
    Schedule.slot_duration s = None ->
    Schedule.start_time s < Schedule.end_time s ->
    Schedule.day_of_week s = weekday d ->
    start_date <= d <= end_date ->
    get_available_slots fuel db doctor_id start_date end_date
    <> Some (Return l).
Proof.
  intros db doctor_id s d start_date end_date fuel l Hin Hdur Hlt Hdow Hd.
  unfold get_available_slots.
  destruct (get_schedules_by_doctor db doctor_id) as [|w ws] eqn:E;
    [destruct Hin|]. cbn [is_nil].
  apply (date_loop_null_duration fuel _ doctor_id (w :: ws) s d end_date);
    try assumption; lia.
Qed.

Lemma null_slot_length_never_returns_witness :
  get_available_slots 100
    (fst (update_doctor_schedule clk0 db_window 1
            (ScheduleUpdate.mk Unset Unset Unset (Given None) Unset) doctor1))
    1 tuesday tuesday
  <> Some (Return []).
Proof.
  apply (null_slot_length_never_returns _ 1
           (Schedule.mk 1 1 1 (mk_time 9 0) (mk_time 17 0) None
              (Some true) 1000) tuesday).
  - now left.
  - reflexivity.
  - vm_compute. reflexivity.
  - reflexivity.
  - lia.
Defined.
